(** * Pharmacy inventory backend: ledger, alerts, forecast and waste analytics

    A shallow embedding of the batch/transaction bookkeeping of
    [routers/inventory.py], [routers/waste.py] and [routers/alerts.py], of the
    demand heuristic of [ml_models/forecasting.py] with the reorder
    suggestions of [routers/forecasting.py], and of the keyword
    categorisation of [ml_models/categorization.py]; the properties the
    specification states about them, and further properties of the same
    code.

    Conventions of the embedding.
    - Python [int] is [Z].  The float arithmetic of the forecast and of the
      waste analytics is IEEE 754 binary64, the floats of CPython, computed
      with the primitive floats of Rocq: [int(x)] truncates the number that
      [x] denotes and [round(x, 2)] is the double nearest to that number
      rounded to two decimals, ties to even.  A price is kept as the decimal
      it was entered as ([Q]) and enters the arithmetic as the nearest
      double.  The confidence score, a number of hundredths, and the money
      columns of the two waste listings are computed on exact rationals; for
      the confidence the two readings are compared on a range of inputs.
    - A [datetime] is a number of seconds ([Z]); a [date] is a number of
      days, [date d = d / 86400].  [now] is the reading of the clock during
      a request.
    - The tables [medicines] and [batches] are finite maps from primary key
      to row.  The tables [inventory_transactions] and [alerts] are only ever
      appended to (no statement of the code deletes a row), so they are lists
      in insertion order and the row with primary key [k] sits at index
      [k - 1].
    - A request handler is a computation over an ORM session that can raise
      an [HTTPException]; what a request leaves in the database is what it
      committed.  The error kinds of the specification are HTTP errors here:
      InsufficientStock is 400 "Insufficient stock", ExceedsAvailable is 400
      "Damaged quantity exceeds available stock", NotFound is 404. *)

From Stdlib Require Import ZArith QArith Qround Qminmax Lia Lqa Floats Uint63 Sorted.
From stdpp Require Import gmap strings list fin_maps pretty.

Local Open Scope Z_scope.

(** ** Data model ([models.py]) *)

Inductive TransactionType :=
  IN | OUT | ADJUSTMENT | RETURN | EXPIRED | DAMAGED | RECALLED.

Inductive AlertType :=
  LOW_STOCK | STOCK_OUT | EXPIRY_WARNING | DELAYED_DELIVERY.

#[global] Instance TransactionType_eq_dec : EqDecision TransactionType.
Proof. solve_decision. Defined.

#[global] Instance AlertType_eq_dec : EqDecision AlertType.
Proof. solve_decision. Defined.

Module Medicine.
Record t := mk {
  sku : string;
  name : string;
  category : option string;
  mrp : option Q;
  cost : option Q;
  is_active : bool
}.
End Medicine.

Module Batch.
Record t := mk {
  medicine_id : Z;
  batch_number : string;
  quantity : Z;
  expiry_date : Z;
  is_expired : bool;
  is_damaged : bool;
  is_recalled : bool;
  is_returned : bool;
  updated_at : option Z
}.

(** [batch.quantity = q] on a loaded row; [updated_at] has
    [onupdate=func.now()]. *)
Definition set_quantity (q : Z) (now : Z) (b : t) : t :=
  mk (medicine_id b) (batch_number b) q (expiry_date b) (is_expired b)
     (is_damaged b) (is_recalled b) (is_returned b) (Some now).

Definition set_is_expired (v : bool) (now : Z) (b : t) : t :=
  mk (medicine_id b) (batch_number b) (quantity b) (expiry_date b) v
     (is_damaged b) (is_recalled b) (is_returned b) (Some now).

Definition set_is_damaged (v : bool) (now : Z) (b : t) : t :=
  mk (medicine_id b) (batch_number b) (quantity b) (expiry_date b)
     (is_expired b) v (is_recalled b) (is_returned b) (Some now).
End Batch.

Module InventoryTransaction.
Record t := mk {
  medicine_id : Z;
  batch_id : option Z;
  transaction_type : TransactionType;
  quantity : Z;
  unit_price : option Q;
  notes : option string;
  created_by : option Z;
  created_at : Z
}.
End InventoryTransaction.

Module Alert.
Record t := mk {
  alert_type : AlertType;
  medicine_id : option Z;
  batch_id : option Z;
  message : string;
  severity : string;
  is_acknowledged : bool;
  acknowledged_by : option Z;
  acknowledged_at : option Z;
  created_at : Z
}.

(** The three assignments of [acknowledge_alert]. *)
Definition acknowledge (user : Z) (now : Z) (a : t) : t :=
  mk (alert_type a) (medicine_id a) (batch_id a) (message a) (severity a)
     true (Some user) (Some now) (created_at a).
End Alert.

(** [schemas.TransactionCreate]: the body of [POST /transactions].  The
    schema constrains the types of the fields and nothing else. *)
Module TransactionCreate.
Record t := mk {
  medicine_id : Z;
  batch_id : option Z;
  transaction_type : TransactionType;
  quantity : Z;
  unit_price : option Q;
  notes : option string
}.
End TransactionCreate.

(** ** The database and the ORM session *)

Record Store := mkStore {
  medicines : gmap Z Medicine.t;
  batches : gmap Z Batch.t;
  transactions : list InventoryTransaction.t;
  alerts : list Alert.t
}.

Record HTTPException := mkHTTPException {
  status_code : Z;
  detail : string
}.

Inductive Result (A : Type) :=
| Ok (a : A)
| Raise (e : HTTPException).
Arguments Ok {A} a.
Arguments Raise {A} e.

(** A session holds the committed database, the state of the open
    database transaction (what a query sees) and the objects passed to
    [db.add] that were not flushed yet.  An attribute assignment on a loaded
    row is written to the open transaction at once: no handler modelled here
    queries a table again after it assigned to one of its rows. *)
Record Session := mkSession {
  committed : Store;
  flushed : Store;
  new_transactions : list InventoryTransaction.t;
  new_alerts : list Alert.t
}.

Definition M (A : Type) : Type := Session → Result A * Session.

#[global] Instance M_ret : MRet M := λ A a sess, (Ok a, sess).

#[global] Instance M_bind : MBind M := λ A B f m sess,
  match m sess with
  | (Ok a, sess') => f a sess'
  | (Raise e, sess') => (Raise e, sess')
  end.

Definition raise {A} (code : Z) (msg : string) : M A :=
  λ sess, (Raise (mkHTTPException code msg), sess).

Definition flush_session (sess : Session) : Session :=
  mkSession (committed sess)
    (mkStore (medicines (flushed sess)) (batches (flushed sess))
       (transactions (flushed sess) ++ new_transactions sess)
       (alerts (flushed sess) ++ new_alerts sess))
    [] [].

Section Handlers.

(** Modelled from the spec: the session factory of [database.py], which is
    not among the sources.  Whether its sessions flush pending objects
    before a query is left open, and every statement below holds for both
    settings. *)
Variable autoflush : bool.

Definition flush : M unit := λ sess, (Ok (), flush_session sess).

(** Reading the open database transaction. *)
Definition gets {A} (f : Store → A) : M A := λ sess, (Ok (f (flushed sess)), sess).

Definition before_query : M unit :=
  if autoflush then flush else mret ().

Definition commit : M unit := λ sess,
  let sess' := flush_session sess in
  (Ok (), mkSession (flushed sess') (flushed sess') [] []).

(** [db.query(Medicine).filter(Medicine.id == id).first()] *)
Definition query_medicine (id : Z) : M (option Medicine.t) :=
  before_query;; gets (λ db, medicines db !! id).

(** [db.query(Batch).filter(Batch.id == id).first()] *)
Definition query_batch (id : Z) : M (option Batch.t) :=
  before_query;; gets (λ db, batches db !! id).

Definition query_alerts : M (list Alert.t) :=
  before_query;; gets alerts.

Definition query_batches : M (gmap Z Batch.t) :=
  before_query;; gets batches.

Definition query_medicines : M (gmap Z Medicine.t) :=
  before_query;; gets medicines.

(** An assignment to attributes of the loaded batch [id]. *)
Definition update_batch (id : Z) (b : Batch.t) : M unit := λ sess,
  (Ok (), mkSession (committed sess)
            (mkStore (medicines (flushed sess))
               (<[id := b]> (batches (flushed sess)))
               (transactions (flushed sess)) (alerts (flushed sess)))
            (new_transactions sess) (new_alerts sess)).

(** An assignment to attributes of the loaded alert with primary key
    [id]. *)
Definition update_alert (id : Z) (a : Alert.t) : M unit := λ sess,
  (Ok (), mkSession (committed sess)
            (mkStore (medicines (flushed sess)) (batches (flushed sess))
               (transactions (flushed sess))
               (<[Z.to_nat (id - 1) := a]> (alerts (flushed sess))))
            (new_transactions sess) (new_alerts sess)).

Definition add_transaction (t : InventoryTransaction.t) : M unit := λ sess,
  (Ok (), mkSession (committed sess) (flushed sess)
            (new_transactions sess ++ [t]) (new_alerts sess)).

Definition add_alert (a : Alert.t) : M unit := λ sess,
  (Ok (), mkSession (committed sess) (flushed sess)
            (new_transactions sess) (new_alerts sess ++ [a])).

(** Modelled from the spec: the [get_db] dependency of the missing
    [database.py].  One request is a fresh session on the database [db] and
    the handler; the session is closed afterwards, so the database the
    request leaves behind is what it committed. *)
Definition run_request {A} (handler : M A) (db : Store) : Result A * Store :=
  let '(r, sess) := handler (mkSession db db [] []) in
  (r, committed sess).

(** *** Transaction processor ([routers/inventory.py]) *)

(** Python truthiness of an [Optional[int]]. *)
Definition truthy_id (o : option Z) : option Z :=
  match o with
  | Some i => if i =? 0 then None else Some i
  | None => None
  end.

(** The row built from the fields of the request and
    [created_by=current_user.id]; [created_at] is the server default. *)
Definition new_transaction (transaction : TransactionCreate.t)
    (now : Z) (current_user : Z) : InventoryTransaction.t :=
  InventoryTransaction.mk
    (TransactionCreate.medicine_id transaction)
    (TransactionCreate.batch_id transaction)
    (TransactionCreate.transaction_type transaction)
    (TransactionCreate.quantity transaction)
    (TransactionCreate.unit_price transaction)
    (TransactionCreate.notes transaction)
    (Some current_user) now.

(** [POST /transactions]; the response carries the primary key of the new
    row. *)
Definition create_transaction (transaction : TransactionCreate.t)
    (now : Z) (current_user : Z) : M (Z * InventoryTransaction.t) :=
  medicine ← query_medicine (TransactionCreate.medicine_id transaction);
  match medicine with
  | None => raise 404 "Medicine not found"
  | Some _ =>
    match truthy_id (TransactionCreate.batch_id transaction) with
    | Some batch_id =>
      batch ← query_batch batch_id;
      match batch with
      | None => raise 404 "Batch not found"
      | Some batch =>
        match TransactionCreate.transaction_type transaction with
        | OUT =>
          if Batch.quantity batch <? TransactionCreate.quantity transaction
          then raise 400 "Insufficient stock"
          else update_batch batch_id
                 (Batch.set_quantity
                    (Batch.quantity batch
                     - TransactionCreate.quantity transaction) now batch)
        | IN =>
          update_batch batch_id
            (Batch.set_quantity
               (Batch.quantity batch
                + TransactionCreate.quantity transaction) now batch)
        | _ => mret ()
        end
      end
    | None => mret ()
    end;;
    let db_transaction := new_transaction transaction now current_user in
    add_transaction db_transaction;;
    commit;;
    gets (λ db, (Z.of_nat (length (transactions db)), db_transaction))
  end.

(** *** Disposal ([routers/waste.py]) *)

(** [POST /mark-expired/{batch_id}].  The transaction is built after the
    two assignments, from the attributes of the same batch object. *)
Definition mark_batch_expired (batch_id : Z) (now : Z) (current_user : Z)
    : M string :=
  batch ← query_batch batch_id;
  match batch with
  | None => raise 404 "Batch not found"
  | Some batch =>
    let batch := Batch.set_is_expired true now batch in
    let batch := Batch.set_quantity 0 now batch in
    update_batch batch_id batch;;
    let transaction :=
      InventoryTransaction.mk (Batch.medicine_id batch) (Some batch_id)
        EXPIRED (Batch.quantity batch) None (Some "Marked as expired")
        (Some current_user) now in
    add_transaction transaction;;
    commit;;
    mret "Batch marked as expired"
  end.

(** [POST /mark-damaged/{batch_id}?quantity=...] *)
Definition mark_batch_damaged (batch_id : Z) (quantity : Z) (now : Z)
    (current_user : Z) : M string :=
  batch ← query_batch batch_id;
  match batch with
  | None => raise 404 "Batch not found"
  | Some batch =>
    if quantity >? Batch.quantity batch
    then raise 400 "Damaged quantity exceeds available stock"
    else
      let batch := Batch.set_is_damaged true now batch in
      let batch := Batch.set_quantity (Batch.quantity batch - quantity) now batch in
      update_batch batch_id batch;;
      let transaction :=
        InventoryTransaction.mk (Batch.medicine_id batch) (Some batch_id)
          DAMAGED quantity None (Some "Marked as damaged")
          (Some current_user) now in
      add_transaction transaction;;
      commit;;
      mret "Batch marked as damaged"
  end.

(** *** Alerts ([routers/alerts.py]) *)

(** The row with primary key [id] of an append-only table. *)
Definition row {A} (table : list A) (id : Z) : option A :=
  if 1 <=? id then table !! Z.to_nat (id - 1) else None.

(** [POST /{alert_id}/acknowledge] *)
Definition acknowledge_alert (alert_id : Z) (now : Z) (current_user : Z)
    : M string :=
  table ← query_alerts;
  match row table alert_id with
  | None => raise 404 "Alert not found"
  | Some alert =>
    update_alert alert_id (Alert.acknowledge current_user now alert);;
    commit;;
    mret "Alert acknowledged"
  end.

(** A [for] loop whose body threads the local variables [acc]. *)
Fixpoint for_each {A S} (l : list A) (acc : S) (body : S → A → M S) : M S :=
  match l with
  | [] => mret acc
  | x :: l => acc ← body acc x; for_each l acc body
  end.

(** [medicine.batches]: the rows of [batches] that reference the
    medicine. *)
Definition batches_of (table : gmap Z Batch.t) (medicine_id : Z) : list Batch.t :=
  List.filter (λ b, Batch.medicine_id b =? medicine_id) (map_to_list table).*2.

(** Python's [sum] over integers. *)
Definition sum (l : list Z) : Z := fold_left Z.add l 0.

(** [sum(b.quantity for b in medicine.batches if not b.is_expired)], the
    stock figure of the low-stock rule and of the forecast. *)
Definition total_stock (table : gmap Z Batch.t) (medicine_id : Z) : Z :=
  sum (Batch.quantity <$>
         List.filter (λ b, negb (Batch.is_expired b)) (batches_of table medicine_id)).

(** The filter of the query for an open alert of one type on a medicine. *)
Definition open_medicine_alert (ty : AlertType) (medicine_id : Z) (a : Alert.t) : bool :=
  bool_decide (Alert.medicine_id a = Some medicine_id)
  && bool_decide (Alert.alert_type a = ty)
  && negb (Alert.is_acknowledged a).

(** The filter of the query for an open alert of one type on a batch. *)
Definition open_batch_alert (ty : AlertType) (batch_id : Z) (a : Alert.t) : bool :=
  bool_decide (Alert.batch_id a = Some batch_id)
  && bool_decide (Alert.alert_type a = ty)
  && negb (Alert.is_acknowledged a).

(** The alert that [check_low_stock] builds for a stock below 20. *)
Definition low_stock_alert (medicine_id : Z) (medicine : Medicine.t)
    (total_stock : Z) (now : Z) : Alert.t :=
  let severity :=
    if total_stock =? 0 then "critical"
    else if total_stock <? 10 then "high" else "medium" in
  Alert.mk (if total_stock =? 0 then STOCK_OUT else LOW_STOCK)
    (Some medicine_id) None
    (Medicine.name medicine +:+ " (" +:+ Medicine.sku medicine
     +:+ ") has low stock: " +:+ pretty total_stock +:+ " units remaining")
    severity false None None now.

(** The body of the loop of [check_low_stock], for one medicine (primary
    key and row); [alerts_created] is the running counter. *)
Definition check_low_stock_medicine (now : Z) (alerts_created : Z)
    (medicine : Z * Medicine.t) : M Z :=
  stock ← query_batches;
  let total_stock := total_stock stock medicine.1 in
  existing ← query_alerts;
  let existing_alert :=
    List.find (open_medicine_alert LOW_STOCK medicine.1) existing in
  match existing_alert with
  | Some _ => mret alerts_created
  | None =>
    if total_stock <? 20 then
      add_alert (low_stock_alert medicine.1 medicine.2 total_stock now);;
      mret (alerts_created + 1)
    else mret alerts_created
  end.

(** [POST /check-low-stock] *)
Definition check_low_stock (now : Z) : M string :=
  table ← query_medicines;
  let medicines :=
    List.filter (λ m, Medicine.is_active m.2) (map_to_list table) in
  alerts_created ← for_each medicines 0 (check_low_stock_medicine now);
  commit;;
  mret ("Created " +:+ pretty alerts_created +:+ " low stock alerts").

(** *** Alert sweeps after an upload ([routers/inventory.py]) *)

(** [settings.EXPIRY_ALERT_DAYS] of [config.py]. *)
Definition EXPIRY_ALERT_DAYS : list Z := [30; 60; 90].

Definition day : Z := 86400.

(** [d.date()] of a datetime and [datetime.combine(d, datetime.min.time())]
    of a date. *)
Definition date (d : Z) : Z := d / day.
Definition midnight (d : Z) : Z := d * day.

Definition expiry_alert (batch_id : Z) (batch : Batch.t) (medicine : Medicine.t)
    (days_until_expiry : Z) (now : Z) : Alert.t :=
  Alert.mk EXPIRY_WARNING (Some (Batch.medicine_id batch)) (Some batch_id)
    (Medicine.name medicine +:+ " (Batch: " +:+ Batch.batch_number batch
     +:+ ") expires in " +:+ pretty days_until_expiry +:+ " days")
    (if days_until_expiry <=? 30 then "high" else "medium")
    false None None now.

Definition check_expiry_alerts (now : Z) : M unit :=
  let today := date now in
  for_each EXPIRY_ALERT_DAYS () (λ _ days,
    let threshold_date := today + days in
    let threshold_datetime := midnight threshold_date in
    table ← query_batches;
    let batches :=
      List.filter (λ b, (Batch.expiry_date b.2 <=? threshold_datetime)
                        && negb (Batch.is_expired b.2)
                        && (Batch.quantity b.2 >? 0))
        (map_to_list table) in
    for_each batches () (λ _ batch,
      existing ← query_alerts;
      let existing_alert :=
        List.find (open_batch_alert EXPIRY_WARNING batch.1) existing in
      match existing_alert with
      | Some _ => mret ()
      | None =>
        let expiry_date_only := date (Batch.expiry_date batch.2) in
        let days_until_expiry := expiry_date_only - today in
        if days_until_expiry >=? 0 then
          medicine ← query_medicine (Batch.medicine_id batch.2);
          match medicine with
          | None => raise 500 "Internal Server Error"
          | Some medicine =>
            add_alert (expiry_alert batch.1 batch.2 medicine days_until_expiry now)
          end
        else mret ()
      end));;
  commit.

(** The aggregate query of [check_low_stock_alerts]: medicines joined
    with their batches of positive quantity that are not expired, grouped
    by medicine, with the summed quantity. *)
Definition stock_levels (db : Store) : list (Z * string * Z) :=
  omap (λ m,
    let rows :=
      List.filter (λ b, (Batch.quantity b >? 0) && negb (Batch.is_expired b))
        (batches_of (batches db) m.1) in
    match rows with
    | [] => None
    | _ => Some (m.1, Medicine.name m.2, sum (Batch.quantity <$> rows))
    end) (map_to_list (medicines db)).

Definition low_stock_upload_alert (medicine_id : Z) (medicine_name : string)
    (total_quantity : Z) (now : Z) : Alert.t :=
  Alert.mk LOW_STOCK (Some medicine_id) None
    (medicine_name +:+ " is running low (Stock: " +:+ pretty total_quantity +:+ ")")
    (if total_quantity =? 0 then "high" else "medium")
    false None None now.

(** The body of the loop of [check_low_stock_alerts], for one row of the
    aggregate query. *)
Definition check_low_stock_level (now : Z) (_ : unit) (level : Z * string * Z)
    : M unit :=
  let '(medicine_id, medicine_name, total_quantity) := level in
  if total_quantity <? 20 then
    existing ← query_alerts;
    let existing_alert :=
      List.find (open_medicine_alert LOW_STOCK medicine_id) existing in
    match existing_alert with
    | Some _ => mret ()
    | None =>
      add_alert (low_stock_upload_alert medicine_id medicine_name total_quantity now)
    end
  else mret ().

Definition check_low_stock_alerts (now : Z) : M unit :=
  before_query;;
  levels ← gets stock_levels;
  for_each levels () (check_low_stock_level now);;
  commit.

End Handlers.

(** ** Float arithmetic *)

(** [int(x)]: truncation towards zero. *)
Definition int (x : Q) : Z :=
  if Qle_bool 0 x then Qfloor x else Qceiling x.

(** Rounding to the nearest integer, ties to the even one. *)
Definition round_half_even (x : Q) : Z :=
  let f := Qfloor x in
  match (x - inject_Z f ?= 1 # 2)%Q with
  | Lt => f
  | Gt => f + 1
  | Eq => if Z.even f then f else f + 1
  end.

(** [round(x, 2)] *)
Definition round2 (x : Q) : Q :=
  (inject_Z (round_half_even (x * 100)) / 100)%Q.

(** [format(x, ".2f")] *)
Definition format_2f (x : Q) : string :=
  let r := round_half_even (x * 100) in
  let cents := Z.abs r mod 100 in
  (if Qle_bool 0 x then "" else "-")
  +:+ pretty (Z.abs r / 100) +:+ "."
  +:+ (if cents <? 10 then "0" else "") +:+ pretty cents.

(** ** Binary64

    IEEE 754 binary64 numbers, the floats of CPython. *)

#[local] Set Warnings "-inexact-float".

(** [float(z)] for an integer below 2^63 in absolute value. *)
Definition float_of_Z (z : Z) : float :=
  if z <? 0 then PrimFloat.opp (PrimFloat.of_uint63 (Uint63.of_Z (- z)))
  else PrimFloat.of_uint63 (Uint63.of_Z z).

(** The rational that a finite binary64 number denotes. *)
Definition Q_of_float (x : float) : Q :=
  match Prim2SF x with
  | S754_finite s m e =>
    ((if s then -1 else 1) * inject_Z (Z.pos m) * Qpower 2 e)%Q
  | _ => 0%Q
  end.

(** The number of hundredths that [round(x, 2)] keeps. *)
Definition cents (x : Q) : Z := round_half_even (x * 100).

(** The double nearest to a decimal, for a numerator and a denominator
    below 2^53. *)
Definition float_of_Q (q : Q) : float :=
  PrimFloat.div (float_of_Z (Qnum q)) (float_of_Z (Z.pos (Qden q))).

(** [int(x)] of a finite float. *)
Definition int_of_float (x : float) : Z := int (Q_of_float x).

(** [round(x, 2)] of a finite float: CPython rounds the number that [x]
    denotes to two decimals, ties to even, and returns the double nearest
    to that decimal. *)
Definition round2_float (x : float) : float :=
  PrimFloat.div (float_of_Z (cents (Q_of_float x))) 100.

(** [sum] of a list of floats, added from the left, starting at 0. *)
Definition fsum (l : list float) : float := fold_left PrimFloat.add l 0%float.


(** [min(0.95, 0.5 + (n / 100))] *)
Definition confidence_b64 (n : Z) : Q :=
  let c := PrimFloat.add 0.5 (PrimFloat.div (float_of_Z n) (float_of_Z 100)) in
  Q_of_float (if PrimFloat.ltb c 0.95 then c else 0.95%float).


Definition confidence_agrees (n : Z) : bool :=
  cents (confidence_b64 n) =? cents (Qmin 0.95 (0.5 + inject_Z n / 100)).

(** ** Forecast engine ([ml_models/forecasting.py]) *)

Module ForecastData.
Record t := mk {
  forecasted_demand : float;
  confidence_score : Q;
  reorder_point : Z;
  recommended_quantity : Z;
  reasoning : string
}.
End ForecastData.

(** The filter of the query for the demand history: OUT transactions of the
    medicine not older than [cutoff_date]. *)
Definition recent_out (medicine_id : Z) (cutoff_date : Z)
    (t : InventoryTransaction.t) : bool :=
  (InventoryTransaction.medicine_id t =? medicine_id)
  && bool_decide (InventoryTransaction.transaction_type t = OUT)
  && (InventoryTransaction.created_at t >=? cutoff_date).

Definition calculate_demand_forecast (db : Store) (now : Z)
    (medicine_id : Z) (horizon_days : Z) : ForecastData.t :=
  match medicines db !! medicine_id with
  | None => ForecastData.mk 0%float 0 0 0 "Medicine not found"
  | Some medicine =>
    let cutoff_date := now - 90 * day in
    let transactions :=
      List.filter (recent_out medicine_id cutoff_date) (transactions db) in
    match transactions with
    | [] =>
      let current_stock := total_stock (batches db) medicine_id in
      ForecastData.mk
        (float_of_Z current_stock * 0.3)%float
        0.3%Q
        (Z.max 10 (int_of_float (float_of_Z current_stock * 0.2)))
        (Z.max 20 (int_of_float (float_of_Z current_stock * 0.5)))
        "No historical data available. Using conservative estimates."
    | _ =>
      let total_demand := sum (InventoryTransaction.quantity <$> transactions) in
      let days_covered := (now - cutoff_date) / day in
      let avg_daily_demand :=
        if days_covered >? 0
        then (float_of_Z total_demand / float_of_Z days_covered)%float
        else 0%float in
      let forecasted_demand :=
        (avg_daily_demand * float_of_Z horizon_days)%float in
      let confidence_score :=
        Qmin 0.95
          (0.5 + inject_Z (Z.of_nat (length transactions)) / 100)%Q in
      let lead_time_days := 7%float in
      let safety_stock_multiplier := 1.5%float in
      let reorder_point :=
        int_of_float
          (avg_daily_demand * lead_time_days * safety_stock_multiplier)%float in
      let current_stock := total_stock (batches db) medicine_id in
      let recommended_quantity :=
        Z.max (int_of_float (forecasted_demand * 0.3)%float)
          (if current_stock <? reorder_point
           then reorder_point - current_stock else 0) in
      let reasoning :=
        "Based on " +:+ pretty (Z.of_nat (length transactions))
        +:+ " transactions over " +:+ pretty days_covered +:+ " days. "
        +:+ "Average daily demand: "
        +:+ format_2f (Q_of_float avg_daily_demand) +:+ " units. "
        +:+ "Forecasted demand for " +:+ pretty horizon_days +:+ " days: "
        +:+ format_2f (Q_of_float forecasted_demand) +:+ " units." in
      ForecastData.mk
        (round2_float forecasted_demand)
        (round2 confidence_score)
        (Z.max 1 reorder_point)
        (Z.max 0 recommended_quantity)
        reasoning
    end
  end.

(** ** Waste analytics ([routers/waste.py]) *)

Module Bucket.
Record t := mk {
  quantity : Z;
  value : float;
  count : Z
}.
End Bucket.

Module WasteAnalytics.
Record t := mk {
  period : Z * Z;
  expired : Bucket.t;
  damaged : Bucket.t;
  recalled : Bucket.t;
  returned : Bucket.t;
  total_quantity : Z;
  total_value : float;
  wastage_rate_percent : float
}.
End WasteAnalytics.

(** Python truthiness of an [Optional[str]]. *)
Definition truthy_str (o : option string) : option string :=
  match o with
  | Some s => if String.eqb s "" then None else Some s
  | None => None
  end.

(** [lo <= stamp <= hi] in SQL: a NULL stamp never passes. *)
Definition in_window (lo hi : Z) (stamp : option Z) : bool :=
  match stamp with
  | Some t => (t >=? lo) && (t <=? hi)
  | None => false
  end.

(** [.join(Medicine).filter(Medicine.category == category)] *)
Definition in_category (table : gmap Z Medicine.t) (category : string)
    (b : Batch.t) : bool :=
  match table !! Batch.medicine_id b with
  | Some m => bool_decide (Medicine.category m = Some category)
  | None => false
  end.

(** One disposition bucket: the batches with the flag set and the stamp in
    the window, of the category when one is given. *)
Definition waste_batches (db : Store) (flag : Batch.t → bool)
    (stamp : Batch.t → option Z) (start_date end_date : Z)
    (category : option string) : list Batch.t :=
  let rows :=
    List.filter (λ b, flag b && in_window start_date end_date (stamp b))
      (map_to_list (batches db)).*2 in
  match truthy_str category with
  | Some c => List.filter (in_category (medicines db) c) rows
  | None => rows
  end.

(** [b.quantity * (b.medicine.mrp or 0)]; there is no value when the batch
    has no medicine row ([b.medicine] is [None]). *)
Definition batch_value (table : gmap Z Medicine.t) (b : Batch.t) : option float :=
  m ← table !! Batch.medicine_id b;
  Some (float_of_Z (Batch.quantity b)
        * float_of_Q (default 0%Q (Medicine.mrp m)))%float.

Definition bucket (table : gmap Z Medicine.t) (rows : list Batch.t)
    : option Bucket.t :=
  values ← mapM (batch_value table) rows;
  Some (Bucket.mk (sum (Batch.quantity <$> rows)) (fsum values)
          (Z.of_nat (length rows))).

(** [func.sum(Batch.quantity * Medicine.mrp)] over the batches, joined with
    their medicine, that are neither expired, damaged nor recalled; a NULL
    price contributes nothing, and [or 0] covers the empty sum. *)
Definition total_inventory_value (db : Store) : float :=
  fsum (omap (λ b,
          m ← medicines db !! Batch.medicine_id b;
          mrp ← Medicine.mrp m;
          Some (float_of_Z (Batch.quantity b) * float_of_Q mrp)%float)
        (List.filter (λ b, negb (Batch.is_expired b) && negb (Batch.is_damaged b)
                           && negb (Batch.is_recalled b))
           (map_to_list (batches db)).*2)).

(** The local [wastage_rate] of [get_waste_analytics]. *)
Definition wastage_rate (total_waste_value total_inventory_value : float)
    : float :=
  if PrimFloat.ltb 0 total_inventory_value
  then (total_waste_value / total_inventory_value * 100)%float else 0%float.

(** [GET /analytics] *)
Definition get_waste_analytics (db : Store) (now : Z)
    (start_date end_date : option Z) (category : option string)
    : Result WasteAnalytics.t :=
  let end_date := default now end_date in
  let start_date := default (end_date - 90 * day) start_date in
  let stamped := λ b, Some (Batch.expiry_date b) in
  let expired_batches :=
    waste_batches db Batch.is_expired stamped start_date end_date category in
  let damaged_batches :=
    waste_batches db Batch.is_damaged Batch.updated_at start_date end_date category in
  let recalled_batches :=
    waste_batches db Batch.is_recalled Batch.updated_at start_date end_date category in
  let returned_batches :=
    waste_batches db Batch.is_returned Batch.updated_at start_date end_date category in
  match bucket (medicines db) expired_batches,
        bucket (medicines db) damaged_batches,
        bucket (medicines db) recalled_batches,
        bucket (medicines db) returned_batches with
  | Some expired, Some damaged, Some recalled, Some returned =>
    let total_waste_value :=
      (Bucket.value expired + Bucket.value damaged
       + Bucket.value recalled)%float in
    let total_waste_quantity :=
      Bucket.quantity expired + Bucket.quantity damaged
      + Bucket.quantity recalled + Bucket.quantity returned in
    let wastage_rate := wastage_rate total_waste_value (total_inventory_value db) in
    Ok (WasteAnalytics.mk (start_date, end_date) expired damaged recalled returned
          total_waste_quantity total_waste_value (round2_float wastage_rate))
  | _, _, _, _ => Raise (mkHTTPException 500 "Internal Server Error")
  end.

(** ** Notions of the specification *)

(** Available stock as the specification words it: the quantities of the
    batches of the medicine with a positive quantity that are not expired. *)
Definition available_stock (table : gmap Z Batch.t) (medicine_id : Z) : Z :=
  sum (Batch.quantity <$>
         List.filter (λ b, (Batch.quantity b >? 0) && negb (Batch.is_expired b))
           (batches_of table medicine_id)).








(** The INTEGER storage class of SQLite, the database of the default
    [DATABASE_URL] of [config.py]: a signed 64-bit integer.  An integer
    outside of it cannot be stored. *)
Definition sqlite_integer (n : Z) : Prop := - 2 ^ 63 ≤ n < 2 ^ 63.

(** The integers of a ledger row fit the INTEGER columns that hold them. *)
Definition storable_row (t : InventoryTransaction.t) : Prop :=
  sqlite_integer (InventoryTransaction.medicine_id t) ∧
  from_option sqlite_integer True (InventoryTransaction.batch_id t) ∧
  sqlite_integer (InventoryTransaction.quantity t) ∧
  from_option sqlite_integer True (InventoryTransaction.created_by t).

(** The number of OUT transactions of a medicine in the 90 days before
    [now]. *)
Definition out_count (db : Store) (now : Z) (medicine_id : Z) : nat :=
  length (List.filter (recent_out medicine_id (now - 90 * day)) (transactions db)).

(** The confidence score that [calculate_demand_forecast] returns, as a
    function of that number. *)
Definition confidence_of_count (n : nat) : Q :=
  match n with
  | O => 0.3%Q
  | S _ => round2 (Qmin 0.95 (0.5 + inject_Z (Z.of_nat n) / 100)%Q)
  end.

(** Every batch references a medicine row ([medicine_id] is a foreign
    key). *)
Definition batches_have_medicine (db : Store) : Prop :=
  ∀ id b, batches db !! id = Some b → is_Some (medicines db !! Batch.medicine_id b).

(** ** Session invariants *)

(** The database that a commit of the session would store. *)
Definition snapshot (sess : Session) : Store := flushed (flush_session sess).

(** [sess'] differs from [sess] at most in its alerts and in what is flushed. *)
Definition frame (sess sess' : Session) : Prop :=
  committed sess' = committed sess ∧
  medicines (flushed sess') = medicines (flushed sess) ∧
  batches (flushed sess') = batches (flushed sess) ∧
  transactions (snapshot sess') = transactions (snapshot sess).

(** The alerts of the session are [alerts0] followed by [created], of which
    a prefix is flushed. *)
Definition alerts_extend (alerts0 created : list Alert.t) (sess : Session) : Prop :=
  ∃ c1, alerts (flushed sess) = alerts0 ++ c1 ∧ c1 ++ new_alerts sess = created.

(** What one iteration of [check_low_stock] files for a medicine, read off
    the alerts and batches at the start of the request. *)
Definition low_stock_step (now : Z) (alerts0 : list Alert.t)
    (table : gmap Z Batch.t) (medicine : Z * Medicine.t) : list Alert.t :=
  match List.find (open_medicine_alert LOW_STOCK medicine.1) alerts0 with
  | Some _ => []
  | None =>
    if total_stock table medicine.1 <? 20
    then [low_stock_alert medicine.1 medicine.2 (total_stock table medicine.1) now]
    else []
  end.

(** What one iteration of [check_low_stock_alerts] files for a row of the
    aggregate query, read off the alerts at the start of the request. *)
Definition low_stock_level_step (now : Z) (alerts0 : list Alert.t)
    (level : Z * string * Z) : list Alert.t :=
  if level.2 <? 20 then
    match List.find (open_medicine_alert LOW_STOCK level.1.1) alerts0 with
    | Some _ => []
    | None => [low_stock_upload_alert level.1.1 level.1.2 level.2 now]
    end
  else [].

(** ** Concrete ledgers used in the examples *)

(** The scenario of the specification: medicine "AMX500" with one batch of
    100 units that expires in 45 days ([now] is day 0, 1000 seconds in). *)
Definition amx500 : Medicine.t :=
  Medicine.mk "AMX500" "Amoxicillin 500" None (Some 5%Q) (Some 3%Q) true.

Definition amx500_batch : Batch.t :=
  Batch.mk 1 "B-001" 100 (45 * day + 5) false false false false None.

Definition amx500_db : Store :=
  mkStore {[ 1 := amx500 ]} {[ 1 := amx500_batch ]} [] [].


(** The scenario ledger after all 100 units of the batch were dispensed at
    time 500. *)
Definition sold_out_db : Store :=
  mkStore {[ 1 := amx500 ]}
    {[ 1 := Batch.set_quantity 0 500 amx500_batch ]}
    [InventoryTransaction.mk 1 (Some 1) OUT 100 None None (Some 7) 500] [].

(** An alert that user 1 acknowledged at time 10. *)
Definition acknowledged_alert : Alert.t :=
  Alert.mk LOW_STOCK (Some 1) None "Amoxicillin 500 is running low (Stock: 5)"
    "medium" true (Some 1) (Some 10) 0.

Definition acknowledged_db : Store :=
  mkStore {[ 1 := amx500 ]} {[ 1 := amx500_batch ]} [] [acknowledged_alert].

(** Two medicines with the same stock of 70 units; only the first one has
    an OUT transaction, filed at time 1000. *)
Definition two_medicines_db : Store :=
  mkStore
    {[ 1 := amx500;
       2 := Medicine.mk "PCM650" "Paracetamol 650" None (Some 2%Q) None true ]}
    {[ 1 := Batch.mk 1 "B-001" 70 (45 * day + 5) false false false false (Some 1000);
       2 := Batch.mk 2 "P-001" 70 (200 * day) false false false false None ]}
    [InventoryTransaction.mk 1 (Some 1) OUT 30 None None (Some 7) 1000]
    [].

(** One medicine priced 5 with a sellable batch of 100 units, a batch of 10
    units that expired on day 2 and a returned batch of 7 units. *)
Definition waste_db : Store :=
  mkStore
    {[ 1 := amx500 ]}
    {[ 1 := amx500_batch;
       2 := Batch.mk 1 "B-002" 10 (2 * day) true false false false (Some (3 * day));
       3 := Batch.mk 1 "B-003" 7 (90 * day) false false false true (Some (3 * day)) ]}
    [] [].

(** An active medicine whose only batch holds 5 units. *)
Definition low_stock_db : Store :=
  mkStore {[ 1 := amx500 ]}
    {[ 1 := Batch.mk 1 "B-001" 5 (200 * day) false false false false None ]} [] [].

(** A medicine with one batch of 3 units. *)
Definition three_units_db : Store :=
  mkStore {[ 1 := amx500 ]}
    {[ 1 := Batch.mk 1 "B-001" 3 (200 * day) false false false false None ]} [] [].

(** A medicine with two batches of 100 units and no transactions. *)
Definition two_batches_db : Store :=
  mkStore {[ 1 := amx500 ]}
    {[ 1 := Batch.mk 1 "B-001" 100 (200 * day) false false false false None;
       2 := Batch.mk 1 "B-002" 100 (300 * day) false false false false None ]}
    [] [].




(** ** Coverage beyond the stated properties: definitions *)

(** What a batch adds to the stock figure of a medicine. *)
Definition stock_share (medicine_id : Z) (b : Batch.t) : Z :=
  if (Batch.medicine_id b =? medicine_id) && negb (Batch.is_expired b)
  then Batch.quantity b else 0.

(** A ledger in which the scenario batch belongs to a second medicine. *)
Definition foreign_batch_db : Store :=
  mkStore
    {[ 1 := amx500;
       2 := Medicine.mk "PCM650" "Paracetamol 650" None (Some 2%Q) None true ]}
    {[ 1 := Batch.mk 2 "P-001" 100 (200 * day) false false false false None ]}
    [] [].

(** *** The expiry sweep as a function of the ledger *)

(** The alerts that a query inside a sweep sees, when the request started
    on [alerts0] and has filed [created] since: all of them when the session
    flushes before queries, only the committed ones when it does not. *)
Definition visible_alerts (autoflush : bool) (alerts0 created : list Alert.t)
    : list Alert.t :=
  if autoflush then alerts0 ++ created else alerts0.

(** The session of a sweep that started on [db] and has filed [created]. *)
Definition sweep_inv (autoflush : bool) (db : Store) (created : list Alert.t)
    (sess : Session) : Prop :=
  committed sess = db ∧
  medicines (flushed sess) = medicines db ∧
  batches (flushed sess) = batches db ∧
  transactions (snapshot sess) = transactions db ∧
  alerts (snapshot sess) = alerts db ++ created ∧
  (autoflush = false → alerts (flushed sess) = alerts db).

(** A run of a loop body follows an outcome of its step function: it
    returns in a session that has filed the alerts of the outcome, or it
    raises [error] with nothing committed. *)
Definition simulates (autoflush : bool) (db : Store) (error : HTTPException)
    (run : Result unit * Session) (outcome : option (list Alert.t)) : Prop :=
  match outcome with
  | Some created' =>
    ∃ sess', run = (Ok (), sess') ∧ sweep_inv autoflush db created' sess'
  | None => ∃ sess', run = (Raise error, sess') ∧ committed sess' = db
  end.

(** A loop over [l] that threads the filed alerts and stops at the first
    iteration that raises. *)
Fixpoint fold_step {A} (step : list Alert.t → A → option (list Alert.t))
    (l : list A) (created : list Alert.t) : option (list Alert.t) :=
  match l with
  | [] => Some created
  | x :: l => created' ← step created x; fold_step step l created'
  end.

(** The batches that the query of [check_expiry_alerts] selects for one
    lookahead window. *)
Definition expiry_window (now : Z) (table : gmap Z Batch.t) (days : Z)
    : list (Z * Batch.t) :=
  List.filter (λ b, (Batch.expiry_date b.2 <=? midnight (date now + days))
                    && negb (Batch.is_expired b.2)
                    && (Batch.quantity b.2 >? 0))
    (map_to_list table).

(** [days_until_expiry] of a batch. *)
Definition days_until_expiry (now : Z) (b : Batch.t) : Z :=
  date (Batch.expiry_date b) - date now.

(** One iteration of the inner loop of [check_expiry_alerts]: the alerts
    filed after it, or nothing when the batch has no medicine row. *)
Definition expiry_batch_step (autoflush : bool) (now : Z) (db : Store)
    (created : list Alert.t) (batch : Z * Batch.t) : option (list Alert.t) :=
  match List.find (open_batch_alert EXPIRY_WARNING batch.1)
          (visible_alerts autoflush (alerts db) created) with
  | Some _ => Some created
  | None =>
    if days_until_expiry now batch.2 >=? 0 then
      match medicines db !! Batch.medicine_id batch.2 with
      | None => None
      | Some medicine =>
        Some (created ++ [expiry_alert batch.1 batch.2 medicine
                            (days_until_expiry now batch.2) now])
      end
    else Some created
  end.

(** The alerts that [check_expiry_alerts] files on [db], or nothing when it
    raises. *)
Definition expiry_sweep (autoflush : bool) (now : Z) (db : Store)
    : option (list Alert.t) :=
  fold_step
    (λ created days,
       fold_step (expiry_batch_step autoflush now db)
         (expiry_window now (batches db) days) created)
    EXPIRY_ALERT_DAYS [].

(** The body of the inner loop of [check_expiry_alerts]. *)
Definition check_expiry_batch (autoflush : bool) (now : Z) (_ : unit)
    (batch : Z * Batch.t) : M unit :=
  existing ← query_alerts autoflush;
  let existing_alert :=
    List.find (open_batch_alert EXPIRY_WARNING batch.1) existing in
  match existing_alert with
  | Some _ => mret ()
  | None =>
    let expiry_date_only := date (Batch.expiry_date batch.2) in
    let days_until_expiry := expiry_date_only - date now in
    if days_until_expiry >=? 0 then
      medicine ← query_medicine autoflush (Batch.medicine_id batch.2);
      match medicine with
      | None => raise 500 "Internal Server Error"
      | Some medicine =>
        add_alert (expiry_alert batch.1 batch.2 medicine days_until_expiry now)
      end
    else mret ()
  end.

(** The body of the outer loop of [check_expiry_alerts]. *)
Definition check_expiry_window (autoflush : bool) (now : Z) (_ : unit)
    (days : Z) : M unit :=
  table ← query_batches autoflush;
  for_each (expiry_window now table days) () (check_expiry_batch autoflush now).

(** A batch that the sweep has to warn about: in stock, not flagged
    expired, expiring today or later and within the widest window. *)
Definition expiring (now : Z) (b : Batch.t) : Prop :=
  Batch.is_expired b = false ∧
  0 < Batch.quantity b ∧
  0 ≤ days_until_expiry now b ∧
  Batch.expiry_date b ≤ midnight (date now + 90).

(** The alerts that one visit of a batch files when queries do not see the
    alerts filed earlier in the request. *)
Definition expiry_warnings (now : Z) (db : Store) (batch : Z * Batch.t)
    : list Alert.t :=
  match expiry_batch_step false now db [] batch with
  | Some created => created
  | None => []
  end.

(** *** Alert statistics ([routers/alerts.py]) *)

(** [str(t)] of a member of the enum [AlertType(str, enum.Enum)]. *)
Definition str_AlertType (t : AlertType) : string :=
  match t with
  | LOW_STOCK => "AlertType.LOW_STOCK"
  | STOCK_OUT => "AlertType.STOCK_OUT"
  | EXPIRY_WARNING => "AlertType.EXPIRY_WARNING"
  | DELAYED_DELIVERY => "AlertType.DELAYED_DELIVERY"
  end.

(** The rows of [SELECT key, count(id) ... GROUP BY key], read into a
    dict. *)
Definition count_by {A} (key : A → string) (rows : list A) : gmap string Z :=
  foldr (λ a counts, <[key a := default 0 (counts !! key a) + 1]> counts) ∅ rows.

Module AlertStats.
Record t := mk {
  total_alerts : Z;
  unacknowledged : Z;
  by_type : gmap string Z;
  by_severity : gmap string Z
}.
End AlertStats.

(** [GET /stats] *)
Definition get_alert_stats (db : Store) : AlertStats.t :=
  let total_alerts := Z.of_nat (length (alerts db)) in
  let unacknowledged :=
    Z.of_nat (length (List.filter (λ a, negb (Alert.is_acknowledged a)) (alerts db))) in
  let by_type := count_by (λ a, str_AlertType (Alert.alert_type a)) (alerts db) in
  let by_severity := count_by Alert.severity (alerts db) in
  AlertStats.mk total_alerts unacknowledged by_type by_severity.

(** The sum of the counts of a dict. *)
Definition sum_counts (counts : gmap string Z) : Z :=
  map_fold (λ _ n acc, n + acc) 0 counts.

(** The number of rows with a given key. *)
Definition count_key {A} (key : A → string) (k : string) (rows : list A) : Z :=
  Z.of_nat (length (List.filter (λ a, bool_decide (key a = k)) rows)).

(** A ledger with one open alert and one that was acknowledged. *)
Definition two_alerts_db : Store :=
  mkStore {[ 1 := amx500 ]} {[ 1 := amx500_batch ]} []
    [Alert.mk EXPIRY_WARNING (Some 1) (Some 1)
       "Amoxicillin 500 (Batch: B-001) expires in 45 days" "medium"
       false None None 0;
     acknowledged_alert].

(** *** Reorder suggestions ([routers/forecasting.py]) *)

(** [forecast_data["medicine_id"] = medicine.id] for every active medicine
    ([ml_models/forecasting.py]). *)
Definition batch_forecast_all_medicines (db : Store) (now : Z)
    : list (Z * ForecastData.t) :=
  let medicines :=
    List.filter (λ m, Medicine.is_active m.2) (map_to_list (medicines db)) in
  (λ medicine, (medicine.1, calculate_demand_forecast db now medicine.1 30))
    <$> medicines.

(** The priority labels of a suggestion. *)
Inductive Priority := critical | low_stock | at_risk | healthy.

#[global] Instance Priority_eq_dec : EqDecision Priority.
Proof. solve_decision. Defined.

Definition priority_order (p : Priority) : Z :=
  match p with
  | critical => 0
  | low_stock => 1
  | at_risk => 2
  | healthy => 3
  end.

Module Suggestion.
Record t := mk {
  medicine_id : Z;
  medicine_name : string;
  sku : string;
  category : option string;
  current_stock : Z;
  priority : Priority;
  forecast_data : ForecastData.t
}.
End Suggestion.

(** Python's [list.sort] and [sorted] are stable, so their result is that
    of a stable insertion sort: [x] goes in front of the first element that
    it may precede. *)
Fixpoint insert_by {A} (le : A → A → bool) (x : A) (l : list A) : list A :=
  match l with
  | [] => [x]
  | y :: l' => if le x y then x :: l else y :: insert_by le x l'
  end.

Definition sort_by {A} (le : A → A → bool) (l : list A) : list A :=
  foldr (insert_by le) [] l.

(** The chain of conditions that assigns the priority. *)
Definition suggestion_priority (current_stock : Z) (forecast_data : ForecastData.t)
    : Priority :=
  if (current_stock =? 0)
     && PrimFloat.ltb 0 (ForecastData.forecasted_demand forecast_data)
  then critical
  else if current_stock <? ForecastData.reorder_point forecast_data then low_stock
  else if current_stock <? ForecastData.recommended_quantity forecast_data then at_risk
  else healthy.

(** [GET /reorder-suggestions] *)
Definition get_reorder_suggestions (db : Store) (now : Z)
    (category : option string) (critical_only : bool) : list Suggestion.t :=
  let medicines :=
    List.filter
      (λ m, Medicine.is_active m.2
            && match truthy_str category with
               | Some c => bool_decide (Medicine.category m.2 = Some c)
               | None => true
               end)
      (map_to_list (medicines db)) in
  let suggestions :=
    flat_map (λ medicine,
      let forecast_data := calculate_demand_forecast db now medicine.1 30 in
      let current_stock := total_stock (batches db) medicine.1 in
      let priority := suggestion_priority current_stock forecast_data in
      if critical_only
         && negb (bool_decide (priority = critical)
                  || bool_decide (priority = low_stock))
      then []
      else [Suggestion.mk medicine.1 (Medicine.name medicine.2)
              (Medicine.sku medicine.2) (Medicine.category medicine.2)
              current_stock priority forecast_data])
      medicines in
  sort_by (λ x y, priority_order (Suggestion.priority x)
                  <=? priority_order (Suggestion.priority y))
    suggestions.

(** *** Categorisation ([ml_models/categorization.py]) *)

(** [MEDICINE_CATEGORIES], in the order of the dict. *)
Definition MEDICINE_CATEGORIES : list (string * list string) :=
  [("Antibiotics", ["antibiotic"; "amoxicillin"; "penicillin"; "cephalexin";
                    "azithromycin"; "ciprofloxacin"]);
   ("Pain Relief", ["paracetamol"; "acetaminophen"; "ibuprofen"; "aspirin";
                    "diclofenac"; "naproxen"]);
   ("Cardiovascular", ["atenolol"; "amlodipine"; "lisinopril"; "metoprolol";
                       "ramipril"; "blood pressure"]);
   ("Diabetes", ["metformin"; "insulin"; "glipizide"; "diabetes"; "blood sugar"]);
   ("Respiratory", ["salbutamol"; "inhaler"; "asthma"; "cough"; "expectorant"]);
   ("Gastrointestinal", ["omeprazole"; "ranitidine"; "antacid"; "laxative";
                         "stomach"]);
   ("Vitamins & Supplements", ["vitamin"; "calcium"; "iron"; "multivitamin";
                               "supplement"]);
   ("Dermatology", ["ointment"; "cream"; "skin"; "dermatitis"; "eczema"]);
   ("Eye Care", ["eye drops"; "ophthalmic"; "conjunctivitis"]);
   ("Ear Care", ["ear drops"; "otic"]);
   ("Antiseptics", ["antiseptic"; "disinfectant"; "betadine"; "dettol"]);
   ("First Aid", ["bandage"; "gauze"; "plaster"; "first aid"]);
   ("General", [])].

(** [str.lower] on ASCII text: the letters A to Z are mapped to a to z and
    every other character is kept. *)
Definition lower_ascii (c : Ascii.ascii) : Ascii.ascii :=
  let n := Ascii.N_of_ascii c in
  if ((65 <=? n) && (n <=? 90))%N then Ascii.ascii_of_N (n + 32) else c.

Fixpoint lower (s : string) : string :=
  match s with
  | EmptyString => EmptyString
  | String c s => String (lower_ascii c) (lower s)
  end.

(** [keyword in text] *)
Fixpoint contains (keyword text : string) : bool :=
  String.prefix keyword text
  || match text with
     | EmptyString => false
     | String _ text' => contains keyword text'
     end.

(** The inner loop of [categorize_medicine]: the number of keywords that
    occur in [text]. *)
Definition keyword_score (text : string) (keywords : list string) : Z :=
  fold_left (λ score keyword,
               if contains (lower keyword) text then score + 1 else score)
    keywords 0.

(** The text that [categorize_medicine] searches. *)
Definition categorize_text (name : string) (description : option string) : string :=
  let text := lower name in
  match truthy_str description with
  | Some description => text +:+ " " +:+ lower description
  | None => text
  end.

(** [max(items, key=lambda x: x[1])]: the first item with the largest
    score. *)
Definition max_score (first : string * Z) (rest : list (string * Z)) : string * Z :=
  fold_left (λ best item, if item.2 >? best.2 then item else best) rest first.

Definition categorize_medicine (name : string) (description : option string)
    : string :=
  if String.eqb name "" then "General" else
  let text := categorize_text name description in
  let category_scores :=
    omap (λ entry : string * list string,
            if String.eqb entry.1 "General" then None else
            let score := keyword_score text entry.2 in
            if score >? 0 then Some (entry.1, score) else None)
      MEDICINE_CATEGORIES in
  match category_scores with
  | first :: rest => (max_score first rest).1
  | [] => "General"
  end.

(** *** Medicines and stock levels ([routers/inventory.py]) *)

(** [schemas.MedicineCreate], with the fields that the embedding keeps of a
    medicine. *)
Module MedicineCreate.
Record t := mk {
  sku : string;
  name : string;
  category : option string;
  mrp : option Q;
  cost : option Q
}.
End MedicineCreate.

(** [db.add] of a new medicine.  The primary key [id] is the one that the
    database assigns at the flush. *)
Definition add_medicine (id : Z) (m : Medicine.t) : M unit := λ sess,
  (Ok (), mkSession (committed sess)
            (mkStore (<[id := m]> (medicines (flushed sess)))
               (batches (flushed sess)) (transactions (flushed sess))
               (alerts (flushed sess)))
            (new_transactions sess) (new_alerts sess)).

(** [POST /medicines].  A request without a category calls
    [categorize_medicine] with three positional arguments; the function
    takes two, so the call raises a [TypeError] and the request ends as an
    internal server error. *)
Definition create_medicine (autoflush : bool) (medicine : MedicineCreate.t)
    (id : Z) : M (Z * Medicine.t) :=
  table ← query_medicines autoflush;
  let existing :=
    List.find (λ m, String.eqb (Medicine.sku m.2) (MedicineCreate.sku medicine))
      (map_to_list table) in
  match existing with
  | Some _ => raise 400 "SKU already exists"
  | None =>
    match truthy_str (MedicineCreate.category medicine) with
    | None => raise 500 "Internal Server Error"
    | Some _ =>
      let db_medicine :=
        Medicine.mk (MedicineCreate.sku medicine) (MedicineCreate.name medicine)
          (MedicineCreate.category medicine) (MedicineCreate.mrp medicine)
          (MedicineCreate.cost medicine) true in
      add_medicine id db_medicine;;
      commit;;
      mret (id, db_medicine)
    end
  end.

(** [GET /medicines/{medicine_id}] *)
Definition get_medicine (autoflush : bool) (medicine_id : Z) : M Medicine.t :=
  medicine ← query_medicine autoflush medicine_id;
  match medicine with
  | None => raise 404 "Medicine not found"
  | Some medicine => mret medicine
  end.

Module StockLevel.
Record t := mk {
  medicine_id : Z;
  sku : string;
  name : string;
  category : option string;
  total_quantity : Z;
  nearest_expiry : option Z
}.
End StockLevel.

(** Python's [min] of a list that is not empty. *)
Definition min_list (first : Z) (rest : list Z) : Z := fold_left Z.min rest first.

(** [GET /stock-levels] *)
Definition get_stock_levels (db : Store) (low_stock_only : bool)
    : list StockLevel.t :=
  let medicines :=
    List.filter (λ m, Medicine.is_active m.2) (map_to_list (medicines db)) in
  flat_map (λ medicine,
    let active_batches :=
      List.filter (λ b, (Batch.medicine_id b =? medicine.1)
                        && (Batch.quantity b >? 0)
                        && negb (Batch.is_expired b))
        (map_to_list (batches db)).*2 in
    let total_quantity := sum (Batch.quantity <$> active_batches) in
    let nearest_expiry :=
      match Batch.expiry_date <$> active_batches with
      | first :: rest => Some (min_list first rest)
      | [] => None
      end in
    if low_stock_only && (total_quantity >=? 50) then []
    else [StockLevel.mk medicine.1 (Medicine.sku medicine.2)
            (Medicine.name medicine.2) (Medicine.category medicine.2)
            total_quantity nearest_expiry])
    medicines.

(** No two medicines share a SKU (the column is declared unique). *)
Definition sku_unique (db : Store) : Prop :=
  ∀ id1 id2 m1 m2,
    medicines db !! id1 = Some m1 → medicines db !! id2 = Some m2 →
    Medicine.sku m1 = Medicine.sku m2 → id1 = id2.

(** *** Waste by medicine and by category ([routers/waste.py]) *)

(** The filter of the two listings: a batch flagged expired, damaged or
    recalled whose last update falls in the period. *)
Definition wasted (start_date end_date : Z) (b : Batch.t) : bool :=
  (Batch.is_expired b || Batch.is_damaged b || Batch.is_recalled b)
  && in_window start_date end_date (Batch.updated_at b).

(** A dict in insertion order; [upsert k init f d] is [d[k] = init] for a
    new key followed by [d[k] = f(d[k])]. *)
Fixpoint upsert {K V} `{EqDecision K} (k : K) (init : V) (f : V → V)
    (d : list (K * V)) : list (K * V) :=
  match d with
  | [] => [(k, f init)]
  | entry :: d' =>
    if decide (entry.1 = k) then (entry.1, f entry.2) :: d'
    else entry :: upsert k init f d'
  end.

(** [l[:limit]]; a negative limit counts from the end. *)
Definition slice_to {A} (limit : Z) (l : list A) : list A :=
  if 0 <=? limit then take (Z.to_nat limit) l
  else take (Z.to_nat (Z.of_nat (length l) + limit)) l.

Module WasteItem.
Record t := mk {
  medicine_id : Z;
  medicine_name : string;
  sku : string;
  category : option string;
  quantity : Z;
  value : Q
}.
End WasteItem.

(** The body of the loop of [get_top_waste_items]; [batch.medicine] is
    [None] for a batch without medicine row, and reading its attributes
    raises. *)
Definition add_waste_item (table : gmap Z Medicine.t)
    (waste_by_medicine : option (list (Z * WasteItem.t))) (batch : Batch.t)
    : option (list (Z * WasteItem.t)) :=
  waste_by_medicine ← waste_by_medicine;
  medicine ← table !! Batch.medicine_id batch;
  let med_id := Batch.medicine_id batch in
  Some (upsert med_id
          (WasteItem.mk med_id (Medicine.name medicine) (Medicine.sku medicine)
             (Medicine.category medicine) 0 0)
          (λ item,
             WasteItem.mk (WasteItem.medicine_id item)
               (WasteItem.medicine_name item) (WasteItem.sku item)
               (WasteItem.category item)
               (WasteItem.quantity item + Batch.quantity batch)
               (WasteItem.value item
                + inject_Z (Batch.quantity batch) * default 0 (Medicine.mrp medicine))%Q)
          waste_by_medicine).

(** [GET /top-waste-items] *)
Definition get_top_waste_items (db : Store) (now : Z) (limit : Z)
    (start_date end_date : option Z) : Result (list WasteItem.t) :=
  let end_date := default now end_date in
  let start_date := default (end_date - 90 * day) start_date in
  let wasted_batches :=
    List.filter (wasted start_date end_date) (map_to_list (batches db)).*2 in
  match fold_left (add_waste_item (medicines db)) wasted_batches (Some []) with
  | None => Raise (mkHTTPException 500 "Internal Server Error")
  | Some waste_by_medicine =>
    let sorted_items :=
      sort_by (λ x y, Qle_bool (WasteItem.value y) (WasteItem.value x))
        waste_by_medicine.*2 in
    Ok (slice_to limit sorted_items)
  end.

Module CategoryWaste.
Record t := mk {
  category : string;
  quantity : Z;
  value : Q;
  count : Z
}.
End CategoryWaste.

(** The body of the loop of [get_waste_by_category]. *)
Definition add_category_waste (waste_by_category : list (string * CategoryWaste.t))
    (row : Batch.t * Medicine.t) : list (string * CategoryWaste.t) :=
  let '(batch, medicine) := row in
  let category := default "uncategorized" (truthy_str (Medicine.category medicine)) in
  upsert category (CategoryWaste.mk category 0 0 0)
    (λ entry,
       CategoryWaste.mk (CategoryWaste.category entry)
         (CategoryWaste.quantity entry + Batch.quantity batch)
         (CategoryWaste.value entry
          + inject_Z (Batch.quantity batch) * default 0 (Medicine.mrp medicine))%Q
         (CategoryWaste.count entry + 1))
    waste_by_category.

(** [db.query(Batch, Medicine).join(Medicine)]: the batches that have a
    medicine row, with that row. *)
Definition join_medicine (table : gmap Z Medicine.t) (rows : list Batch.t)
    : list (Batch.t * Medicine.t) :=
  omap (λ batch, medicine ← table !! Batch.medicine_id batch; Some (batch, medicine))
    rows.

(** [GET /by-category] *)
Definition get_waste_by_category (db : Store) (now : Z)
    (start_date end_date : option Z) : list CategoryWaste.t :=
  let end_date := default now end_date in
  let start_date := default (end_date - 90 * day) start_date in
  let wasted_batches :=
    join_medicine (medicines db)
      (List.filter (wasted start_date end_date) (map_to_list (batches db)).*2) in
  (fold_left add_category_waste wasted_batches []).*2.

(** The ledger without one batch. *)
Definition without_batch (db : Store) (batch_id : Z) : Store :=
  mkStore (medicines db) (delete batch_id (batches db)) (transactions db) (alerts db).

(** What a batch adds to the quantity of a bucket of the waste analytics. *)
Definition waste_share (table : gmap Z Medicine.t) (flag : Batch.t → bool)
    (stamp : Batch.t → option Z) (start_date end_date : Z)
    (category : option string) (b : Batch.t) : Z :=
  if flag b && in_window start_date end_date (stamp b)
     && match truthy_str category with
        | Some c => in_category table c b
        | None => true
        end
  then Batch.quantity b else 0.

(** ** Reasoning about handlers *)

(** Unfolding of the session monad on a goal about [run_request]. *)
Ltac unfold_session :=
  unfold run_request, query_medicine, query_batch, query_alerts,
    query_batches, query_medicines, before_query,
    update_batch, update_alert, add_transaction, add_alert, commit, flush,
    gets, raise, flush_session, mbind, M_bind, mret, M_ret.

Lemma truthy_id_nonzero (id : Z) : id ≠ 0 → truthy_id (Some id) = Some id.
Proof. intros Hnz. unfold truthy_id. destruct (Z.eqb_spec id 0); congruence. Qed.

(** ** Lists, sums and stock *)

Lemma fold_left_add (l : list Z) (a : Z) : fold_left Z.add l a = a + sum l.
Proof.
  unfold sum. revert a. induction l as [|x l IH]; intros a; simpl; [lia |].
  rewrite (IH (a + x)), (IH (0 + x)). lia.
Qed.

Lemma sum_cons (x : Z) (l : list Z) : sum (x :: l) = x + sum l.
Proof. unfold sum at 1. cbn. apply fold_left_add. Qed.


Lemma filter_none {A} (f : A → bool) (l : list A) :
  (∀ x, x ∈ l → f x = false) → List.filter f l = [].
Proof.
  induction l as [|x l IH]; intros Hf; [done |]. cbn.
  rewrite (Hf x) by left. apply IH. intros y Hy. apply Hf. by right.
Qed.

Lemma flat_map_none {A B} (f : A → list B) (l : list A) :
  (∀ x, In x l → f x = []) → flat_map f l = [].
Proof.
  induction l as [|x l IH]; intros Hf; [done |]. cbn.
  rewrite (Hf x) by (by left). apply IH. intros y Hy. apply Hf. by right.
Qed.

Lemma find_is_Some {A} (f : A → bool) (l : list A) (x : A) :
  x ∈ l → f x = true → is_Some (List.find f l).
Proof.
  intros Hx Hf. destruct (List.find f l) eqn:Hfind; [by eexists |].
  apply list_elem_of_In in Hx. by rewrite (find_none _ _ Hfind x Hx) in Hf.
Qed.

Lemma find_app_none {A} (f : A → bool) (l1 l2 : list A) :
  (∀ x, x ∈ l2 → f x = false) →
  is_Some (List.find f (l1 ++ l2)) ↔ is_Some (List.find f l1).
Proof.
  intros Hl2. induction l1 as [|x l1 IH]; cbn.
  - induction l2 as [|y l2 IH2]; cbn; [done |].
    rewrite (Hl2 y) by left. apply IH2. intros z Hz. apply Hl2. by right.
  - by destruct (f x).
Qed.

Lemma NoDup_fmap_fst_filter {A} (f : Z * A → bool) (table : gmap Z A) :
  NoDup (List.filter f (map_to_list table)).*1.
Proof.
  pose proof (NoDup_fst_map_to_list table) as Hnodup.
  induction (map_to_list table) as [|x l IH]; cbn; [constructor |].
  apply NoDup_cons in Hnodup as [Hx Hnodup].
  destruct (f x); cbn; [| by apply IH].
  apply NoDup_cons. split; [| by apply IH].
  intros Hin. apply Hx.
  apply list_elem_of_fmap in Hin as (y & -> & Hy).
  apply list_elem_of_fmap. exists y. split; [done |].
  by apply list_elem_of_In, filter_In in Hy as [Hy%list_elem_of_In _].
Qed.


(** ** Transaction processor *)

(** C1.  An OUT transaction on a named batch: when the batch holds less than
    the requested quantity the request fails with "Insufficient stock" (HTTP
    400) and the database is unchanged; otherwise the one commit of the
    request stores the batch with its quantity decreased by exactly the
    requested quantity together with exactly one new OUT row. *)
Theorem create_transaction_out (autoflush : bool) (db : Store)
    (transaction : TransactionCreate.t) (now current_user batch_id : Z)
    (medicine : Medicine.t) (batch : Batch.t) :
  TransactionCreate.transaction_type transaction = OUT →
  TransactionCreate.batch_id transaction = Some batch_id →
  batch_id ≠ 0 →
  medicines db !! TransactionCreate.medicine_id transaction = Some medicine →
  batches db !! batch_id = Some batch →
  let quantity := TransactionCreate.quantity transaction in
  let result :=
    run_request (create_transaction autoflush transaction now current_user) db in
  let row := new_transaction transaction now current_user in
  (Batch.quantity batch < quantity →
     result = (Raise (mkHTTPException 400 "Insufficient stock"), db)) ∧
  (quantity ≤ Batch.quantity batch →
     result.1 = Ok (Z.of_nat (length (transactions db)) + 1, row) ∧
     InventoryTransaction.transaction_type row = OUT ∧
     InventoryTransaction.quantity row = quantity ∧
     InventoryTransaction.batch_id row = Some batch_id ∧
     transactions result.2 = transactions db ++ [row] ∧
     batches result.2 =
       <[batch_id := Batch.set_quantity (Batch.quantity batch - quantity) now batch]>
         (batches db) ∧
     Batch.quantity <$> batches result.2 !! batch_id
       = Some (Batch.quantity batch - quantity) ∧
     medicines result.2 = medicines db ∧
     alerts result.2 = alerts db).
Proof.
  intros Htype Hbid Hnz Hmed Hbatch quantity result row.
  subst result quantity row. unfold create_transaction.
  pose proof (truthy_id_nonzero _ Hnz) as Htruthy.
  destruct db as [meds bats txs als]. cbn in Hmed, Hbatch.
  split; intros Hq.
  - unfold_session. rewrite Hbid, Htruthy, Htype.
    destruct autoflush; cbn; rewrite Hmed; cbn; rewrite Hbatch; cbn;
      (destruct (Z.ltb_spec (Batch.quantity batch)
                   (TransactionCreate.quantity transaction)); [| lia]);
      reflexivity.
  - unfold_session. rewrite Hbid, Htruthy, Htype.
    destruct autoflush; cbn; rewrite Hmed; cbn; rewrite Hbatch; cbn;
      (destruct (Z.ltb_spec (Batch.quantity batch)
                   (TransactionCreate.quantity transaction)); [lia |]);
      cbn; rewrite ?app_nil_r, ?length_app, ?lookup_insert_eq; cbn;
      unfold new_transaction; rewrite ?Htype, ?Hbid;
      (repeat split; try reflexivity; do 2 f_equal; lia).
Qed.

(** The scenario of the specification: OUT of 30 units on the batch of 100
    leaves 70 and appends one row. *)
Lemma create_transaction_out_witness :
  let transaction := TransactionCreate.mk 1 (Some 1) OUT 30 None None in
  let result := run_request (create_transaction true transaction 1000 7) amx500_db in
  Batch.quantity <$> batches result.2 !! 1 = Some 70 ∧
  transactions result.2 = [new_transaction transaction 1000 7].
Proof.
  pose proof (create_transaction_out true amx500_db
                (TransactionCreate.mk 1 (Some 1) OUT 30 None None) 1000 7 1
                amx500 amx500_batch eq_refl eq_refl) as H.
  destruct H as [_ H]; [lia | reflexivity | reflexivity |].
  destruct H as (_ & _ & _ & _ & Htx & _ & Hq & _); [cbn; lia |].
  split; [exact Hq | exact Htx].
Defined.

(** ** Validation of the quantity *)

(** C8, as stated, fails: an OUT of -5 units on the scenario batch is not
    rejected.  The request succeeds, the batch grows from 100 to 105 units
    and a row with quantity -5 is appended, whether or not the session
    flushes before queries. *)
Lemma create_transaction_negative_out_accepted :
  let transaction := TransactionCreate.mk 1 (Some 1) OUT (-5) None None in
  TransactionCreate.transaction_type transaction ≠ ADJUSTMENT ∧
  TransactionCreate.quantity transaction ≤ 0 ∧
  Forall (λ autoflush,
    let result :=
      run_request (create_transaction autoflush transaction 1000 7) amx500_db in
    result.1 = Ok (1, new_transaction transaction 1000 7) ∧
    Batch.quantity <$> batches amx500_db !! 1 = Some 100 ∧
    Batch.quantity <$> batches result.2 !! 1 = Some 105 ∧
    transactions amx500_db = [] ∧
    transactions result.2 = [new_transaction transaction 1000 7])
    [true; false].
Proof.
  cbn zeta. split; [discriminate |]. split; [cbn; lia |].
  repeat constructor; vm_compute; reflexivity.
Qed.

(** C8, amended.  [create_transaction] does not look at the sign of the
    quantity.  A request with a quantity that is zero or negative, of any
    type, on an existing medicine and, when it names a batch, on an existing
    batch of non-negative quantity, is accepted: one row carrying that
    quantity is appended, and the named batch moves to [quantity - q] for an
    OUT and to [quantity + q] for an IN and keeps its quantity for every
    other type. *)
Theorem create_transaction_quantity_unchecked (autoflush : bool) (db : Store)
    (transaction : TransactionCreate.t) (now current_user : Z)
    (medicine : Medicine.t) :
  medicines db !! TransactionCreate.medicine_id transaction = Some medicine →
  TransactionCreate.quantity transaction ≤ 0 →
  (∀ id, truthy_id (TransactionCreate.batch_id transaction) = Some id →
         ∃ batch, batches db !! id = Some batch ∧ 0 ≤ Batch.quantity batch) →
  let q := TransactionCreate.quantity transaction in
  let result :=
    run_request (create_transaction autoflush transaction now current_user) db in
  let row := new_transaction transaction now current_user in
  result.1 = Ok (Z.of_nat (length (transactions db)) + 1, row) ∧
  transactions result.2 = transactions db ++ [row] ∧
  InventoryTransaction.quantity row = q ∧
  medicines result.2 = medicines db ∧
  alerts result.2 = alerts db ∧
  (truthy_id (TransactionCreate.batch_id transaction) = None →
     batches result.2 = batches db) ∧
  (∀ id batch,
     truthy_id (TransactionCreate.batch_id transaction) = Some id →
     batches db !! id = Some batch →
     Batch.quantity <$> batches result.2 !! id =
       Some (match TransactionCreate.transaction_type transaction with
             | OUT => Batch.quantity batch - q
             | IN => Batch.quantity batch + q
             | _ => Batch.quantity batch
             end)).
Proof.
  intros Hmed Hq Hbatch q result row. subst result q row.
  unfold create_transaction.
  destruct db as [meds bats txs als]. cbn in Hmed, Hbatch.
  destruct (truthy_id (TransactionCreate.batch_id transaction)) as [id|] eqn:Hid.
  - destruct (Hbatch id eq_refl) as (batch & Hb & Hnonneg).
    assert (Hlt : (Batch.quantity batch <? TransactionCreate.quantity transaction) = false)
      by (apply Z.ltb_ge; lia).
    unfold_session;
      destruct (TransactionCreate.transaction_type transaction);
      destruct autoflush; cbn; rewrite Hmed; cbn; rewrite Hb; cbn;
      rewrite ?Hlt; cbn; rewrite ?app_nil_r, ?length_app; cbn;
      (split; [do 2 f_equal; lia |]);
      (repeat split; try reflexivity; try discriminate);
      intros id' batch' [= <-] Hb'; rewrite ?lookup_insert_eq; cbn in *.
      all: try congruence.
      all: rewrite Hb'; reflexivity.
  - unfold_session.
    destruct autoflush; cbn; rewrite Hmed; cbn;
      rewrite ?app_nil_r, ?length_app; cbn;
      (split; [do 2 f_equal; lia |]);
      (repeat split; try reflexivity); intros; discriminate.
Qed.

(** An IN of -30 units on the scenario batch is accepted and leaves 70. *)
Lemma create_transaction_quantity_unchecked_witness :
  let transaction := TransactionCreate.mk 1 (Some 1) IN (-30) None None in
  let result := run_request (create_transaction false transaction 1000 7) amx500_db in
  transactions result.2 = [new_transaction transaction 1000 7] ∧
  Batch.quantity <$> batches result.2 !! 1 = Some 70.
Proof.
  cbn zeta.
  assert (Hb : ∀ id,
    truthy_id (TransactionCreate.batch_id
                 (TransactionCreate.mk 1 (Some 1) IN (-30) None None)) = Some id →
    ∃ batch, batches amx500_db !! id = Some batch ∧ 0 ≤ Batch.quantity batch).
  { intros id [= <-]. exists amx500_batch. split; [reflexivity | cbn; lia]. }
  destruct (create_transaction_quantity_unchecked false amx500_db
              (TransactionCreate.mk 1 (Some 1) IN (-30) None None) 1000 7
              amx500 eq_refl ltac:(cbn; lia) Hb)
    as (_ & Htx & _ & _ & _ & _ & Hq).
  split; [exact Htx | exact (Hq 1 amx500_batch eq_refl eq_refl)].
Defined.

(** ** Disposal *)

(** C4.  A DAMAGED request on an existing batch: when the quantity exceeds
    what the batch holds the request fails with "Damaged quantity exceeds
    available stock" (HTTP 400) and the database, so the batch quantity, is
    unchanged; otherwise the batch quantity is reduced by the given amount,
    [is_damaged] is set and one DAMAGED row carrying that amount is
    appended. *)
Theorem mark_batch_damaged_spec (autoflush : bool) (db : Store)
    (batch_id quantity now current_user : Z) (batch : Batch.t) :
  batches db !! batch_id = Some batch →
  let result :=
    run_request (mark_batch_damaged autoflush batch_id quantity now current_user) db in
  (quantity > Batch.quantity batch →
     result =
       (Raise (mkHTTPException 400 "Damaged quantity exceeds available stock"), db)) ∧
  (quantity ≤ Batch.quantity batch →
     ∃ batch' row,
       result.1 = Ok "Batch marked as damaged" ∧
       batches result.2 = <[batch_id := batch']> (batches db) ∧
       Batch.quantity batch' = Batch.quantity batch - quantity ∧
       Batch.is_damaged batch' = true ∧
       Batch.is_expired batch' = Batch.is_expired batch ∧
       Batch.medicine_id batch' = Batch.medicine_id batch ∧
       transactions result.2 = transactions db ++ [row] ∧
       InventoryTransaction.transaction_type row = DAMAGED ∧
       InventoryTransaction.quantity row = quantity ∧
       InventoryTransaction.batch_id row = Some batch_id ∧
       InventoryTransaction.medicine_id row = Batch.medicine_id batch ∧
       medicines result.2 = medicines db ∧
       alerts result.2 = alerts db).
Proof.
  intros Hbatch result. subst result. unfold mark_batch_damaged.
  destruct db as [meds bats txs als]. cbn in Hbatch.
  split; intros Hq.
  - unfold_session.
    destruct autoflush; cbn; rewrite Hbatch; cbn;
      (destruct (Z.gtb_spec quantity (Batch.quantity batch)); [| lia]);
      reflexivity.
  - unfold_session.
    destruct autoflush; cbn; rewrite Hbatch; cbn;
      (destruct (Z.gtb_spec quantity (Batch.quantity batch)); [lia |]);
      cbn; rewrite ?app_nil_r;
      (do 2 eexists; repeat split; reflexivity).
Qed.

(** 40 of the 100 units of the scenario batch are damaged: 60 remain. *)
Lemma mark_batch_damaged_witness :
  ∃ batch',
    batches (run_request (mark_batch_damaged false 1 40 1000 7) amx500_db).2
      = <[1 := batch']> (batches amx500_db)
    ∧ Batch.quantity batch' = 60 ∧ Batch.is_damaged batch' = true.
Proof.
  destruct (mark_batch_damaged_spec false amx500_db 1 40 1000 7 amx500_batch
              eq_refl) as [_ H].
  destruct H as (b & r & _ & Hb & Hq & Hd & _); [cbn; lia |].
  exists b. split; [exact Hb | split; [exact Hq | exact Hd]].
Defined.

(** C10.  Marking an existing batch expired sets [is_expired], sets the
    quantity to 0 and appends exactly one EXPIRED row, and that row records
    the quantity 0 whatever the batch held before: the quantity is read from
    the batch after it was zeroed. *)
Theorem mark_batch_expired_spec (autoflush : bool) (db : Store)
    (batch_id now current_user : Z) (batch : Batch.t) :
  batches db !! batch_id = Some batch →
  let result :=
    run_request (mark_batch_expired autoflush batch_id now current_user) db in
  ∃ batch' row,
    result.1 = Ok "Batch marked as expired" ∧
    batches result.2 = <[batch_id := batch']> (batches db) ∧
    Batch.is_expired batch' = true ∧
    Batch.quantity batch' = 0 ∧
    Batch.medicine_id batch' = Batch.medicine_id batch ∧
    transactions result.2 = transactions db ++ [row] ∧
    InventoryTransaction.transaction_type row = EXPIRED ∧
    InventoryTransaction.quantity row = 0 ∧
    InventoryTransaction.batch_id row = Some batch_id ∧
    InventoryTransaction.medicine_id row = Batch.medicine_id batch ∧
    medicines result.2 = medicines db ∧
    alerts result.2 = alerts db.
Proof.
  intros Hbatch result. subst result. unfold mark_batch_expired.
  destruct db as [meds bats txs als]. cbn in Hbatch.
  unfold_session.
  destruct autoflush; cbn; rewrite Hbatch; cbn; rewrite ?app_nil_r;
    (do 2 eexists; repeat split; reflexivity).
Qed.

(** The scenario batch holds 100 units; the EXPIRED row records 0. *)
Lemma mark_batch_expired_witness :
  ∃ row,
    transactions (run_request (mark_batch_expired true 1 1000 7) amx500_db).2 = [row]
    ∧ InventoryTransaction.quantity row = 0
    ∧ Batch.quantity amx500_batch = 100.
Proof.
  destruct (mark_batch_expired_spec true amx500_db 1 1000 7 amx500_batch eq_refl)
    as (b & r & _ & _ & _ & _ & _ & Htx & _ & Hq & _).
  exists r. split; [exact Htx | split; [exact Hq | reflexivity]].
Defined.

(** ** Acknowledgement *)

(** C9, as stated, fails: alert 1 was acknowledged by user 1 at time 10; a
    second acknowledge call by user 2 at time 20 succeeds and replaces both
    the actor and the timestamp. *)
Lemma acknowledge_alert_twice_overwrites :
  row (alerts acknowledged_db) 1 = Some acknowledged_alert ∧
  Alert.is_acknowledged acknowledged_alert = true ∧
  Alert.acknowledged_by acknowledged_alert = Some 1 ∧
  Alert.acknowledged_at acknowledged_alert = Some 10 ∧
  Forall (λ autoflush,
    let result := run_request (acknowledge_alert autoflush 1 20 2) acknowledged_db in
    result.1 = Ok "Alert acknowledged" ∧
    Alert.acknowledged_by <$> row (alerts result.2) 1 = Some (Some 2) ∧
    Alert.acknowledged_at <$> row (alerts result.2) 1 = Some (Some 20))
    [true; false].
Proof.
  repeat split; try reflexivity.
  repeat constructor; vm_compute; reflexivity.
Qed.

(** C9, amended.  Acknowledgement is last-write-wins.  Every acknowledge
    call on an existing alert, acknowledged before or not, succeeds, sets
    [is_acknowledged] and records the caller and the current time as actor
    and timestamp; the other fields of the alert, the other alerts and the
    other tables are unchanged. *)
Theorem acknowledge_alert_last_write_wins (autoflush : bool) (db : Store)
    (alert_id now current_user : Z) (alert : Alert.t) :
  row (alerts db) alert_id = Some alert →
  let result :=
    run_request (acknowledge_alert autoflush alert_id now current_user) db in
  let alert' := Alert.acknowledge current_user now alert in
  result =
    (Ok "Alert acknowledged",
     mkStore (medicines db) (batches db) (transactions db)
       (<[Z.to_nat (alert_id - 1) := alert']> (alerts db))) ∧
  row (alerts result.2) alert_id = Some alert' ∧
  Alert.is_acknowledged alert' = true ∧
  Alert.acknowledged_by alert' = Some current_user ∧
  Alert.acknowledged_at alert' = Some now ∧
  Alert.alert_type alert' = Alert.alert_type alert ∧
  Alert.medicine_id alert' = Alert.medicine_id alert ∧
  Alert.batch_id alert' = Alert.batch_id alert ∧
  Alert.severity alert' = Alert.severity alert ∧
  Alert.message alert' = Alert.message alert.
Proof.
  intros Hrow result alert'. subst result alert'.
  assert (Hres : run_request (acknowledge_alert autoflush alert_id now current_user) db =
    (Ok "Alert acknowledged",
     mkStore (medicines db) (batches db) (transactions db)
       (<[Z.to_nat (alert_id - 1) := Alert.acknowledge current_user now alert]>
          (alerts db)))).
  { unfold acknowledge_alert. destruct db as [meds bats txs als]. cbn in Hrow.
    unfold_session.
    destruct autoflush; cbn; rewrite ?app_nil_r, Hrow; cbn;
      rewrite ?app_nil_r; reflexivity. }
  rewrite Hres. cbn. repeat split.
  unfold row in *. destruct (1 <=? alert_id); [| discriminate].
  apply list_lookup_insert_eq. by eapply lookup_lt_Some.
Qed.

(** The second acknowledgement of the alert above records user 2 and
    time 20. *)
Lemma acknowledge_alert_last_write_wins_witness :
  Alert.acknowledged_by <$>
    row (alerts (run_request (acknowledge_alert true 1 20 2) acknowledged_db).2) 1
  = Some (Some 2).
Proof.
  destruct (acknowledge_alert_last_write_wins true acknowledged_db 1 20 2
              acknowledged_alert eq_refl) as (_ & Hrow & _).
  rewrite Hrow. reflexivity.
Defined.

(** ** Alert sweeps *)

Lemma bind_run {A B} (m : M A) (f : A → M B) (sess sess' : Session) (a : A) :
  m sess = (Ok a, sess') → (m ≫= f) sess = f a sess'.
Proof. intros Hm. unfold mbind, M_bind. by rewrite Hm. Qed.

Lemma before_query_run (autoflush : bool) (sess : Session) :
  before_query autoflush sess
  = (Ok (), if autoflush then flush_session sess else sess).
Proof. by destruct autoflush. Qed.

Lemma query_medicines_run (autoflush : bool) (sess : Session) :
  query_medicines autoflush sess
  = (Ok (medicines (flushed sess)), if autoflush then flush_session sess else sess).
Proof. by destruct autoflush. Qed.

Lemma query_batches_run (autoflush : bool) (sess : Session) :
  query_batches autoflush sess
  = (Ok (batches (flushed sess)), if autoflush then flush_session sess else sess).
Proof. by destruct autoflush. Qed.

Lemma frame_refl (sess : Session) : frame sess sess.
Proof. by repeat split. Qed.

Lemma frame_trans (s1 s2 s3 : Session) : frame s1 s2 → frame s2 s3 → frame s1 s3.
Proof. unfold frame. intros (? & ? & ? & ?) (? & ? & ? & ?). repeat split; congruence. Qed.

Lemma flush_frame (autoflush : bool) (sess : Session) :
  frame sess (if autoflush then flush_session sess else sess).
Proof.
  destruct autoflush; [| apply frame_refl].
  repeat split. unfold snapshot. cbn. by rewrite !app_nil_r.
Qed.

Lemma flush_alerts_extend (autoflush : bool) (alerts0 created : list Alert.t)
    (sess : Session) :
  alerts_extend alerts0 created sess →
  alerts_extend alerts0 created (if autoflush then flush_session sess else sess).
Proof.
  destruct autoflush; [| done]. intros (c1 & Hflushed & Hcreated).
  exists created. cbn. rewrite Hflushed, <- Hcreated, app_nil_r. by rewrite app_assoc.
Qed.

(** The query for an open LOW_STOCK alert of a medicine answers as it would
    on the alerts at the start of the request, as long as the alerts filed
    since belong to other medicines. *)
Lemma query_alerts_spec (autoflush : bool) (alerts0 created : list Alert.t)
    (sess : Session) (medicine_id : Z) :
  alerts_extend alerts0 created sess →
  (∀ a, a ∈ created → Alert.medicine_id a ≠ Some medicine_id) →
  ∃ sess' existing,
    query_alerts autoflush sess = (Ok existing, sess') ∧
    frame sess sess' ∧
    alerts_extend alerts0 created sess' ∧
    (is_Some (List.find (open_medicine_alert LOW_STOCK medicine_id) existing)
     ↔ is_Some (List.find (open_medicine_alert LOW_STOCK medicine_id) alerts0)).
Proof.
  intros Hext Hother.
  exists (if autoflush then flush_session sess else sess),
         (alerts (flushed (if autoflush then flush_session sess else sess))).
  split; [by destruct autoflush |]. split; [apply flush_frame |].
  pose proof (flush_alerts_extend autoflush _ _ _ Hext) as Hext'.
  split; [done |].
  destruct Hext' as (c1 & Hflushed & Hcreated).
  replace (alerts (flushed (if autoflush then flush_session sess else sess)))
    with (alerts0 ++ c1) by (by destruct autoflush).
  apply find_app_none. intros a Ha.
  unfold open_medicine_alert. case_bool_decide as Hm; [| done].
  destruct (Hother a); [| done]. rewrite <- Hcreated. set_solver.
Qed.

Lemma add_alert_spec (alerts0 created : list Alert.t) (sess : Session) (a : Alert.t) :
  alerts_extend alerts0 created sess →
  ∃ sess',
    add_alert a sess = (Ok (), sess') ∧
    frame sess sess' ∧
    alerts_extend alerts0 (created ++ [a]) sess'.
Proof.
  intros (c1 & Hflushed & Hcreated). eexists. split; [reflexivity |].
  split; [by repeat split |].
  exists c1. split; [done |]. cbn. by rewrite <- Hcreated, app_assoc.
Qed.

(** A loop that files alerts: each element [x] stands for the medicine
    [key x], its iteration files the alerts [step x], all for that medicine,
    and no two elements stand for the same medicine. *)
Section Sweep.

Context {A S : Type}.
Variables (alerts0 : list Alert.t) (table : gmap Z Batch.t).
Variables (key : A → Z) (step : A → list Alert.t) (next : S → A → S).
Variable body : S → A → M S.

Hypothesis step_key :
  ∀ x a, a ∈ step x → Alert.medicine_id a = Some (key x).

Hypothesis body_spec :
  ∀ sess acc x created,
    batches (flushed sess) = table →
    alerts_extend alerts0 created sess →
    (∀ a, a ∈ created → Alert.medicine_id a ≠ Some (key x)) →
    ∃ sess',
      body acc x sess = (Ok (next acc x), sess') ∧
      frame sess sess' ∧
      alerts_extend alerts0 (created ++ step x) sess'.

Lemma for_each_sweep (l : list A) :
  ∀ (created : list Alert.t) (sess : Session) (acc : S),
  NoDup (key <$> l) →
  batches (flushed sess) = table →
  alerts_extend alerts0 created sess →
  (∀ a x, a ∈ created → x ∈ l → Alert.medicine_id a ≠ Some (key x)) →
  ∃ sess',
    for_each l acc body sess = (Ok (fold_left next l acc), sess') ∧
    frame sess sess' ∧
    alerts_extend alerts0 (created ++ flat_map step l) sess'.
Proof.
  induction l as [|x l IH]; intros created sess acc Hnodup Htable Hext Hother.
  - exists sess. cbn. rewrite app_nil_r. by split; [| split; [apply frame_refl |]].
  - rewrite fmap_cons in Hnodup. apply NoDup_cons in Hnodup as [Hx Hnodup].
    destruct (body_spec sess acc x created Htable Hext)
      as (sess1 & Hrun & Hframe1 & Hext1).
    { intros a Ha. apply Hother; [done | left]. }
    destruct (IH (created ++ step x) sess1 (next acc x) Hnodup)
      as (sess2 & Hrun2 & Hframe2 & Hext2).
    { destruct Hframe1 as (_ & _ & -> & _). exact Htable. }
    { exact Hext1. }
    { intros a x' [Ha | Ha]%elem_of_app Hx'.
      - apply Hother; [done | by right].
      - rewrite (step_key _ _ Ha). intros [= Heq].
        apply Hx. rewrite Heq. apply list_elem_of_fmap. by exists x'. }
    exists sess2. cbn [for_each fold_left flat_map].
    rewrite (bind_run _ _ _ _ _ Hrun), Hrun2, app_assoc.
    split; [done |]. split; [by eapply frame_trans | done].
Qed.

(** Of the alerts that the loop files, those of the medicine of [x] are the
    alerts of the iteration of [x]. *)
Lemma filter_sweep (l : list A) (x : A) :
  NoDup (key <$> l) →
  x ∈ l →
  List.filter (λ a, bool_decide (Alert.medicine_id a = Some (key x)))
    (flat_map step l)
  = step x.
Proof.
  set (mine := λ a, bool_decide (Alert.medicine_id a = Some (key x))).
  assert (Hmine : ∀ y, key y = key x → List.filter mine (step y) = step y).
  { intros y Hy. apply forallb_filter_id, forallb_forall. intros a Ha%list_elem_of_In.
    unfold mine. rewrite (step_key _ _ Ha), Hy. by apply bool_decide_eq_true_2. }
  assert (Hother : ∀ y, key y ≠ key x → List.filter mine (step y) = []).
  { intros y Hy. apply filter_none. intros a Ha. unfold mine.
    rewrite (step_key _ _ Ha). apply bool_decide_eq_false_2. congruence. }
  induction l as [|y l IH]; intros Hnodup Hin; [by apply elem_of_nil in Hin |].
  rewrite fmap_cons in Hnodup. apply NoDup_cons in Hnodup as [Hy Hnodup].
  cbn [flat_map]. rewrite List.filter_app.
  apply elem_of_cons in Hin as [<- | Hin].
  - rewrite Hmine by done.
    rewrite (filter_none mine (flat_map step l)); [by rewrite app_nil_r |].
    intros a (y & Hy' & Ha)%list_elem_of_In%in_flat_map.
    apply list_elem_of_In in Hy', Ha. unfold mine.
    rewrite (step_key _ _ Ha). apply bool_decide_eq_false_2. intros [= Heq].
    apply Hy. rewrite <- Heq. apply list_elem_of_fmap. by exists y.
  - rewrite Hother, IH; [done .. |].
    intros Heq. apply Hy. rewrite Heq. apply list_elem_of_fmap. by exists x.
Qed.

End Sweep.

(** *** The explicit sweep *)

Lemma low_stock_step_medicine (now : Z) (alerts0 : list Alert.t)
    (table : gmap Z Batch.t) (medicine : Z * Medicine.t) (a : Alert.t) :
  a ∈ low_stock_step now alerts0 table medicine →
  Alert.medicine_id a = Some medicine.1.
Proof.
  unfold low_stock_step.
  destruct (List.find _ alerts0); [by intros ?%elem_of_nil |].
  destruct (_ <? 20); [| by intros ?%elem_of_nil].
  by intros ->%list_elem_of_singleton.
Qed.

(** One iteration of the loop files [low_stock_step] for its medicine. *)
Lemma check_low_stock_medicine_spec (autoflush : bool) (now : Z)
    (alerts0 : list Alert.t) (table : gmap Z Batch.t) (sess : Session) (acc : Z)
    (medicine : Z * Medicine.t) (created : list Alert.t) :
  batches (flushed sess) = table →
  alerts_extend alerts0 created sess →
  (∀ a, a ∈ created → Alert.medicine_id a ≠ Some medicine.1) →
  ∃ sess',
    check_low_stock_medicine autoflush now acc medicine sess
      = (Ok (acc + Z.of_nat (length (low_stock_step now alerts0 table medicine))),
         sess') ∧
    frame sess sess' ∧
    alerts_extend alerts0 (created ++ low_stock_step now alerts0 table medicine) sess'.
Proof.
  intros Htable Hext Hother. unfold check_low_stock_medicine.
  rewrite (bind_run _ _ _ _ _ (query_batches_run autoflush sess)), Htable.
  set (sess1 := if autoflush then flush_session sess else sess).
  destruct (query_alerts_spec autoflush alerts0 created sess1 medicine.1)
    as (sess2 & existing & Hquery & Hframe2 & Hext2 & Hfind);
    [by apply flush_alerts_extend | done |].
  rewrite (bind_run _ _ _ _ _ Hquery).
  assert (Hframe : frame sess sess2).
  { eapply frame_trans; [apply flush_frame | done]. }
  unfold low_stock_step.
  destruct (List.find _ existing) as [a|] eqn:Hexisting.
  - destruct (proj1 Hfind) as [a0 ->]; [by eexists |].
    exists sess2. cbn. by rewrite Z.add_0_r, app_nil_r.
  - destruct (List.find _ alerts0) as [a0|] eqn:Hf0.
    { destruct (proj2 Hfind) as [? [=]]. by eexists. }
    destruct (total_stock table medicine.1 <? 20).
    + destruct (add_alert_spec alerts0 created sess2
                  (low_stock_alert medicine.1 medicine.2
                     (total_stock table medicine.1) now) Hext2)
        as (sess3 & Hadd & Hframe3 & Hext3).
      exists sess3. rewrite (bind_run _ _ _ _ _ Hadd).
      split; [done |]. split; [by eapply frame_trans | done].
    + exists sess2. cbn. by rewrite Z.add_0_r, app_nil_r.
Qed.

Lemma fold_left_count {A} (f : A → list Alert.t) (l : list A) (acc : Z) :
  fold_left (λ acc x, acc + Z.of_nat (length (f x))) l acc
  = acc + Z.of_nat (length (flat_map f l)).
Proof.
  revert acc. induction l as [|x l IH]; intros acc; cbn; [lia |].
  rewrite IH, length_app. lia.
Qed.

(** What a request to [check_low_stock] leaves in the database. *)
Lemma check_low_stock_run (autoflush : bool) (now : Z) (db : Store) :
  let active := List.filter (λ m, Medicine.is_active m.2) (map_to_list (medicines db)) in
  let created := flat_map (low_stock_step now (alerts db) (batches db)) active in
  run_request (check_low_stock autoflush now) db
  = (Ok ("Created " +:+ pretty (Z.of_nat (length created)) +:+ " low stock alerts"),
     mkStore (medicines db) (batches db) (transactions db) (alerts db ++ created)).
Proof.
  intros active created.
  unfold run_request, check_low_stock.
  set (sess0 := mkSession db db [] []).
  set (sess1 := if autoflush then flush_session sess0 else sess0).
  assert (Hframe1 : frame sess0 sess1) by apply flush_frame.
  assert (Hext1 : alerts_extend (alerts db) [] sess1).
  { apply flush_alerts_extend. exists []. cbn. by rewrite app_nil_r. }
  rewrite (bind_run _ _ _ _ _ (query_medicines_run autoflush sess0)).
  fold active.
  destruct (for_each_sweep (alerts db) (batches db) fst
              (low_stock_step now (alerts db) (batches db))
              (λ acc x, acc + Z.of_nat (length (low_stock_step now (alerts db) (batches db) x)))
              (check_low_stock_medicine autoflush now)
              (low_stock_step_medicine now (alerts db) (batches db))
              (λ sess acc x created,
                 check_low_stock_medicine_spec autoflush now (alerts db) (batches db)
                   sess acc x created)
              active [] sess1 0) as (sess2 & Hrun & Hframe2 & Hext2).
  { apply NoDup_fmap_fst_filter. }
  { apply Hframe1. }
  { exact Hext1. }
  { by intros a m ?%elem_of_nil. }
  rewrite fold_left_count in Hrun.
  fold created in Hrun, Hext2. cbn [app] in Hext2.
  rewrite (bind_run _ _ _ _ _ Hrun).
  unfold commit, mbind, M_bind, mret, M_ret. cbn.
  destruct Hext2 as (c1 & Hflushed & Hcreated).
  destruct (frame_trans _ _ _ Hframe1 Hframe2) as (_ & Hm & Hb & Ht).
  unfold snapshot in Ht. cbn in Ht, Hm, Hb.
  rewrite Hm, Hb, Ht, Hflushed, <- app_assoc, Hcreated, app_nil_r.
  reflexivity.
Qed.

(** *** The sweep after an upload *)

Lemma low_stock_level_step_medicine (now : Z) (alerts0 : list Alert.t)
    (level : Z * string * Z) (a : Alert.t) :
  a ∈ low_stock_level_step now alerts0 level →
  Alert.medicine_id a = Some level.1.1.
Proof.
  unfold low_stock_level_step.
  destruct (_ <? 20); [| by intros ?%elem_of_nil].
  destruct (List.find _ alerts0); [by intros ?%elem_of_nil |].
  by intros ->%list_elem_of_singleton.
Qed.

Lemma check_low_stock_level_spec (autoflush : bool) (now : Z)
    (alerts0 : list Alert.t) (table : gmap Z Batch.t) (sess : Session) (acc : unit)
    (level : Z * string * Z) (created : list Alert.t) :
  batches (flushed sess) = table →
  alerts_extend alerts0 created sess →
  (∀ a, a ∈ created → Alert.medicine_id a ≠ Some level.1.1) →
  ∃ sess',
    check_low_stock_level autoflush now acc level sess = (Ok (), sess') ∧
    frame sess sess' ∧
    alerts_extend alerts0 (created ++ low_stock_level_step now alerts0 level) sess'.
Proof.
  intros _ Hext Hother. destruct level as [[medicine_id medicine_name] total].
  unfold check_low_stock_level, low_stock_level_step. cbn [fst snd] in *.
  destruct (total <? 20).
  - destruct (query_alerts_spec autoflush alerts0 created sess medicine_id Hext Hother)
      as (sess1 & existing & Hquery & Hframe1 & Hext1 & Hfind).
    rewrite (bind_run _ _ _ _ _ Hquery).
    destruct (List.find _ existing) as [a|] eqn:Hexisting.
    + destruct (proj1 Hfind) as [a0 ->]; [by eexists |].
      exists sess1. by rewrite app_nil_r.
    + destruct (List.find _ alerts0) as [a0|] eqn:Hf0.
      { destruct (proj2 Hfind) as [? [=]]. by eexists. }
      destruct (add_alert_spec alerts0 created sess1
                  (low_stock_upload_alert medicine_id medicine_name total now) Hext1)
        as (sess2 & Hadd & Hframe2 & Hext2).
      exists sess2. split; [done |]. split; [by eapply frame_trans | done].
  - exists sess. rewrite app_nil_r. by split; [| split; [apply frame_refl |]].
Qed.

(** The aggregate query has one row per medicine. *)
Lemma NoDup_stock_levels (db : Store) :
  NoDup ((λ level : Z * string * Z, level.1.1) <$> stock_levels db).
Proof.
  unfold stock_levels.
  pose proof (NoDup_fst_map_to_list (medicines db)) as Hnodup.
  induction (map_to_list (medicines db)) as [|m l IH]; [constructor |].
  rewrite fmap_cons in Hnodup. apply NoDup_cons in Hnodup as [Hm Hnodup].
  cbn [omap list_omap].
  destruct (List.filter _ (batches_of (batches db) m.1)); [by apply IH |].
  rewrite fmap_cons. apply NoDup_cons. split; [| by apply IH].
  cbn [fst]. intros Hin. apply Hm.
  apply list_elem_of_fmap in Hin as (level & -> & Hlevel).
  apply list_elem_of_omap in Hlevel as (m' & Hm' & Hlevel).
  apply list_elem_of_fmap. exists m'. split; [| done].
  destruct (List.filter _ (batches_of (batches db) m'.1)); by simplify_eq.
Qed.

(** What a request to [check_low_stock_alerts] leaves in the database. *)
Lemma check_low_stock_alerts_run (autoflush : bool) (now : Z) (db : Store) :
  let created := flat_map (low_stock_level_step now (alerts db)) (stock_levels db) in
  run_request (check_low_stock_alerts autoflush now) db
  = (Ok (),
     mkStore (medicines db) (batches db) (transactions db) (alerts db ++ created)).
Proof.
  intros created.
  unfold run_request, check_low_stock_alerts.
  set (sess0 := mkSession db db [] []).
  set (sess1 := if autoflush then flush_session sess0 else sess0).
  assert (Hframe1 : frame sess0 sess1) by apply flush_frame.
  assert (Hext1 : alerts_extend (alerts db) [] sess1).
  { apply flush_alerts_extend. exists []. cbn. by rewrite app_nil_r. }
  rewrite (bind_run _ _ _ _ _ (before_query_run autoflush sess0)). fold sess1.
  assert (Hlevels : gets stock_levels sess1 = (Ok (stock_levels db), sess1)).
  { unfold gets. f_equal. f_equal. subst sess1 sess0. destruct db.
    by destruct autoflush. }
  rewrite (bind_run _ _ _ _ _ Hlevels).
  destruct (for_each_sweep (alerts db) (batches db) (λ level : Z * string * Z, level.1.1)
              (low_stock_level_step now (alerts db)) (λ _ _, ())
              (check_low_stock_level autoflush now)
              (low_stock_level_step_medicine now (alerts db))
              (λ sess acc x created,
                 check_low_stock_level_spec autoflush now (alerts db) (batches db)
                   sess acc x created)
              (stock_levels db) [] sess1 ()) as (sess2 & Hrun & Hframe2 & Hext2).
  { apply NoDup_stock_levels. }
  { apply Hframe1. }
  { exact Hext1. }
  { by intros a m ?%elem_of_nil. }
  fold created in Hext2. cbn [app] in Hext2.
  assert (Hunit : fold_left (λ (_ : unit) (_ : Z * string * Z), ()) (stock_levels db) ()
                  = ()) by (by destruct (fold_left _ _ _)).
  rewrite Hunit in Hrun.
  rewrite (bind_run _ _ _ _ _ Hrun).
  unfold commit. cbn.
  destruct Hext2 as (c1 & Hflushed & Hcreated).
  destruct (frame_trans _ _ _ Hframe1 Hframe2) as (_ & Hm & Hb & Ht).
  unfold snapshot in Ht. cbn in Ht, Hm, Hb.
  rewrite Hm, Hb, Ht, Hflushed, <- app_assoc, Hcreated, app_nil_r.
  reflexivity.
Qed.

(** [check_low_stock], on an active medicine whose stock is below 20 and
    that has no open alert, files exactly one alert for that medicine: of
    type STOCK_OUT and severity critical when the stock is 0, else of type
    LOW_STOCK and severity high below 10 units and medium from 10 units. *)
Lemma check_low_stock_one_alert (autoflush : bool) (db : Store)
    (now medicine_id : Z) (medicine : Medicine.t) :
  medicines db !! medicine_id = Some medicine →
  Medicine.is_active medicine = true →
  (∀ a, a ∈ alerts db → Alert.medicine_id a = Some medicine_id →
        Alert.is_acknowledged a = true) →
  total_stock (batches db) medicine_id < 20 →
  let stock := total_stock (batches db) medicine_id in
  let result := run_request (check_low_stock autoflush now) db in
  ∃ created alert,
    alerts result.2 = alerts db ++ created ∧
    List.filter (λ a, bool_decide (Alert.medicine_id a = Some medicine_id)) created
      = [alert] ∧
    Alert.alert_type alert = (if stock =? 0 then STOCK_OUT else LOW_STOCK) ∧
    Alert.severity alert =
      (if stock =? 0 then "critical" else if stock <? 10 then "high" else "medium") ∧
    Alert.is_acknowledged alert = false ∧
    medicines result.2 = medicines db ∧
    batches result.2 = batches db ∧
    transactions result.2 = transactions db.
Proof.
  intros Hmed Hactive Hopen Hlow stock result. subst result.
  rewrite check_low_stock_run. cbn [snd alerts medicines batches transactions].
  set (active := List.filter _ (map_to_list (medicines db))).
  assert (Hin : (medicine_id, medicine) ∈ active).
  { apply list_elem_of_In, filter_In. split; [| done].
    by apply list_elem_of_In, elem_of_map_to_list. }
  assert (Hstep : low_stock_step now (alerts db) (batches db) (medicine_id, medicine)
                  = [low_stock_alert medicine_id medicine stock now]).
  { unfold low_stock_step. cbn [fst snd].
    destruct (List.find _ (alerts db)) as [a|] eqn:Hfind.
    - apply find_some in Hfind as [Ha%list_elem_of_In Hf].
      unfold open_medicine_alert in Hf.
      apply andb_prop in Hf as [[Hm _]%andb_prop Hack].
      apply bool_decide_eq_true in Hm.
      rewrite (Hopen a Ha Hm) in Hack. discriminate.
    - fold stock. by rewrite (proj2 (Z.ltb_lt stock 20) Hlow). }
  eexists _, _. split; [reflexivity |].
  pose proof (filter_sweep fst (low_stock_step now (alerts db) (batches db))
                (low_stock_step_medicine now (alerts db) (batches db))
                active (medicine_id, medicine)
                (NoDup_fmap_fst_filter _ _) Hin) as Hfilter.
  cbn [fst] in Hfilter. rewrite Hfilter, Hstep. repeat split.
Qed.

(** [check_low_stock_alerts], on a medicine whose available stock is
    between 1 and 19 and that has no open alert, files exactly one alert for
    that medicine, of type LOW_STOCK and severity medium. *)
Lemma check_low_stock_alerts_one_alert (autoflush : bool) (db : Store)
    (now medicine_id : Z) (medicine : Medicine.t) :
  medicines db !! medicine_id = Some medicine →
  (∀ a, a ∈ alerts db → Alert.medicine_id a = Some medicine_id →
        Alert.is_acknowledged a = true) →
  0 < available_stock (batches db) medicine_id < 20 →
  let result := run_request (check_low_stock_alerts autoflush now) db in
  ∃ created alert,
    alerts result.2 = alerts db ++ created ∧
    List.filter (λ a, bool_decide (Alert.medicine_id a = Some medicine_id)) created
      = [alert] ∧
    Alert.alert_type alert = LOW_STOCK ∧
    Alert.severity alert = "medium" ∧
    Alert.is_acknowledged alert = false ∧
    medicines result.2 = medicines db ∧
    batches result.2 = batches db ∧
    transactions result.2 = transactions db.
Proof.
  intros Hmed Hopen Hstock result. subst result.
  rewrite check_low_stock_alerts_run. cbn [snd alerts medicines batches transactions].
  set (total := available_stock (batches db) medicine_id) in *.
  set (level := (medicine_id, Medicine.name medicine, total)).
  assert (Hin : level ∈ stock_levels db).
  { unfold stock_levels. apply list_elem_of_omap. exists (medicine_id, medicine).
    split; [by apply elem_of_map_to_list |]. cbn [fst snd].
    subst level total. unfold available_stock in *.
    destruct (List.filter _ (batches_of (batches db) medicine_id)); [| done].
    cbn in Hstock. lia. }
  assert (Hstep : low_stock_level_step now (alerts db) level
                  = [low_stock_upload_alert medicine_id (Medicine.name medicine) total now]).
  { unfold low_stock_level_step. subst level. cbn [fst snd].
    rewrite (proj2 (Z.ltb_lt total 20)) by lia.
    destruct (List.find _ (alerts db)) as [a|] eqn:Hfind; [| done].
    apply find_some in Hfind as [Ha%list_elem_of_In Hf].
    unfold open_medicine_alert in Hf.
    apply andb_prop in Hf as [[Hm _]%andb_prop Hack].
    apply bool_decide_eq_true in Hm.
    rewrite (Hopen a Ha Hm) in Hack. discriminate. }
  eexists _, _. split; [reflexivity |].
  pose proof (filter_sweep (λ level : Z * string * Z, level.1.1)
                (low_stock_level_step now (alerts db))
                (low_stock_level_step_medicine now (alerts db))
                (stock_levels db) level (NoDup_stock_levels db) Hin) as Hfilter.
  subst level. cbn [fst] in Hfilter. rewrite Hfilter, Hstep.
  repeat split. cbn. by rewrite (proj2 (Z.eqb_neq total 0)) by lia.
Qed.

(** C3, as stated, fails for the sweep after an upload: the active medicine
    of [low_stock_db] holds 5 units and has no alert, and
    [check_low_stock_alerts] files its one alert with severity medium, not
    high; for the medicine of [sold_out_db], at stock 0, it files none. *)
Lemma check_low_stock_alerts_not_the_rule :
  Medicine.is_active <$> medicines low_stock_db !! 1 = Some true ∧
  total_stock (batches low_stock_db) 1 = 5 ∧
  alerts low_stock_db = [] ∧
  total_stock (batches sold_out_db) 1 = 0 ∧
  alerts sold_out_db = [] ∧
  Forall (λ autoflush,
    alerts (run_request (check_low_stock_alerts autoflush 1000) low_stock_db).2
      = [low_stock_upload_alert 1 "Amoxicillin 500" 5 1000] ∧
    Alert.severity (low_stock_upload_alert 1 "Amoxicillin 500" 5 1000) = "medium" ∧
    alerts (run_request (check_low_stock_alerts autoflush 1000) sold_out_db).2 = [])
    [true; false].
Proof.
  repeat split; try (by vm_compute).
  repeat constructor; by vm_compute.
Qed.

(** C3, amended.  Of the two low-stock sweeps only [check_low_stock] is the
    rule as stated: for an active medicine with stock below 20 and no open
    alert it files exactly one alert, STOCK_OUT and critical at stock 0,
    else LOW_STOCK, high below 10 units and medium from 10 units.
    [check_low_stock_alerts], the sweep after an upload, files for a
    medicine with an available stock between 1 and 19 and no open alert
    exactly one LOW_STOCK alert of severity medium. *)
Theorem low_stock_rules (autoflush : bool) (db : Store)
    (now medicine_id : Z) (medicine : Medicine.t) :
  medicines db !! medicine_id = Some medicine →
  (∀ a, a ∈ alerts db → Alert.medicine_id a = Some medicine_id →
        Alert.is_acknowledged a = true) →
  let mine := λ a, bool_decide (Alert.medicine_id a = Some medicine_id) in
  (Medicine.is_active medicine = true →
   total_stock (batches db) medicine_id < 20 →
   let stock := total_stock (batches db) medicine_id in
   let result := run_request (check_low_stock autoflush now) db in
   ∃ created alert,
     alerts result.2 = alerts db ++ created ∧
     List.filter mine created = [alert] ∧
     Alert.alert_type alert = (if stock =? 0 then STOCK_OUT else LOW_STOCK) ∧
     Alert.severity alert =
       (if stock =? 0 then "critical" else if stock <? 10 then "high" else "medium") ∧
     Alert.is_acknowledged alert = false) ∧
  (0 < available_stock (batches db) medicine_id < 20 →
   let result := run_request (check_low_stock_alerts autoflush now) db in
   ∃ created alert,
     alerts result.2 = alerts db ++ created ∧
     List.filter mine created = [alert] ∧
     Alert.alert_type alert = LOW_STOCK ∧
     Alert.severity alert = "medium" ∧
     Alert.is_acknowledged alert = false).
Proof.
  intros Hmed Hopen mine. split.
  - intros Hactive Hlow stock result.
    destruct (check_low_stock_one_alert autoflush db now medicine_id medicine
                Hmed Hactive Hopen Hlow)
      as (created & alert & H1 & H2 & H3 & H4 & H5 & _).
    by exists created, alert.
  - intros Hstock result.
    destruct (check_low_stock_alerts_one_alert autoflush db now medicine_id medicine
                Hmed Hopen Hstock)
      as (created & alert & H1 & H2 & H3 & H4 & H5 & _).
    by exists created, alert.
Qed.

(** The medicine of [low_stock_db] holds 5 units: [check_low_stock] files
    one LOW_STOCK alert of severity high, [check_low_stock_alerts] one of
    severity medium. *)
Lemma low_stock_rules_witness :
  (∃ alert,
     alerts (run_request (check_low_stock true 1000) low_stock_db).2 = [alert] ∧
     Alert.alert_type alert = LOW_STOCK ∧ Alert.severity alert = "high") ∧
  (∃ alert,
     alerts (run_request (check_low_stock_alerts true 1000) low_stock_db).2 = [alert] ∧
     Alert.alert_type alert = LOW_STOCK ∧ Alert.severity alert = "medium").
Proof.
  assert (Hopen : ∀ a, a ∈ alerts low_stock_db → Alert.medicine_id a = Some 1 →
                       Alert.is_acknowledged a = true).
  { intros a Ha. by apply elem_of_nil in Ha. }
  destruct (low_stock_rules true low_stock_db 1000 1 amx500 eq_refl Hopen)
    as [Hexplicit Hupload].
  split.
  - destruct (Hexplicit eq_refl ltac:(by vm_compute))
      as (created & alert & Hcreated & Hfilter & Hty & Hsev & _).
    exists alert. split; [| split; [exact Hty | exact Hsev]].
    assert (Hall : alerts (run_request (check_low_stock true 1000) low_stock_db).2
                   = [low_stock_alert 1 amx500 5 1000]) by (by vm_compute).
    rewrite Hall in *. cbn in Hcreated. subst created.
    cbn in Hfilter. by injection Hfilter as <-.
  - destruct (Hupload ltac:(by vm_compute))
      as (created & alert & Hcreated & Hfilter & Hty & Hsev & _).
    exists alert. split; [| split; [exact Hty | exact Hsev]].
    assert (Hall : alerts (run_request (check_low_stock_alerts true 1000) low_stock_db).2
                   = [low_stock_upload_alert 1 "Amoxicillin 500" 5 1000])
      by (by vm_compute).
    rewrite Hall in *. cbn in Hcreated. subst created.
    cbn in Hfilter. by injection Hfilter as <-.
Defined.

(** The de-duplication of [check_low_stock] does work for medicines that
    have stock: when no active medicine is at stock 0, a second run right
    after the first files nothing. *)
Lemma check_low_stock_idempotent_with_stock (autoflush : bool) (db : Store)
    (now now' : Z) :
  (∀ id m, medicines db !! id = Some m → Medicine.is_active m = true →
           total_stock (batches db) id ≠ 0) →
  let first := run_request (check_low_stock autoflush now) db in
  run_request (check_low_stock autoflush now') first.2
  = (Ok "Created 0 low stock alerts", first.2).
Proof.
  intros Hstock first. subst first.
  rewrite (check_low_stock_run autoflush now db).
  cbn [snd]. rewrite check_low_stock_run.
  cbn [medicines batches transactions alerts].
  set (active := List.filter _ (map_to_list (medicines db))).
  set (created := flat_map (low_stock_step now (alerts db) (batches db)) active).
  assert (Hnone : flat_map (low_stock_step now' (alerts db ++ created) (batches db)) active
                  = []).
  { apply flat_map_none. intros m Hm.
    assert (Hin : low_stock_step now (alerts db) (batches db) m ⊆ created).
    { intros a Ha. apply list_elem_of_In, in_flat_map. exists m.
      by split; [| apply list_elem_of_In]. }
    apply filter_In in Hm as [Hm%list_elem_of_In Hactive].
    destruct m as [id m]. apply elem_of_map_to_list in Hm.
    pose proof (Hstock id m Hm Hactive) as Hnz.
    unfold low_stock_step in *. cbn [fst snd] in *.
    destruct (List.find _ (alerts db)) as [a|] eqn:Hfind.
    - apply find_some in Hfind as [Ha%list_elem_of_In Hf].
      destruct (find_is_Some (open_medicine_alert LOW_STOCK id)
                  (alerts db ++ created) a) as [a' ->]; [set_solver | done | done].
    - destruct (_ <? 20); [| by destruct (List.find _ (alerts db ++ created))].
      destruct (find_is_Some (open_medicine_alert LOW_STOCK id)
                  (alerts db ++ created)
                  (low_stock_alert id m (total_stock (batches db) id) now))
        as [a' ->]; [set_solver | | done].
      unfold open_medicine_alert, low_stock_alert. cbn.
      rewrite (proj2 (Z.eqb_neq _ 0) Hnz).
      by rewrite !bool_decide_eq_true_2. }
  rewrite Hnone, app_nil_r. reflexivity.
Qed.

(** The sweep after an upload files LOW_STOCK alerts only, the type its
    query looks for: a second run right after the first files nothing. *)
Lemma check_low_stock_alerts_idempotent (autoflush : bool) (db : Store)
    (now now' : Z) :
  let first := run_request (check_low_stock_alerts autoflush now) db in
  run_request (check_low_stock_alerts autoflush now') first.2 = (Ok (), first.2).
Proof.
  intros first. subst first.
  rewrite (check_low_stock_alerts_run autoflush now db).
  cbn [snd]. rewrite check_low_stock_alerts_run.
  cbn [medicines batches transactions alerts].
  assert (Hlevels : ∀ als, stock_levels (mkStore (medicines db) (batches db)
                                           (transactions db) als) = stock_levels db)
    by done.
  rewrite Hlevels.
  set (created := flat_map (low_stock_level_step now (alerts db)) (stock_levels db)).
  assert (Hnone : flat_map (low_stock_level_step now' (alerts db ++ created))
                    (stock_levels db) = []).
  { apply flat_map_none. intros level Hlevel.
    assert (Hin : low_stock_level_step now (alerts db) level ⊆ created).
    { intros a Ha. apply list_elem_of_In, in_flat_map. exists level.
      by split; [| apply list_elem_of_In]. }
    unfold low_stock_level_step in *.
    destruct (level.2 <? 20); [| done].
    destruct (List.find _ (alerts db)) as [a|] eqn:Hfind.
    - apply find_some in Hfind as [Ha%list_elem_of_In Hf].
      destruct (find_is_Some (open_medicine_alert LOW_STOCK level.1.1)
                  (alerts db ++ created) a) as [a' ->]; [set_solver | done | done].
    - destruct (find_is_Some (open_medicine_alert LOW_STOCK level.1.1)
                  (alerts db ++ created)
                  (low_stock_upload_alert level.1.1 level.1.2 level.2 now))
        as [a' ->]; [set_solver | | done].
      unfold open_medicine_alert, low_stock_upload_alert. cbn.
      by rewrite !bool_decide_eq_true_2. }
  rewrite Hnone, app_nil_r. reflexivity.
Qed.

(** ** Alert engine *)

(** C2 fails on [check_low_stock]: on an active medicine whose stock is 0
    the rule looks for an open LOW_STOCK alert but files a STOCK_OUT alert,
    so the second of two runs in a row, with the ledger untouched in
    between, files a second open STOCK_OUT alert for the same medicine. *)
Lemma check_low_stock_twice_duplicates :
  total_stock (batches sold_out_db) 1 = 0 ∧
  Forall (λ autoflush,
    let first := run_request (check_low_stock autoflush 1000) sold_out_db in
    let second := run_request (check_low_stock autoflush 2000) first.2 in
    medicines second.2 = medicines sold_out_db ∧
    batches second.2 = batches sold_out_db ∧
    transactions second.2 = transactions sold_out_db ∧
    alerts first.2 = [low_stock_alert 1 amx500 0 1000] ∧
    second.1 = Ok "Created 1 low stock alerts" ∧
    alerts second.2 =
      [low_stock_alert 1 amx500 0 1000; low_stock_alert 1 amx500 0 2000] ∧
    List.filter (open_medicine_alert STOCK_OUT 1) (alerts second.2) =
      [low_stock_alert 1 amx500 0 1000; low_stock_alert 1 amx500 0 2000])
    [true; false].
Proof.
  split; [by vm_compute |].
  repeat constructor; vm_compute; reflexivity.
Qed.

(** ** The sweeps after an upload, on the examples *)

(** The expiry scenario of the specification: the batch expires in 45 days.
    A session that flushes before queries files one EXPIRY_WARNING of
    severity medium and nothing on a second run; a session that does not
    files one alert per lookahead window that covers the batch (60 and 90
    days) in the first run, and nothing in the second. *)
Example check_expiry_alerts_scenario :
  let warning := expiry_alert 1 amx500_batch amx500 45 1000 in
  Alert.severity warning = "medium" ∧
  (let first := run_request (check_expiry_alerts true 1000) amx500_db in
   alerts first.2 = [warning] ∧
   run_request (check_expiry_alerts true 1000) first.2 = (Ok (), first.2)) ∧
  (let first := run_request (check_expiry_alerts false 1000) amx500_db in
   alerts first.2 = [warning; warning] ∧
   run_request (check_expiry_alerts false 1000) first.2 = (Ok (), first.2)).
Proof. repeat split; by vm_compute. Qed.

(** ** Arithmetic of the float model *)


(** ** The rational reading against binary64 *)


Lemma confidence_agrees_range : forallb confidence_agrees (seqZ 1 1000) = true.
Proof. vm_compute. reflexivity. Qed.


(** For every count up to 1000 transactions the binary64 confidence rounds
    to the same hundredths as the rational one. *)
Lemma confidence_binary64 (n : Z) :
  1 ≤ n ≤ 1000 →
  cents (confidence_b64 n) = cents (Qmin 0.95 (0.5 + inject_Z n / 100)).
Proof.
  intros Hrange.
  assert (Hin : In n (seqZ 1 1000)).
  { apply list_elem_of_In, elem_of_seqZ. lia. }
  pose proof (proj1 (forallb_forall confidence_agrees (seqZ 1 1000))
                confidence_agrees_range _ Hin) as Hagree.
  by apply Z.eqb_eq in Hagree.
Qed.

(** ** Forecast engine *)



(** C5, as stated, fails twice.  The forecasted demand is a binary64 product
    that is returned as it is: at 3 units in stock it is 0.8999999999999999,
    which is neither 0.9 nor the double nearest to it.  And the stock that
    the forecast starts from is not the raw available stock once a batch
    quantity is negative: after 150 units are received with the sign
    reversed on one of the two 100-unit batches of [two_batches_db], the raw
    available stock is 100, and the forecast, made from 50 units, is a demand
    of 15, a reorder point of 10 and a recommended quantity of 25, where the
    statement gives 30, 20 and 50. *)
Lemma forecast_without_history_not_30_percent :
  (let forecast := calculate_demand_forecast three_units_db (10 * day) 1 30 in
   transactions three_units_db = [] ∧
   available_stock (batches three_units_db) 1 = 3 ∧
   ForecastData.forecasted_demand forecast = 0.8999999999999999%float ∧
   PrimFloat.eqb (ForecastData.forecasted_demand forecast) 0.9 = false ∧
   (Q_of_float (ForecastData.forecasted_demand forecast) < 9 # 10)%Q) ∧
  (let received := TransactionCreate.mk 1 (Some 2) IN (- 150) None None in
   let result :=
     run_request (create_transaction false received (10 * day) 7) two_batches_db in
   let forecast := calculate_demand_forecast result.2 (10 * day) 1 30 in
   result.1 = Ok (1, new_transaction received (10 * day) 7) ∧
   List.filter (recent_out 1 (10 * day - 90 * day)) (transactions result.2) = [] ∧
   available_stock (batches result.2) 1 = 100 ∧
   ForecastData.forecasted_demand forecast = 15%float ∧
   ForecastData.reorder_point forecast = 10 ∧
   ForecastData.recommended_quantity forecast = 25 ∧
   Z.max 10 ((20 * 100) ÷ 100) = 20 ∧
   Z.max 20 ((50 * 100) ÷ 100) = 50).
Proof. repeat split; by vm_compute. Qed.



(** Rounding is monotone. *)
Lemma round_half_even_mono (x y : Q) :
  (x <= y)%Q → round_half_even x ≤ round_half_even y.
Proof.
  intros Hxy. unfold round_half_even.
  pose proof (Qfloor_resp_le x y Hxy) as Hfloor.
  destruct (Z.eq_dec (Qfloor x) (Qfloor y)) as [Heq | Hne].
  - destruct (Qcompare_spec (x - inject_Z (Qfloor x)) (1 # 2)) as [Hx | Hx | Hx];
      destruct (Qcompare_spec (y - inject_Z (Qfloor y)) (1 # 2)) as [Hy | Hy | Hy];
      rewrite Heq in *; destruct (Z.even (Qfloor y)); try lia;
      exfalso; lra.
  - destruct ((x - inject_Z (Qfloor x) ?= 1 # 2)%Q);
      destruct ((y - inject_Z (Qfloor y) ?= 1 # 2)%Q);
      destruct (Z.even (Qfloor x)); destruct (Z.even (Qfloor y)); lia.
Qed.

Lemma round2_mono (x y : Q) : (x <= y)%Q → (round2 x <= round2 y)%Q.
Proof.
  intros Hxy. unfold round2, Qdiv.
  apply Qmult_le_compat_r; [| by vm_compute].
  rewrite <- Zle_Qle. apply round_half_even_mono. lra.
Qed.

Lemma confidence_of_count_bound (n : nat) : (confidence_of_count n <= 0.95)%Q.
Proof.
  destruct n as [|n]; [by vm_compute |]. unfold confidence_of_count.
  change 0.95%Q with (round2 0.95) at 2.
  apply round2_mono, Q.le_min_l.
Qed.

Lemma confidence_of_count_mono (n m : nat) :
  (n ≤ m)%nat → (confidence_of_count n <= confidence_of_count m)%Q.
Proof.
  intros Hnm. destruct m as [|m].
  - assert (n = O) as -> by lia. apply Qle_refl.
  - assert (Hm : (0 <= inject_Z (Z.of_nat (S m)) / 100)%Q).
    { apply Qle_shift_div_l; [by vm_compute |].
      rewrite Qmult_0_l. change 0%Q with (inject_Z 0). rewrite <- Zle_Qle. lia. }
    destruct n as [|n]; unfold confidence_of_count.
    + apply Qle_trans with (round2 0.3); [by vm_compute |].
      apply round2_mono, Q.min_glb; [by vm_compute | lra].
    + apply round2_mono, Q.min_le_compat_l.
      apply Qplus_le_r. unfold Qdiv.
      apply Qmult_le_compat_r; [| by vm_compute].
      rewrite <- Zle_Qle. lia.
Qed.

Lemma forecast_confidence (db : Store) (now medicine_id horizon_days : Z)
    (medicine : Medicine.t) :
  medicines db !! medicine_id = Some medicine →
  ForecastData.confidence_score
    (calculate_demand_forecast db now medicine_id horizon_days)
  = confidence_of_count (out_count db now medicine_id).
Proof.
  intros Hmed. unfold calculate_demand_forecast, out_count. rewrite Hmed.
  by destruct (List.filter _ (transactions db)).
Qed.

(** C6.  The confidence score grows with the number of OUT transactions in
    the lookback window and never exceeds 0.95: of two medicines, the one
    with at least as many such transactions has at least the confidence of
    the other, whatever their stock and the horizons asked for. *)
Theorem forecast_confidence_monotone (db : Store)
    (now medicine_id1 medicine_id2 horizon_days1 horizon_days2 : Z)
    (medicine1 medicine2 : Medicine.t) :
  medicines db !! medicine_id1 = Some medicine1 →
  medicines db !! medicine_id2 = Some medicine2 →
  (out_count db now medicine_id1 ≤ out_count db now medicine_id2)%nat →
  let forecast1 := calculate_demand_forecast db now medicine_id1 horizon_days1 in
  let forecast2 := calculate_demand_forecast db now medicine_id2 horizon_days2 in
  (ForecastData.confidence_score forecast1
   <= ForecastData.confidence_score forecast2)%Q ∧
  (ForecastData.confidence_score forecast1 <= 0.95)%Q ∧
  (ForecastData.confidence_score forecast2 <= 0.95)%Q.
Proof.
  intros Hmed1 Hmed2 Hcount forecast1 forecast2. subst forecast1 forecast2.
  rewrite (forecast_confidence _ _ _ _ _ Hmed1), (forecast_confidence _ _ _ _ _ Hmed2).
  split; [by apply confidence_of_count_mono |].
  split; apply confidence_of_count_bound.
Qed.

(** The newer medicine of [two_medicines_db] has no OUT transaction, the
    other has one: confidence 0.3 against 0.51. *)
Lemma forecast_confidence_monotone_witness :
  (ForecastData.confidence_score (calculate_demand_forecast two_medicines_db 2000 2 30)
   <= ForecastData.confidence_score (calculate_demand_forecast two_medicines_db 2000 1 30))%Q
  ∧ total_stock (batches two_medicines_db) 1 = total_stock (batches two_medicines_db) 2.
Proof.
  split; [| by vm_compute].
  refine (proj1 (forecast_confidence_monotone two_medicines_db 2000 2 1 30 30
                   _ _ eq_refl eq_refl _)).
  vm_compute. lia.
Defined.

(** ** Sums of doubles without a sign *)










(** ** Waste analytics *)

Lemma elem_of_waste_batches (db : Store) (flag : Batch.t → bool)
    (stamp : Batch.t → option Z) (start_date end_date : Z)
    (category : option string) (b : Batch.t) :
  b ∈ waste_batches db flag stamp start_date end_date category →
  ∃ id, batches db !! id = Some b.
Proof.
  unfold waste_batches. intros Hb.
  assert (Hin : b ∈ (map_to_list (batches db)).*2).
  { destruct (truthy_str category);
      repeat (apply list_elem_of_In, filter_In in Hb as [Hb _];
              apply list_elem_of_In in Hb); exact Hb. }
  apply list_elem_of_fmap in Hin as ([id b'] & -> & Hin).
  exists id. by apply elem_of_map_to_list.
Qed.

Lemma bucket_is_Some (table : gmap Z Medicine.t) (rows : list Batch.t) :
  (∀ b, b ∈ rows → is_Some (table !! Batch.medicine_id b)) →
  is_Some (bucket table rows).
Proof.
  intros Hrows. unfold bucket.
  assert (Hvalues : is_Some (mapM (batch_value table) rows)).
  { apply mapM_is_Some, Forall_forall. intros b Hb.
    destruct (Hrows b Hb) as [m Hm]. unfold batch_value. cbn.
    rewrite Hm. by eexists. }
  destruct Hvalues as [values ->]. by eexists.
Qed.






(** ** Transaction processor: errors and the other types *)

(** X1.  [create_transaction] is all-or-nothing on every request: either it
    raises and the database is as before, or it answers with the new row,
    which is the one row appended to the ledger, and no batch other than
    the named one, no medicine and no alert has changed. *)
Theorem create_transaction_all_or_nothing (autoflush : bool) (db : Store)
    (transaction : TransactionCreate.t) (now current_user : Z) :
  let result :=
    run_request (create_transaction autoflush transaction now current_user) db in
  let row := new_transaction transaction now current_user in
  (∃ e, result = (Raise e, db)) ∨
  (result.1 = Ok (Z.of_nat (length (transactions db)) + 1, row) ∧
   transactions result.2 = transactions db ++ [row] ∧
   medicines result.2 = medicines db ∧
   alerts result.2 = alerts db ∧
   ∀ id, truthy_id (TransactionCreate.batch_id transaction) ≠ Some id →
         batches result.2 !! id = batches db !! id).
Proof.
  intros result row. subst result row. unfold create_transaction.
  destruct db as [meds bats txs als].
  destruct (meds !! TransactionCreate.medicine_id transaction) as [m|] eqn:Hmed.
  2: { left. eexists. unfold_session.
       destruct autoflush; cbn; rewrite Hmed; reflexivity. }
  destruct (truthy_id (TransactionCreate.batch_id transaction)) as [id|] eqn:Hid.
  2: { right. unfold_session.
       destruct autoflush; cbn; rewrite Hmed; cbn;
         rewrite ?app_nil_r, ?length_app; cbn;
         (split; [do 2 f_equal; lia | done]). }
  destruct (bats !! id) as [b|] eqn:Hb.
  2: { left. eexists. unfold_session.
       destruct autoflush; cbn; rewrite Hmed; cbn; rewrite Hb; reflexivity. }
  destruct (TransactionCreate.transaction_type transaction) eqn:Hty.
  2: destruct (Batch.quantity b <? TransactionCreate.quantity transaction) eqn:Hlt.
  2: { left. eexists. unfold_session.
       destruct autoflush; cbn; rewrite Hmed; cbn; rewrite Hb; cbn;
         rewrite Hlt; reflexivity. }
  all: right; unfold_session;
    destruct autoflush; cbn; rewrite Hmed; cbn; rewrite Hb; cbn;
    rewrite ?Hlt; cbn; rewrite ?app_nil_r, ?length_app; cbn;
    (split; [do 2 f_equal; lia |]);
    (repeat split; try done);
    intros id' Hne; apply lookup_insert_ne; congruence.
Qed.

(** X2.  A request that names an unknown medicine, or a known medicine and
    an unknown batch, fails with 404 and leaves the database as it was. *)
Theorem create_transaction_not_found (autoflush : bool) (db : Store)
    (transaction : TransactionCreate.t) (now current_user : Z) :
  let result :=
    run_request (create_transaction autoflush transaction now current_user) db in
  (medicines db !! TransactionCreate.medicine_id transaction = None →
   result = (Raise (mkHTTPException 404 "Medicine not found"), db)) ∧
  (∀ id,
     is_Some (medicines db !! TransactionCreate.medicine_id transaction) →
     truthy_id (TransactionCreate.batch_id transaction) = Some id →
     batches db !! id = None →
     result = (Raise (mkHTTPException 404 "Batch not found"), db)).
Proof.
  intros result. subst result. unfold create_transaction.
  destruct db as [meds bats txs als]. cbn. split.
  - intros Hmed. unfold_session.
    destruct autoflush; cbn; rewrite Hmed; reflexivity.
  - intros id [m Hmed] Hid Hb. unfold_session. rewrite Hid.
    destruct autoflush; cbn; rewrite Hmed; cbn; rewrite Hb; reflexivity.
Qed.

(** Medicine 9 and batch 9 do not exist in the scenario ledger. *)
Lemma create_transaction_not_found_witness :
  run_request (create_transaction true
                 (TransactionCreate.mk 9 (Some 1) OUT 1 None None) 1000 7) amx500_db
  = (Raise (mkHTTPException 404 "Medicine not found"), amx500_db) ∧
  run_request (create_transaction true
                 (TransactionCreate.mk 1 (Some 9) OUT 1 None None) 1000 7) amx500_db
  = (Raise (mkHTTPException 404 "Batch not found"), amx500_db).
Proof.
  split.
  - apply (create_transaction_not_found true amx500_db
             (TransactionCreate.mk 9 (Some 1) OUT 1 None None) 1000 7).
    reflexivity.
  - apply (proj2 (create_transaction_not_found true amx500_db
                    (TransactionCreate.mk 1 (Some 9) OUT 1 None None) 1000 7) 9).
    + by eexists.
    + reflexivity.
    + reflexivity.
Defined.

(** X3.  An IN transaction on a named, existing batch succeeds whenever the
    integers that it writes, those of the new row and the new quantity of
    the batch, fit the INTEGER columns of the database: the batch quantity
    grows by the quantity of the request and one IN row is appended. *)
Theorem create_transaction_in (autoflush : bool) (db : Store)
    (transaction : TransactionCreate.t) (now current_user batch_id : Z)
    (medicine : Medicine.t) (batch : Batch.t) :
  TransactionCreate.transaction_type transaction = IN →
  truthy_id (TransactionCreate.batch_id transaction) = Some batch_id →
  medicines db !! TransactionCreate.medicine_id transaction = Some medicine →
  batches db !! batch_id = Some batch →
  let quantity := TransactionCreate.quantity transaction in
  let result :=
    run_request (create_transaction autoflush transaction now current_user) db in
  let row := new_transaction transaction now current_user in
  storable_row row →
  sqlite_integer (Batch.quantity batch + quantity) →
  result.1 = Ok (Z.of_nat (length (transactions db)) + 1, row) ∧
  InventoryTransaction.transaction_type row = IN ∧
  InventoryTransaction.quantity row = quantity ∧
  transactions result.2 = transactions db ++ [row] ∧
  batches result.2 =
    <[batch_id := Batch.set_quantity (Batch.quantity batch + quantity) now batch]>
      (batches db) ∧
  medicines result.2 = medicines db ∧
  alerts result.2 = alerts db.
Proof.
  intros Htype Hid Hmed Hbatch quantity result row _ _.
  subst result quantity row. unfold create_transaction.
  destruct db as [meds bats txs als]. cbn in Hmed, Hbatch.
  unfold_session. rewrite Hid, Htype.
  destruct autoflush; cbn; rewrite Hmed; cbn; rewrite Hbatch; cbn;
    rewrite ?app_nil_r, ?length_app; cbn;
    unfold new_transaction; rewrite ?Htype;
    (repeat split; try reflexivity; do 2 f_equal; lia).
Qed.

(** 20 units received on the scenario batch: 120 units. *)
Lemma create_transaction_in_witness :
  let transaction := TransactionCreate.mk 1 (Some 1) IN 20 None None in
  let result := run_request (create_transaction false transaction 1000 7) amx500_db in
  batches result.2
  = <[1 := Batch.set_quantity (100 + 20) 1000 amx500_batch]> (batches amx500_db).
Proof.
  refine (proj1 (proj2 (proj2 (proj2 (proj2
    (create_transaction_in false amx500_db
       (TransactionCreate.mk 1 (Some 1) IN 20 None None) 1000 7 1
       amx500 amx500_batch eq_refl eq_refl eq_refl eq_refl _ _)))))).
  - unfold storable_row, sqlite_integer. cbn. lia.
  - unfold sqlite_integer. cbn. lia.
Defined.

(** X4.  A request that names no batch, or whose type is neither IN nor OUT,
    only writes the ledger row: on an existing medicine (and existing batch,
    when one is named) it succeeds whatever its quantity, and every batch
    keeps its quantity and flags. *)
Theorem create_transaction_ledger_only (autoflush : bool) (db : Store)
    (transaction : TransactionCreate.t) (now current_user : Z)
    (medicine : Medicine.t) :
  medicines db !! TransactionCreate.medicine_id transaction = Some medicine →
  (∀ id, truthy_id (TransactionCreate.batch_id transaction) = Some id →
         is_Some (batches db !! id) ∧
         TransactionCreate.transaction_type transaction ≠ IN ∧
         TransactionCreate.transaction_type transaction ≠ OUT) →
  let result :=
    run_request (create_transaction autoflush transaction now current_user) db in
  let row := new_transaction transaction now current_user in
  result =
    (Ok (Z.of_nat (length (transactions db ++ [row])), row),
     mkStore (medicines db) (batches db) (transactions db ++ [row]) (alerts db)).
Proof.
  intros Hmed Hbatch result row. subst result row. unfold create_transaction.
  destruct db as [meds bats txs als]. cbn in Hmed, Hbatch.
  destruct (truthy_id (TransactionCreate.batch_id transaction)) as [id|] eqn:Hid.
  - destruct (Hbatch id eq_refl) as ([b Hb] & Hin & Hout).
    unfold_session.
    destruct (TransactionCreate.transaction_type transaction); try done;
      destruct autoflush; cbn; rewrite Hmed; cbn; rewrite Hb; cbn;
      rewrite ?app_nil_r; reflexivity.
  - unfold_session.
    destruct autoflush; cbn; rewrite Hmed; cbn; rewrite ?app_nil_r; reflexivity.
Qed.

(** An OUT of 500 units that names no batch is booked although the
    medicine holds 100 units, and an ADJUSTMENT on the batch leaves it at
    100 units. *)
Lemma create_transaction_ledger_only_witness :
  batches (run_request (create_transaction true
             (TransactionCreate.mk 1 None OUT 500 None None) 1000 7) amx500_db).2
  = batches amx500_db ∧
  batches (run_request (create_transaction true
             (TransactionCreate.mk 1 (Some 1) ADJUSTMENT (-40) None None) 1000 7)
             amx500_db).2
  = batches amx500_db.
Proof.
  split.
  - rewrite (create_transaction_ledger_only true amx500_db
               (TransactionCreate.mk 1 None OUT 500 None None) 1000 7 amx500 eq_refl);
      [reflexivity |].
    intros id [=].
  - rewrite (create_transaction_ledger_only true amx500_db
               (TransactionCreate.mk 1 (Some 1) ADJUSTMENT (-40) None None) 1000 7
               amx500 eq_refl); [reflexivity |].
    intros id [= <-]. split; [by eexists | split; discriminate].
Defined.

(** ** Disposal and acknowledgement: unknown rows *)

(** X5.  Marking an unknown batch expired or damaged fails with 404 "Batch
    not found" and leaves the database as it was, whatever the quantity. *)
Theorem mark_batch_not_found (autoflush : bool) (db : Store)
    (batch_id quantity now current_user : Z) :
  batches db !! batch_id = None →
  run_request (mark_batch_expired autoflush batch_id now current_user) db
    = (Raise (mkHTTPException 404 "Batch not found"), db) ∧
  run_request (mark_batch_damaged autoflush batch_id quantity now current_user) db
    = (Raise (mkHTTPException 404 "Batch not found"), db).
Proof.
  intros Hb. destruct db as [meds bats txs als]. cbn in Hb.
  unfold mark_batch_expired, mark_batch_damaged. unfold_session.
  split; destruct autoflush; cbn; rewrite Hb; reflexivity.
Qed.

Lemma mark_batch_not_found_witness :
  run_request (mark_batch_expired true 9 1000 7) amx500_db
    = (Raise (mkHTTPException 404 "Batch not found"), amx500_db).
Proof.
  exact (proj1 (mark_batch_not_found true amx500_db 9 0 1000 7 eq_refl)).
Defined.

(** X6.  Acknowledging an alert that does not exist (an id below 1 or
    beyond the last alert) fails with 404 "Alert not found" and leaves the
    database as it was. *)
Theorem acknowledge_alert_not_found (autoflush : bool) (db : Store)
    (alert_id now current_user : Z) :
  alert_id < 1 ∨ Z.of_nat (length (alerts db)) < alert_id →
  run_request (acknowledge_alert autoflush alert_id now current_user) db
    = (Raise (mkHTTPException 404 "Alert not found"), db).
Proof.
  intros Hid.
  assert (Hrow : row (alerts db) alert_id = None).
  { unfold row. destruct (Z.leb_spec 1 alert_id); [| done].
    apply lookup_ge_None. lia. }
  destruct db as [meds bats txs als]. cbn in Hrow.
  unfold acknowledge_alert. unfold_session.
  destruct autoflush; cbn; rewrite ?app_nil_r, Hrow; reflexivity.
Qed.

Lemma acknowledge_alert_not_found_witness :
  run_request (acknowledge_alert true 2 20 2) acknowledged_db
    = (Raise (mkHTTPException 404 "Alert not found"), acknowledged_db).
Proof.
  apply (acknowledge_alert_not_found true acknowledged_db 2 20 2).
  right. cbn. lia.
Defined.

(** ** Stock accounting *)

Lemma sum_Permutation (l l' : list Z) : l ≡ₚ l' → sum l = sum l'.
Proof.
  induction 1 as [| x l l' _ IH | x y l | l l' l'' _ IH1 _ IH2].
  - done.
  - by rewrite !sum_cons, IH.
  - rewrite !sum_cons. lia.
  - congruence.
Qed.

(** The stock figure is the sum of the shares of all batches. *)
Lemma total_stock_shares (table : gmap Z Batch.t) (medicine_id : Z) :
  total_stock table medicine_id
  = sum (stock_share medicine_id <$> (map_to_list table).*2).
Proof.
  unfold total_stock, batches_of.
  induction ((map_to_list table).*2) as [|b l IH]; [done |].
  rewrite fmap_cons, sum_cons, <- IH. cbn [List.filter]. unfold stock_share.
  destruct (Batch.medicine_id b =? medicine_id); cbn [andb]; [| done].
  cbn [List.filter]. destruct (Batch.is_expired b); cbn [negb]; [done |].
  by rewrite fmap_cons, sum_cons.
Qed.

(** Rewriting one batch moves the stock figure by the difference of its
    shares. *)
Lemma total_stock_insert (table : gmap Z Batch.t) (id : Z) (b b' : Batch.t)
    (medicine_id : Z) :
  table !! id = Some b →
  total_stock (<[id := b']> table) medicine_id
  = total_stock table medicine_id
    - stock_share medicine_id b + stock_share medicine_id b'.
Proof.
  intros Hb. rewrite !total_stock_shares.
  rewrite <- (insert_delete_eq table).
  rewrite (sum_Permutation _ (stock_share medicine_id <$>
             ((id, b') :: map_to_list (delete id table)).*2)).
  2: { by rewrite map_to_list_insert by apply lookup_delete_eq. }
  rewrite (sum_Permutation (stock_share medicine_id <$> (map_to_list table).*2)
             (stock_share medicine_id <$>
                ((id, b) :: map_to_list (delete id table)).*2)).
  2: { by rewrite map_to_list_delete. }
  rewrite !fmap_cons, !sum_cons. cbn [snd]. lia.
Qed.

(** What a request to [create_transaction] that moves a batch leaves in
    the database. *)
Lemma create_transaction_moves_run (autoflush : bool) (db : Store)
    (transaction : TransactionCreate.t) (now current_user batch_id : Z)
    (medicine : Medicine.t) (batch : Batch.t) (quantity' : Z) :
  truthy_id (TransactionCreate.batch_id transaction) = Some batch_id →
  medicines db !! TransactionCreate.medicine_id transaction = Some medicine →
  batches db !! batch_id = Some batch →
  (TransactionCreate.transaction_type transaction = OUT ∧
   TransactionCreate.quantity transaction ≤ Batch.quantity batch ∧
   quantity' = Batch.quantity batch - TransactionCreate.quantity transaction) ∨
  (TransactionCreate.transaction_type transaction = IN ∧
   quantity' = Batch.quantity batch + TransactionCreate.quantity transaction) →
  let row := new_transaction transaction now current_user in
  run_request (create_transaction autoflush transaction now current_user) db
  = (Ok (Z.of_nat (length (transactions db ++ [row])), row),
     mkStore (medicines db)
       (<[batch_id := Batch.set_quantity quantity' now batch]> (batches db))
       (transactions db ++ [row]) (alerts db)).
Proof.
  intros Hid Hmed Hbatch Hty row. subst row. unfold create_transaction.
  destruct db as [meds bats txs als]. cbn in Hmed, Hbatch.
  unfold_session. rewrite Hid.
  destruct Hty as [(Hty & Hq & ->) | (Hty & ->)]; rewrite Hty;
    destruct autoflush; cbn; rewrite Hmed; cbn; rewrite Hbatch; cbn;
    rewrite ?(proj2 (Z.ltb_ge _ _) Hq); cbn; rewrite ?app_nil_r; reflexivity.
Qed.

(** What a request to [mark_batch_expired] on an existing batch leaves in
    the database. *)
Lemma mark_batch_expired_run (autoflush : bool) (db : Store)
    (batch_id now current_user : Z) (batch : Batch.t) :
  batches db !! batch_id = Some batch →
  let batch' := Batch.set_quantity 0 now (Batch.set_is_expired true now batch) in
  run_request (mark_batch_expired autoflush batch_id now current_user) db
  = (Ok "Batch marked as expired",
     mkStore (medicines db) (<[batch_id := batch']> (batches db))
       (transactions db
        ++ [InventoryTransaction.mk (Batch.medicine_id batch) (Some batch_id)
              EXPIRED 0 None (Some "Marked as expired") (Some current_user) now])
       (alerts db)).
Proof.
  intros Hbatch batch'. subst batch'. unfold mark_batch_expired.
  destruct db as [meds bats txs als]. cbn in Hbatch.
  unfold_session.
  destruct autoflush; cbn; rewrite Hbatch; cbn; rewrite ?app_nil_r; reflexivity.
Qed.

(** What an accepted request to [mark_batch_damaged] leaves in the
    database. *)
Lemma mark_batch_damaged_run (autoflush : bool) (db : Store)
    (batch_id quantity now current_user : Z) (batch : Batch.t) :
  batches db !! batch_id = Some batch →
  quantity ≤ Batch.quantity batch →
  let batch' :=
    Batch.set_quantity (Batch.quantity batch - quantity) now
      (Batch.set_is_damaged true now batch) in
  run_request (mark_batch_damaged autoflush batch_id quantity now current_user) db
  = (Ok "Batch marked as damaged",
     mkStore (medicines db) (<[batch_id := batch']> (batches db))
       (transactions db
        ++ [InventoryTransaction.mk (Batch.medicine_id batch) (Some batch_id)
              DAMAGED quantity None (Some "Marked as damaged") (Some current_user) now])
       (alerts db)).
Proof.
  intros Hbatch Hq batch'. subst batch'. unfold mark_batch_damaged.
  destruct db as [meds bats txs als]. cbn in Hbatch.
  unfold_session.
  destruct autoflush; cbn; rewrite Hbatch; cbn;
    (destruct (Z.gtb_spec quantity (Batch.quantity batch)); [lia |]);
    cbn; rewrite ?app_nil_r; reflexivity.
Qed.

(** X7.  A successful OUT or IN on a batch that is not expired moves the
    stock figure of the medicine that owns the batch by exactly the
    quantity of the request, down for OUT and up for IN, and the stock
    figure of every other medicine stays; the owner need not be the
    medicine that the request names. *)
Theorem create_transaction_stock (autoflush : bool) (db : Store)
    (transaction : TransactionCreate.t) (now current_user batch_id : Z)
    (medicine : Medicine.t) (batch : Batch.t) :
  truthy_id (TransactionCreate.batch_id transaction) = Some batch_id →
  medicines db !! TransactionCreate.medicine_id transaction = Some medicine →
  batches db !! batch_id = Some batch →
  Batch.is_expired batch = false →
  (TransactionCreate.transaction_type transaction = OUT ∧
   TransactionCreate.quantity transaction ≤ Batch.quantity batch) ∨
  TransactionCreate.transaction_type transaction = IN →
  let delta :=
    match TransactionCreate.transaction_type transaction with
    | OUT => - TransactionCreate.quantity transaction
    | _ => TransactionCreate.quantity transaction
    end in
  let result :=
    run_request (create_transaction autoflush transaction now current_user) db in
  ∀ medicine_id,
    total_stock (batches result.2) medicine_id
    = total_stock (batches db) medicine_id
      + (if Batch.medicine_id batch =? medicine_id then delta else 0).
Proof.
  intros Hid Hmed Hbatch Hexp Hty delta result medicine_id.
  set (quantity' := Batch.quantity batch + delta).
  assert (Hrun : batches result.2
                 = <[batch_id := Batch.set_quantity quantity' now batch]> (batches db)).
  { subst result.
    rewrite (create_transaction_moves_run autoflush db transaction now current_user
               batch_id medicine batch quantity' Hid Hmed Hbatch); [done |].
    subst quantity' delta.
    destruct Hty as [[Hty Hq] | Hty]; rewrite Hty; [left | right];
      repeat split; try done; lia. }
  rewrite Hrun, (total_stock_insert _ _ _ _ _ Hbatch).
  unfold stock_share. cbn. rewrite Hexp.
  destruct (Batch.medicine_id batch =? medicine_id); cbn; lia.
Qed.

(** The request names medicine 1 and the batch of medicine 2: the 30 units
    leave the stock of medicine 2. *)
Lemma create_transaction_stock_witness :
  let transaction := TransactionCreate.mk 1 (Some 1) OUT 30 None None in
  let result := run_request (create_transaction true transaction 1000 7) foreign_batch_db in
  total_stock (batches result.2) 2 = total_stock (batches foreign_batch_db) 2 + - 30 ∧
  total_stock (batches result.2) 1 = total_stock (batches foreign_batch_db) 1 + 0.
Proof.
  pose proof (create_transaction_stock true foreign_batch_db
                (TransactionCreate.mk 1 (Some 1) OUT 30 None None) 1000 7 1
                amx500 (Batch.mk 2 "P-001" 100 (200 * day) false false false false None)
                eq_refl eq_refl eq_refl eq_refl) as Hstock.
  split; [apply (Hstock ltac:(left; split; [reflexivity | cbn; lia]) 2)
         | apply (Hstock ltac:(left; split; [reflexivity | cbn; lia]) 1)].
Defined.

(** X8.  Marking a batch expired takes its whole share out of the stock
    figure of its medicine and touches no other medicine: afterwards the
    batch counts for nothing, and on a batch that was already expired the
    stock figures do not move. *)
Theorem mark_batch_expired_stock (autoflush : bool) (db : Store)
    (batch_id now current_user : Z) (batch : Batch.t) :
  batches db !! batch_id = Some batch →
  let result :=
    run_request (mark_batch_expired autoflush batch_id now current_user) db in
  ∀ medicine_id,
    total_stock (batches result.2) medicine_id
    = total_stock (batches db) medicine_id - stock_share medicine_id batch.
Proof.
  intros Hbatch result medicine_id. subst result.
  rewrite (mark_batch_expired_run autoflush db batch_id now current_user batch Hbatch).
  cbn [snd batches]. rewrite (total_stock_insert _ _ _ _ _ Hbatch).
  unfold stock_share at 2. cbn. rewrite andb_false_r. lia.
Qed.

(** The 100 units of the scenario batch leave the stock of medicine 1. *)
Lemma mark_batch_expired_stock_witness :
  total_stock (batches (run_request (mark_batch_expired true 1 1000 7) amx500_db).2) 1
  = total_stock (batches amx500_db) 1 - 100.
Proof.
  exact (mark_batch_expired_stock true amx500_db 1 1000 7 amx500_batch eq_refl 1).
Defined.

(** X9.  An accepted DAMAGED request on a batch that is not expired lowers
    the stock figure of its medicine by the damaged quantity only: what is
    left of a damaged batch still counts as stock. *)
Theorem mark_batch_damaged_stock (autoflush : bool) (db : Store)
    (batch_id quantity now current_user : Z) (batch : Batch.t) :
  batches db !! batch_id = Some batch →
  quantity ≤ Batch.quantity batch →
  Batch.is_expired batch = false →
  let result :=
    run_request (mark_batch_damaged autoflush batch_id quantity now current_user) db in
  ∀ medicine_id,
    total_stock (batches result.2) medicine_id
    = total_stock (batches db) medicine_id
      - (if Batch.medicine_id batch =? medicine_id then quantity else 0).
Proof.
  intros Hbatch Hq Hexp result medicine_id. subst result.
  rewrite (mark_batch_damaged_run autoflush db batch_id quantity now current_user
             batch Hbatch Hq).
  cbn [snd batches]. rewrite (total_stock_insert _ _ _ _ _ Hbatch).
  unfold stock_share. cbn. rewrite Hexp.
  destruct (Batch.medicine_id batch =? medicine_id); cbn; lia.
Qed.

(** 40 of the 100 units are damaged: the stock of medicine 1 is 60. *)
Lemma mark_batch_damaged_stock_witness :
  total_stock (batches (run_request (mark_batch_damaged true 1 40 1000 7) amx500_db).2) 1
  = total_stock (batches amx500_db) 1 - 40.
Proof.
  exact (mark_batch_damaged_stock true amx500_db 1 40 1000 7 amx500_batch
           eq_refl ltac:(cbn; lia) eq_refl 1).
Defined.

(** ** The ledger as demand history *)

(** An accepted request appended its row and left the medicines alone. *)
Lemma create_transaction_ok (autoflush : bool) (db : Store)
    (transaction : TransactionCreate.t) (now current_user : Z)
    (response : Z * InventoryTransaction.t) :
  let result :=
    run_request (create_transaction autoflush transaction now current_user) db in
  result.1 = Ok response →
  is_Some (medicines db !! TransactionCreate.medicine_id transaction) ∧
  transactions result.2
    = transactions db ++ [new_transaction transaction now current_user] ∧
  medicines result.2 = medicines db.
Proof.
  intros result. subst result. unfold create_transaction.
  destruct db as [meds bats txs als]. cbn [medicines transactions].
  destruct (meds !! TransactionCreate.medicine_id transaction) as [m|] eqn:Hmed.
  2: { unfold_session. destruct autoflush; cbn; rewrite Hmed; discriminate. }
  intros Hok. split; [by eexists |]. revert Hok.
  destruct (truthy_id (TransactionCreate.batch_id transaction)) as [id|] eqn:Hid.
  2: { unfold_session.
       destruct autoflush; cbn; rewrite Hmed; cbn; rewrite ?app_nil_r; done. }
  destruct (bats !! id) as [b|] eqn:Hb.
  2: { unfold_session.
       destruct autoflush; cbn; rewrite Hmed; cbn; rewrite Hb; discriminate. }
  unfold_session.
  destruct (TransactionCreate.transaction_type transaction);
    destruct (Batch.quantity b <? TransactionCreate.quantity transaction) eqn:Hlt;
    destruct autoflush; cbn; rewrite Hmed; cbn; rewrite Hb; cbn;
    rewrite ?Hlt; cbn; rewrite ?app_nil_r; done.
Qed.

(** X10.  Every accepted OUT transaction enters the demand history of the
    medicine it names: for 90 days it counts as one more recent OUT
    transaction of that medicine, and of no other, so the confidence of the
    forecast of that medicine does not go down. *)
Theorem create_transaction_out_history (autoflush : bool) (db : Store)
    (transaction : TransactionCreate.t) (now current_user : Z)
    (response : Z * InventoryTransaction.t) (later horizon_days : Z) :
  TransactionCreate.transaction_type transaction = OUT →
  (run_request (create_transaction autoflush transaction now current_user) db).1
    = Ok response →
  later - 90 * day ≤ now →
  let db' :=
    (run_request (create_transaction autoflush transaction now current_user) db).2 in
  let named := TransactionCreate.medicine_id transaction in
  (∀ medicine_id,
     out_count db' later medicine_id
     = (out_count db later medicine_id
        + if (named =? medicine_id)%Z then 1 else 0)%nat) ∧
  (ForecastData.confidence_score (calculate_demand_forecast db later named horizon_days)
   <= ForecastData.confidence_score
        (calculate_demand_forecast db' later named horizon_days))%Q.
Proof.
  intros Hty Hok Hlater db' named.
  destruct (create_transaction_ok autoflush db transaction now current_user
              response Hok) as ([m Hmed] & Htx & Hmeds).
  fold db' in Htx, Hmeds.
  assert (Hcount : ∀ medicine_id,
    out_count db' later medicine_id
    = (out_count db later medicine_id
       + if (named =? medicine_id)%Z then 1 else 0)%nat).
  { intros medicine_id. unfold out_count. rewrite Htx, List.filter_app, length_app.
    f_equal. cbn [List.filter]. unfold recent_out, new_transaction. cbn.
    rewrite Hty. fold named.
    destruct (named =? medicine_id); [| done].
    rewrite bool_decide_eq_true_2 by done. cbn.
    by rewrite (proj2 (Z.geb_le _ _) Hlater). }
  split; [exact Hcount |].
  rewrite (forecast_confidence db later named horizon_days m Hmed).
  rewrite (forecast_confidence db' later named horizon_days m)
    by (by rewrite Hmeds).
  apply confidence_of_count_mono. rewrite Hcount. lia.
Qed.

(** The OUT of 30 units at time 1000 is the first recent OUT transaction of
    medicine 1 at time 2000. *)
Lemma create_transaction_out_history_witness :
  let transaction := TransactionCreate.mk 1 (Some 1) OUT 30 None None in
  let db' := (run_request (create_transaction true transaction 1000 7) amx500_db).2 in
  out_count db' 2000 1 = (out_count amx500_db 2000 1 + 1)%nat.
Proof.
  exact (proj1 (create_transaction_out_history true amx500_db
                  (TransactionCreate.mk 1 (Some 1) OUT 30 None None) 1000 7
                  (1, new_transaction (TransactionCreate.mk 1 (Some 1) OUT 30 None None) 1000 7)
                  2000 30 eq_refl ltac:(by vm_compute) ltac:(by vm_compute)) 1).
Defined.

(** ** Expiry sweep *)

Lemma check_expiry_alerts_unfold (autoflush : bool) (now : Z) :
  check_expiry_alerts autoflush now
  = (for_each EXPIRY_ALERT_DAYS () (check_expiry_window autoflush now);; commit).
Proof. reflexivity. Qed.

Lemma query_alerts_run (autoflush : bool) (sess : Session) :
  query_alerts autoflush sess
  = (Ok (alerts (flushed (if autoflush then flush_session sess else sess))),
     if autoflush then flush_session sess else sess).
Proof. by destruct autoflush. Qed.

Lemma query_medicine_run (autoflush : bool) (id : Z) (sess : Session) :
  query_medicine autoflush id sess
  = (Ok (medicines (flushed sess) !! id),
     if autoflush then flush_session sess else sess).
Proof. by destruct autoflush. Qed.

Lemma sweep_inv_start (autoflush : bool) (db : Store) :
  sweep_inv autoflush db [] (mkSession db db [] []).
Proof.
  unfold sweep_inv, snapshot. cbn. by rewrite !app_nil_r.
Qed.

Lemma sweep_inv_flush (autoflush : bool) (db : Store) (created : list Alert.t)
    (sess : Session) :
  sweep_inv autoflush db created sess →
  sweep_inv autoflush db created (if autoflush then flush_session sess else sess).
Proof.
  destruct autoflush; [| done]. unfold sweep_inv, snapshot. cbn.
  intros (? & ? & ? & ? & ? & _). rewrite !app_nil_r. by repeat split.
Qed.

Lemma sweep_inv_visible (autoflush : bool) (db : Store) (created : list Alert.t)
    (sess : Session) :
  sweep_inv autoflush db created sess →
  alerts (flushed (if autoflush then flush_session sess else sess))
  = visible_alerts autoflush (alerts db) created.
Proof.
  intros (_ & _ & _ & _ & Hall & Hflushed). destruct autoflush; cbn.
  - exact Hall.
  - by apply Hflushed.
Qed.

Lemma sweep_inv_add (autoflush : bool) (db : Store) (created : list Alert.t)
    (sess : Session) (a : Alert.t) :
  sweep_inv autoflush db created sess →
  ∃ sess', add_alert a sess = (Ok (), sess') ∧
           sweep_inv autoflush db (created ++ [a]) sess'.
Proof.
  intros (? & ? & ? & ? & Hall & ?). eexists. split; [reflexivity |].
  unfold sweep_inv, snapshot in *. cbn in *.
  repeat split; try done. by rewrite app_assoc, Hall, <- app_assoc.
Qed.

(** What a request that ran a sweep to its end commits. *)
Lemma sweep_inv_commit (autoflush : bool) (db : Store) (created : list Alert.t)
    (sess : Session) :
  sweep_inv autoflush db created sess →
  committed (commit sess).2
  = mkStore (medicines db) (batches db) (transactions db) (alerts db ++ created).
Proof.
  intros (_ & Hm & Hb & Ht & Ha & _). unfold commit, snapshot in *. cbn in *.
  by rewrite Hm, Hb, Ht, Ha.
Qed.

(** A loop whose iterations follow a step function on the filed alerts
    follows the fold of that function; a request that raises has committed
    nothing. *)
Section Simulation.

Context {A : Type}.
Variables (autoflush : bool) (db : Store) (error : HTTPException).
Variable body : unit → A → M unit.
Variable step : list Alert.t → A → option (list Alert.t).

Hypothesis body_step :
  ∀ created sess x,
    sweep_inv autoflush db created sess →
    simulates autoflush db error (body () x sess) (step created x).

Lemma for_each_simulates (l : list A) :
  ∀ created sess,
    sweep_inv autoflush db created sess →
    simulates autoflush db error (for_each l () body sess)
      (fold_step step l created).
Proof.
  induction l as [|x l IH]; intros created sess Hinv; cbn.
  - by exists sess.
  - pose proof (body_step created sess x Hinv) as Hbody.
    destruct (step created x) as [created'|]; cbn.
    + destruct Hbody as (sess' & Hrun & Hinv').
      rewrite (bind_run _ _ _ _ _ Hrun). by apply IH.
    + destruct Hbody as (sess' & Hrun & Hcommitted).
      exists sess'. unfold mbind, M_bind. by rewrite Hrun.
Qed.

End Simulation.

Lemma check_expiry_batch_simulates (autoflush : bool) (now : Z) (db : Store)
    (created : list Alert.t) (sess : Session) (batch : Z * Batch.t) :
  sweep_inv autoflush db created sess →
  simulates autoflush db (mkHTTPException 500 "Internal Server Error")
    (check_expiry_batch autoflush now () batch sess)
    (expiry_batch_step autoflush now db created batch).
Proof.
  intros Hinv. unfold check_expiry_batch, expiry_batch_step.
  rewrite (bind_run _ _ _ _ _ (query_alerts_run autoflush sess)).
  rewrite (sweep_inv_visible _ _ _ _ Hinv).
  set (sess1 := if autoflush then flush_session sess else sess).
  pose proof (sweep_inv_flush _ _ _ _ Hinv) as Hinv1. fold sess1 in Hinv1.
  destruct (List.find _ (visible_alerts autoflush (alerts db) created)).
  { by exists sess1. }
  unfold days_until_expiry.
  destruct (date (Batch.expiry_date batch.2) - date now >=? 0); [| by exists sess1].
  rewrite (bind_run _ _ _ _ _ (query_medicine_run autoflush _ sess1)).
  set (sess2 := if autoflush then flush_session sess1 else sess1).
  pose proof (sweep_inv_flush _ _ _ _ Hinv1) as Hinv2. fold sess2 in Hinv2.
  replace (medicines (flushed sess1)) with (medicines db) by (symmetry; apply Hinv1).
  destruct (medicines db !! Batch.medicine_id batch.2) as [medicine|].
  - by apply sweep_inv_add.
  - exists sess2. split; [done | apply Hinv2].
Qed.

Lemma check_expiry_window_simulates (autoflush : bool) (now : Z) (db : Store)
    (created : list Alert.t) (sess : Session) (days : Z) :
  sweep_inv autoflush db created sess →
  simulates autoflush db (mkHTTPException 500 "Internal Server Error")
    (check_expiry_window autoflush now () days sess)
    (fold_step (expiry_batch_step autoflush now db)
       (expiry_window now (batches db) days) created).
Proof.
  intros Hinv. unfold check_expiry_window.
  rewrite (bind_run _ _ _ _ _ (query_batches_run autoflush sess)).
  replace (batches (flushed sess)) with (batches db) by (symmetry; apply Hinv).
  apply for_each_simulates; [| by apply sweep_inv_flush].
  intros. by apply check_expiry_batch_simulates.
Qed.

(** What a request to [check_expiry_alerts] leaves in the database. *)
Lemma check_expiry_alerts_run (autoflush : bool) (now : Z) (db : Store) :
  run_request (check_expiry_alerts autoflush now) db
  = match expiry_sweep autoflush now db with
    | Some created =>
      (Ok (), mkStore (medicines db) (batches db) (transactions db)
                (alerts db ++ created))
    | None => (Raise (mkHTTPException 500 "Internal Server Error"), db)
    end.
Proof.
  rewrite check_expiry_alerts_unfold. unfold run_request, expiry_sweep.
  pose proof (for_each_simulates autoflush db
                (mkHTTPException 500 "Internal Server Error")
                (check_expiry_window autoflush now)
                (λ created days,
                   fold_step (expiry_batch_step autoflush now db)
                     (expiry_window now (batches db) days) created)
                (λ created sess days Hinv,
                   check_expiry_window_simulates autoflush now db created sess days Hinv)
                EXPIRY_ALERT_DAYS [] (mkSession db db [] [])
                (sweep_inv_start autoflush db)) as Hsim.
  destruct (fold_step _ EXPIRY_ALERT_DAYS []) as [created|].
  - destruct Hsim as (sess' & Hrun & Hinv).
    rewrite (bind_run _ _ _ _ _ Hrun).
    pose proof (sweep_inv_commit _ _ _ _ Hinv) as Hcommit.
    unfold commit in *. cbn in *. by rewrite Hcommit.
  - destruct Hsim as (sess' & Hrun & Hcommitted).
    unfold mbind, M_bind. rewrite Hrun. by rewrite Hcommitted.
Qed.

(** ** Properties of the expiry sweep *)

Lemma fold_step_invariant {A} (step : list Alert.t → A → option (list Alert.t))
    (I : list Alert.t → Prop) (l : list A) :
  (∀ created x created',
     x ∈ l → I created → step created x = Some created' → I created') →
  ∀ created final,
    I created → fold_step step l created = Some final → I final.
Proof.
  induction l as [|x l IH]; intros Hstep created final HI Hfold; cbn in Hfold.
  - by simplify_eq.
  - destruct (step created x) as [created'|] eqn:Hx; [| done]. cbn in Hfold.
    eapply IH; [| | exact Hfold].
    + intros c y c' Hy. apply Hstep. by right.
    + eapply Hstep; [by left | exact HI | exact Hx].
Qed.

Lemma fold_step_covers {A} (step : list Alert.t → A → option (list Alert.t))
    (Q : A → list Alert.t → Prop) (l : list A) :
  (∀ created x created',
     x ∈ l → step created x = Some created' →
     (∃ extra, created' = created ++ extra) ∧ Q x created') →
  (∀ x created extra, Q x created → Q x (created ++ extra)) →
  ∀ created final,
    fold_step step l created = Some final →
    (∃ extra, final = created ++ extra) ∧ ∀ x, x ∈ l → Q x final.
Proof.
  intros Hstep Hmono.
  induction l as [|x l IH]; intros created final Hfold; cbn in Hfold.
  - simplify_eq. split; [exists []; by rewrite app_nil_r |].
    intros x Hx. by apply elem_of_nil in Hx.
  - destruct (step created x) as [created'|] eqn:Hx; [| done]. cbn in Hfold.
    destruct (Hstep created x created') as [[extra ->] HQ]; [by left | done |].
    destruct (IH (λ c y c' Hy, Hstep c y c' (list_elem_of_further _ _ _ Hy))
                _ _ Hfold) as [[extra' ->] Hall].
    split; [exists (extra ++ extra'); by rewrite app_assoc |].
    intros y [-> | Hy]%elem_of_cons; [by apply Hmono | by apply Hall].
Qed.

Lemma fold_step_total {A} (step : list Alert.t → A → option (list Alert.t))
    (l : list A) :
  (∀ created x, x ∈ l → is_Some (step created x)) →
  ∀ created, is_Some (fold_step step l created).
Proof.
  induction l as [|x l IH]; intros Hstep created; cbn; [by eexists |].
  destruct (Hstep created x) as [created' ->]; [by left |]. cbn.
  apply IH. intros c y Hy. apply Hstep. by right.
Qed.

Lemma fold_step_skip {A} (step : list Alert.t → A → option (list Alert.t))
    (l : list A) (created : list Alert.t) :
  (∀ x, x ∈ l → step created x = Some created) →
  fold_step step l created = Some created.
Proof.
  induction l as [|x l IH]; intros Hstep; cbn; [done |].
  rewrite Hstep by left. cbn. apply IH. intros y Hy. apply Hstep. by right.
Qed.

Lemma date_midnight (d : Z) : date (midnight d) = d.
Proof. unfold date, midnight, day. by rewrite Z.div_mul. Qed.

Lemma date_mono (d1 d2 : Z) : d1 ≤ d2 → date d1 ≤ date d2.
Proof. intros. unfold date, day. by apply Z.div_le_mono. Qed.

Lemma elem_of_expiry_window (now : Z) (table : gmap Z Batch.t) (days : Z)
    (x : Z * Batch.t) :
  x ∈ expiry_window now table days ↔
  table !! x.1 = Some x.2 ∧
  Batch.expiry_date x.2 ≤ midnight (date now + days) ∧
  Batch.is_expired x.2 = false ∧ 0 < Batch.quantity x.2.
Proof.
  unfold expiry_window. rewrite list_elem_of_In, filter_In, <- list_elem_of_In.
  destruct x as [id b]. rewrite elem_of_map_to_list. cbn.
  rewrite !andb_true_iff, negb_true_iff, Z.leb_le, Z.gtb_gt. intuition lia.
Qed.

Lemma NoDup_expiry_window (now : Z) (table : gmap Z Batch.t) (days : Z) :
  NoDup (expiry_window now table days).*1.
Proof. apply NoDup_fmap_fst_filter. Qed.

(** The two outcomes of a visit that does not raise. *)
Lemma expiry_batch_step_Some (autoflush : bool) (now : Z) (db : Store)
    (created created' : list Alert.t) (x : Z * Batch.t) :
  expiry_batch_step autoflush now db created x = Some created' →
  (created' = created ∧
   (is_Some (List.find (open_batch_alert EXPIRY_WARNING x.1)
               (visible_alerts autoflush (alerts db) created))
    ∨ days_until_expiry now x.2 < 0)) ∨
  (∃ medicine,
     List.find (open_batch_alert EXPIRY_WARNING x.1)
       (visible_alerts autoflush (alerts db) created) = None ∧
     0 ≤ days_until_expiry now x.2 ∧
     medicines db !! Batch.medicine_id x.2 = Some medicine ∧
     created' = created ++ [expiry_alert x.1 x.2 medicine
                              (days_until_expiry now x.2) now]).
Proof.
  unfold expiry_batch_step. intros Hstep.
  destruct (List.find _ _) as [a|] eqn:Hfind.
  { left. simplify_eq. split; [done | left; by eexists]. }
  destruct (Z.geb_spec (days_until_expiry now x.2) 0) as [Hge | Hlt].
  - destruct (medicines db !! _) as [medicine|]; [| done].
    right. exists medicine. simplify_eq. repeat split; try done; lia.
  - left. simplify_eq. split; [done | right; lia].
Qed.

Lemma find_visible_none (autoflush : bool) (f : Alert.t → bool)
    (alerts0 created : list Alert.t) :
  List.find f (visible_alerts autoflush alerts0 created) = None →
  List.find f alerts0 = None.
Proof.
  intros Hfind. destruct (List.find f alerts0) as [a|] eqn:Hfind0; [| done].
  apply find_some in Hfind0 as [Hin Hf].
  rewrite (find_none _ _ Hfind a) in Hf; [done |].
  destruct autoflush; cbn; [apply in_or_app; by left | done].
Qed.

Lemma open_expiry_alert (id : Z) (b : Batch.t) (medicine : Medicine.t)
    (days now : Z) :
  open_batch_alert EXPIRY_WARNING id (expiry_alert id b medicine days now) = true.
Proof.
  unfold open_batch_alert, expiry_alert. cbn.
  by rewrite !bool_decide_eq_true_2.
Qed.

(** After a sweep that did not raise, every batch of a lookahead window
    that has not yet passed its expiry day has an open warning. *)
Lemma expiry_sweep_covers (autoflush : bool) (now : Z) (db : Store)
    (created : list Alert.t) :
  expiry_sweep autoflush now db = Some created →
  ∀ days x,
    days ∈ EXPIRY_ALERT_DAYS → x ∈ expiry_window now (batches db) days →
    0 ≤ days_until_expiry now x.2 →
    ∃ a, a ∈ alerts db ++ created ∧
         open_batch_alert EXPIRY_WARNING x.1 a = true.
Proof.
  intros Hsweep days x Hdays Hx.
  set (Q := λ (x : Z * Batch.t) (created : list Alert.t),
         0 ≤ days_until_expiry now x.2 →
         ∃ a, a ∈ alerts db ++ created ∧
              open_batch_alert EXPIRY_WARNING x.1 a = true).
  assert (Hmono : ∀ x created extra, Q x created → Q x (created ++ extra)).
  { intros y c extra HQ Hge. destruct (HQ Hge) as (a & Ha & Hopen).
    exists a. split; [| done]. rewrite app_assoc. apply elem_of_app. by left. }
  assert (Hinner : ∀ l created created',
            fold_step (expiry_batch_step autoflush now db) l created = Some created' →
            (∃ extra, created' = created ++ extra) ∧ ∀ y, y ∈ l → Q y created').
  { intros l. apply fold_step_covers; [| exact Hmono].
    intros c y c' _ Hstep.
    destruct (expiry_batch_step_Some _ _ _ _ _ _ Hstep)
      as [[-> Hskip] | (medicine & _ & _ & _ & ->)].
    - split; [exists []; by rewrite app_nil_r |]. intros Hge.
      destruct Hskip as [[a Hfind] | Hlt]; [| lia].
      apply find_some in Hfind as [Hin Hopen]. exists a. split; [| done].
      apply list_elem_of_In. destruct autoflush; cbn in Hin; [done |].
      apply in_or_app. by left.
    - split; [by eexists |]. intros _. eexists. split; [| apply open_expiry_alert].
      rewrite app_assoc. apply elem_of_app. right. by apply list_elem_of_singleton. }
  unfold expiry_sweep in Hsweep.
  apply (fold_step_covers _
           (λ days created, ∀ y, y ∈ expiry_window now (batches db) days → Q y created))
    in Hsweep as [_ Hall].
  - exact (Hall days Hdays x Hx).
  - intros c d c' _ Hstep. by apply Hinner in Hstep.
  - intros d c extra HQ y Hy. by apply Hmono, HQ.
Qed.

(** The sweep raises only for a batch without a medicine row. *)
Lemma expiry_sweep_total (autoflush : bool) (now : Z) (db : Store) :
  batches_have_medicine db → is_Some (expiry_sweep autoflush now db).
Proof.
  intros Hfk. apply fold_step_total. intros created days _.
  apply fold_step_total. intros c x [Hx _]%elem_of_expiry_window.
  unfold expiry_batch_step. destruct (List.find _ _); [by eexists |].
  destruct (_ >=? 0); [| by eexists].
  destruct (Hfk _ _ Hx) as [medicine ->]. by eexists.
Qed.

(** Every alert of a sweep is a warning for a batch in stock that expires
    today or within 90 days and had no open warning. *)
Lemma expiry_sweep_sound (autoflush : bool) (now : Z) (db : Store)
    (created : list Alert.t) :
  expiry_sweep autoflush now db = Some created →
  ∀ a, a ∈ created →
    ∃ id b medicine,
      batches db !! id = Some b ∧
      medicines db !! Batch.medicine_id b = Some medicine ∧
      a = expiry_alert id b medicine (days_until_expiry now b) now ∧
      Batch.is_expired b = false ∧ 0 < Batch.quantity b ∧
      0 ≤ days_until_expiry now b ≤ 90 ∧
      List.find (open_batch_alert EXPIRY_WARNING id) (alerts db) = None.
Proof.
  set (P := λ a : Alert.t, ∃ id b medicine,
         batches db !! id = Some b ∧
         medicines db !! Batch.medicine_id b = Some medicine ∧
         a = expiry_alert id b medicine (days_until_expiry now b) now ∧
         Batch.is_expired b = false ∧ 0 < Batch.quantity b ∧
         0 ≤ days_until_expiry now b ≤ 90 ∧
         List.find (open_batch_alert EXPIRY_WARNING id) (alerts db) = None).
  assert (Hinner : ∀ days, days ∈ EXPIRY_ALERT_DAYS →
            ∀ c x c', x ∈ expiry_window now (batches db) days →
              (∀ a, a ∈ c → P a) →
              expiry_batch_step autoflush now db c x = Some c' →
              ∀ a, a ∈ c' → P a).
  { intros days Hdays c x c' Hx Hc Hstep.
    destruct (expiry_batch_step_Some _ _ _ _ _ _ Hstep)
      as [[-> _] | (medicine & Hfind & Hge & Hmedicine & ->)]; [done |].
    intros a [Ha | ->%list_elem_of_singleton]%elem_of_app; [by apply Hc |].
    apply elem_of_expiry_window in Hx as (Hbatch & Hexpiry & Hflag & Hquantity).
    exists x.1, x.2, medicine. repeat split; try done.
    - apply date_mono in Hexpiry. rewrite date_midnight in Hexpiry.
      unfold days_until_expiry.
      assert (days ≤ 90); [| lia].
      unfold EXPIRY_ALERT_DAYS in Hdays.
      repeat (apply elem_of_cons in Hdays as [-> | Hdays]; [lia |]).
      by apply elem_of_nil in Hdays.
    - by eapply find_visible_none. }
  intros Hsweep. unfold expiry_sweep in Hsweep.
  refine (fold_step_invariant _ (λ created, ∀ a, a ∈ created → P a) _ _ _ _ _ Hsweep).
  - intros c days c' Hdays Hc Hfold.
    exact (fold_step_invariant _ (λ created, ∀ a, a ∈ created → P a) _
             (Hinner days Hdays) _ _ Hc Hfold).
  - by intros a Ha%elem_of_nil.
Qed.

(** X11.  [check_expiry_alerts] either raises the internal server error and
    leaves the database as it was, or appends alerts and changes nothing
    else; every alert it appends is the EXPIRY_WARNING of a batch that is
    not flagged expired, holds stock, expires today or within the next 90
    days and had no open EXPIRY_WARNING before the sweep. *)
Theorem check_expiry_alerts_sound (autoflush : bool) (now : Z) (db : Store) :
  run_request (check_expiry_alerts autoflush now) db
  = (Raise (mkHTTPException 500 "Internal Server Error"), db)
  ∨ ∃ created,
      run_request (check_expiry_alerts autoflush now) db
      = (Ok (), mkStore (medicines db) (batches db) (transactions db)
                  (alerts db ++ created)) ∧
      ∀ a, a ∈ created →
        ∃ id b medicine,
          batches db !! id = Some b ∧
          medicines db !! Batch.medicine_id b = Some medicine ∧
          a = expiry_alert id b medicine (days_until_expiry now b) now ∧
          Batch.is_expired b = false ∧ 0 < Batch.quantity b ∧
          0 ≤ days_until_expiry now b ≤ 90 ∧
          List.find (open_batch_alert EXPIRY_WARNING id) (alerts db) = None.
Proof.
  rewrite check_expiry_alerts_run.
  destruct (expiry_sweep autoflush now db) as [created|] eqn:Hsweep; [| by left].
  right. exists created. split; [done |]. exact (expiry_sweep_sound _ _ _ _ Hsweep).
Qed.

(** X12.  A sweep that ran to its end is idempotent within the day: a
    second [check_expiry_alerts] on the database it left, at any time of
    the same calendar day, succeeds and changes nothing. *)
Theorem check_expiry_alerts_idempotent (autoflush : bool) (now now' : Z)
    (db db' : Store) :
  date now' = date now →
  run_request (check_expiry_alerts autoflush now) db = (Ok (), db') →
  run_request (check_expiry_alerts autoflush now') db' = (Ok (), db').
Proof.
  intros Hdate. rewrite !check_expiry_alerts_run.
  destruct (expiry_sweep autoflush now db) as [created|] eqn:Hsweep; [| done].
  intros [= <-]. cbn [medicines batches transactions alerts].
  assert (expiry_sweep autoflush now'
            (mkStore (medicines db) (batches db) (transactions db)
               (alerts db ++ created)) = Some []) as ->;
    [| by rewrite app_nil_r].
  apply fold_step_skip. intros days Hdays.
  apply fold_step_skip. intros x Hx. cbn [batches] in Hx.
  assert (Hx' : x ∈ expiry_window now (batches db) days).
  { apply elem_of_expiry_window. apply elem_of_expiry_window in Hx.
    by rewrite <- Hdate. }
  unfold expiry_batch_step. cbn [alerts medicines].
  assert (Hdays_until : days_until_expiry now' x.2 = days_until_expiry now x.2).
  { unfold days_until_expiry. by rewrite Hdate. }
  rewrite Hdays_until.
  destruct (Z.geb_spec (days_until_expiry now x.2) 0) as [Hge | Hlt].
  - destruct (expiry_sweep_covers _ _ _ _ Hsweep days x Hdays Hx')
      as (a & Ha & Hopen); [lia |].
    assert (Hfind : is_Some (List.find (open_batch_alert EXPIRY_WARNING x.1)
                      (visible_alerts autoflush (alerts db ++ created) []))).
    { apply (find_is_Some _ _ a); [| done].
      destruct autoflush; cbn; [by rewrite app_nil_r | done]. }
    by destruct Hfind as [? ->].
  - by destruct (List.find _ _).
Qed.

(** A second run on the scenario ledger later the same day. *)
Lemma check_expiry_alerts_idempotent_witness :
  let db' := (run_request (check_expiry_alerts true 1000) amx500_db).2 in
  run_request (check_expiry_alerts true 2000) db' = (Ok (), db').
Proof.
  apply (check_expiry_alerts_idempotent true 1000 2000 amx500_db);
    by vm_compute.
Defined.

(** X13.  On a ledger whose batches all reference a medicine row the sweep
    does not raise, and afterwards every batch that is not flagged expired,
    holds stock and expires today or within the widest lookahead window has
    an open EXPIRY_WARNING. *)
Theorem check_expiry_alerts_covers (autoflush : bool) (now : Z) (db : Store) :
  batches_have_medicine db →
  ∃ created,
    run_request (check_expiry_alerts autoflush now) db
    = (Ok (), mkStore (medicines db) (batches db) (transactions db)
                (alerts db ++ created)) ∧
    ∀ id b,
      batches db !! id = Some b → expiring now b →
      ∃ a, a ∈ alerts db ++ created ∧
           open_batch_alert EXPIRY_WARNING id a = true.
Proof.
  intros Hfk. rewrite check_expiry_alerts_run.
  destruct (expiry_sweep_total autoflush now db Hfk) as [created Hsweep].
  rewrite Hsweep. exists created. split; [done |].
  intros id b Hb (Hflag & Hquantity & Hge & Hexpiry).
  apply (expiry_sweep_covers _ _ _ _ Hsweep 90 (id, b)); [| | done].
  - unfold EXPIRY_ALERT_DAYS. set_solver.
  - by apply elem_of_expiry_window.
Qed.

(** The batch of the scenario ledger expires in 45 days and gets its
    warning. *)
Lemma check_expiry_alerts_covers_witness :
  ∃ a, a ∈ alerts (run_request (check_expiry_alerts false 1000) amx500_db).2 ∧
       open_batch_alert EXPIRY_WARNING 1 a = true.
Proof.
  assert (Hfk : batches_have_medicine amx500_db).
  { apply (bool_decide_unpack
             (map_Forall (λ _ b, is_Some (medicines amx500_db !! Batch.medicine_id b))
                (batches amx500_db))).
    by vm_compute. }
  destruct (check_expiry_alerts_covers false 1000 amx500_db Hfk)
    as (created & Hrun & Hcovers).
  rewrite Hrun. apply (Hcovers 1 amx500_batch); [done |].
  repeat split; by vm_compute.
Defined.

Lemma find_none_filter {A} (f : A → bool) (l : list A) :
  List.find f l = None → List.filter f l = [].
Proof.
  intros Hfind. apply filter_none. intros x Hx%list_elem_of_In.
  by apply (find_none _ _ Hfind).
Qed.

Lemma filter_NoDup_key {A B} (p : A → bool) (g : A → B) (c : B) (l : list A) :
  NoDup (g <$> l) →
  (∀ x, x ∈ l → p x = true → g x = c) →
  (length (List.filter p l) ≤ 1)%nat.
Proof.
  induction l as [|x l IH]; intros Hnodup Hkey; cbn; [lia |].
  rewrite fmap_cons in Hnodup. apply NoDup_cons in Hnodup as [Hx Hnodup].
  destruct (p x) eqn:Hpx.
  - rewrite filter_none; [cbn; lia |].
    intros y Hy. destruct (p y) eqn:Hpy; [| done].
    exfalso. apply Hx. apply list_elem_of_fmap. exists y. split; [| done].
    rewrite (Hkey x), (Hkey y); try done; [by right | by left].
  - apply IH; [done |]. intros y Hy. apply Hkey. by right.
Qed.

(** With sessions that flush before queries, the alerts of a sweep are
    open warnings of distinct batches that had no open warning. *)
Lemma expiry_sweep_distinct (now : Z) (db : Store) (created : list Alert.t) :
  expiry_sweep true now db = Some created →
  NoDup (Alert.batch_id <$> created) ∧
  ∀ a, a ∈ created →
    ∃ id, Alert.batch_id a = Some id ∧
          Alert.alert_type a = EXPIRY_WARNING ∧
          Alert.is_acknowledged a = false.
Proof.
  set (I := λ created : list Alert.t,
         NoDup (Alert.batch_id <$> created) ∧
         ∀ a, a ∈ created →
           ∃ id, Alert.batch_id a = Some id ∧
                 Alert.alert_type a = EXPIRY_WARNING ∧
                 Alert.is_acknowledged a = false).
  assert (Hstep : ∀ c x c',
            I c → expiry_batch_step true now db c x = Some c' → I c').
  { intros c x c' [Hnodup Hopen] Hstep.
    destruct (expiry_batch_step_Some _ _ _ _ _ _ Hstep)
      as [[-> _] | (medicine & Hfind & _ & _ & ->)]; [done |].
    split.
    - rewrite fmap_app. apply NoDup_app. split; [done |]. split.
      + intros o Ho Ho'. cbn in Ho'. apply list_elem_of_singleton in Ho' as ->.
        apply list_elem_of_fmap in Ho as (a & Hid & Ha).
        destruct (Hopen a Ha) as (id & _ & Hty & Hack).
        cbn in Hfind.
        assert (Hin : In a (alerts db ++ c))
          by (apply in_or_app; right; by apply list_elem_of_In).
        pose proof (find_none _ _ Hfind a Hin) as Hclosed.
        unfold open_batch_alert in Hclosed.
        rewrite <- Hid, Hty, Hack in Hclosed. cbn in Hclosed.
        by rewrite !bool_decide_eq_true_2 in Hclosed.
      + cbn. apply NoDup_singleton.
    - intros a [Ha | ->%list_elem_of_singleton]%elem_of_app; [by apply Hopen |].
      by exists x.1. }
  intros Hsweep. unfold expiry_sweep in Hsweep.
  refine (fold_step_invariant _ I _ _ _ _ _ Hsweep).
  - intros c days c' _ Hc Hfold.
    exact (fold_step_invariant _ I _ (λ c x c' _, Hstep c x c') _ _ Hc Hfold).
  - split; [constructor | by intros a Ha%elem_of_nil].
Qed.

(** X14.  With sessions that flush before queries, a sweep never piles up
    open warnings on a batch: after it, the number of open EXPIRY_WARNING
    alerts of a batch is at most the larger of one and the number it had
    before. *)
Theorem check_expiry_alerts_one_per_batch (now : Z) (db db' : Store) (id : Z) :
  run_request (check_expiry_alerts true now) db = (Ok (), db') →
  (length (List.filter (open_batch_alert EXPIRY_WARNING id) (alerts db'))
   ≤ Nat.max 1
       (length (List.filter (open_batch_alert EXPIRY_WARNING id) (alerts db))))%nat.
Proof.
  rewrite check_expiry_alerts_run.
  destruct (expiry_sweep true now db) as [created|] eqn:Hsweep; [| done].
  intros [= <-]. cbn [alerts]. rewrite List.filter_app, length_app.
  destruct (expiry_sweep_distinct _ _ _ Hsweep) as [Hnodup Hopen].
  destruct (List.find (open_batch_alert EXPIRY_WARNING id) (alerts db))
    as [a0|] eqn:Hfind.
  - rewrite (filter_none _ created); [cbn; lia |].
    intros a Ha. destruct (open_batch_alert EXPIRY_WARNING id a) eqn:Hida; [| done].
    destruct (expiry_sweep_sound _ _ _ _ Hsweep a Ha)
      as (id' & b & medicine & _ & _ & -> & _ & _ & _ & Hnone).
    unfold open_batch_alert, expiry_alert in Hida. cbn in Hida.
    apply andb_true_iff in Hida as [[Hid _]%andb_true_iff _].
    apply bool_decide_eq_true in Hid. by simplify_eq.
  - rewrite (find_none_filter _ _ Hfind). cbn [length Nat.add].
    pose proof (filter_NoDup_key (open_batch_alert EXPIRY_WARNING id)
                  Alert.batch_id (Some id) created Hnodup) as Hle.
    etrans; [apply Hle | lia].
    intros a _ [[Hid _]%andb_true_iff _]%andb_true_iff.
    by apply bool_decide_eq_true in Hid.
Qed.

(** The batch of the scenario ledger has one open warning after the
    sweep. *)
Lemma check_expiry_alerts_one_per_batch_witness :
  (length (List.filter (open_batch_alert EXPIRY_WARNING 1)
             (alerts (run_request (check_expiry_alerts true 1000) amx500_db).2))
   ≤ Nat.max 1
       (length (List.filter (open_batch_alert EXPIRY_WARNING 1) (alerts amx500_db))))%nat.
Proof.
  apply (check_expiry_alerts_one_per_batch 1000 amx500_db). by vm_compute.
Defined.

Lemma expiry_warnings_batch (now : Z) (db : Store) (x : Z * Batch.t) (a : Alert.t) :
  a ∈ expiry_warnings now db x → Alert.batch_id a = Some x.1.
Proof.
  unfold expiry_warnings.
  destruct (expiry_batch_step false now db [] x) as [c|] eqn:Hstep;
    [| by intros ?%elem_of_nil].
  destruct (expiry_batch_step_Some _ _ _ _ _ _ Hstep)
    as [[-> _] | (medicine & _ & _ & _ & ->)]; [by intros ?%elem_of_nil |].
  by intros ->%list_elem_of_singleton.
Qed.

(** Without a flush before queries every visit of a batch decides on the
    alerts committed before the request. *)
Lemma expiry_batch_step_no_flush (now : Z) (db : Store)
    (created created' : list Alert.t) (x : Z * Batch.t) :
  expiry_batch_step false now db created x = Some created' →
  created' = created ++ expiry_warnings now db x.
Proof.
  unfold expiry_warnings, expiry_batch_step. cbn [visible_alerts].
  destruct (List.find _ _); [intros [= <-]; by rewrite app_nil_r |].
  destruct (_ >=? 0); [| intros [= <-]; by rewrite app_nil_r].
  destruct (medicines db !! _); [| done]. by intros [= <-].
Qed.

Lemma fold_step_no_flush (now : Z) (db : Store) (l : list (Z * Batch.t))
    (created final : list Alert.t) :
  fold_step (expiry_batch_step false now db) l created = Some final →
  final = created ++ flat_map (expiry_warnings now db) l.
Proof.
  revert created. induction l as [|x l IH]; intros created Hfold; cbn in Hfold.
  - simplify_eq. by rewrite app_nil_r.
  - destruct (expiry_batch_step false now db created x) as [c|] eqn:Hstep; [| done].
    cbn in Hfold. apply IH in Hfold as ->.
    apply expiry_batch_step_no_flush in Hstep as ->.
    cbn [flat_map]. by rewrite app_assoc.
Qed.

Lemma filter_flat_map_key {A} (f : Z * A → list Alert.t) (l : list (Z * A))
    (x : Z * A) :
  (∀ y a, a ∈ f y → Alert.batch_id a = Some y.1) →
  NoDup l.*1 → x ∈ l →
  List.filter (λ a, bool_decide (Alert.batch_id a = Some x.1)) (flat_map f l)
  = f x.
Proof.
  intros Hkey.
  assert (Hother : ∀ l', x.1 ∉ l'.*1 →
            List.filter (λ a, bool_decide (Alert.batch_id a = Some x.1))
              (flat_map f l') = []).
  { intros l' Hl'. apply filter_none.
    intros a (y & Hy & Ha)%list_elem_of_In%in_flat_map.
    apply bool_decide_eq_false. intros Hid.
    apply list_elem_of_In, Hkey in Ha. apply Hl'.
    apply list_elem_of_fmap. exists y. split; [congruence |].
    by apply list_elem_of_In. }
  assert (Hown : List.filter (λ a, bool_decide (Alert.batch_id a = Some x.1)) (f x)
                 = f x).
  { apply forallb_filter_id, forallb_forall. intros a Ha%list_elem_of_In.
    apply bool_decide_eq_true. by apply Hkey. }
  induction l as [|y l IH]; intros Hnodup Hx; [by apply elem_of_nil in Hx |].
  rewrite fmap_cons in Hnodup. apply NoDup_cons in Hnodup as [Hy Hnodup].
  cbn [flat_map]. rewrite List.filter_app.
  apply elem_of_cons in Hx as [<- | Hx].
  - by rewrite Hown, Hother, app_nil_r.
  - rewrite IH by done. rewrite filter_none; [done |].
    intros a Ha. apply bool_decide_eq_false. intros Hid.
    apply Hkey in Ha. apply Hy. apply list_elem_of_fmap. exists x.
    split; [congruence | done].
Qed.

(** X15.  With sessions that do not flush before queries, the check for an
    existing alert does not see the alerts of the running sweep: a batch
    that holds stock, is not flagged expired, has no open EXPIRY_WARNING and
    expires today or within 30 days is in all three lookahead windows and
    gets the same warning three times. *)
Theorem check_expiry_alerts_no_flush_triplicates (now : Z) (db db' : Store)
    (id : Z) (b : Batch.t) :
  run_request (check_expiry_alerts false now) db = (Ok (), db') →
  batches db !! id = Some b →
  Batch.is_expired b = false → 0 < Batch.quantity b →
  0 ≤ days_until_expiry now b →
  Batch.expiry_date b ≤ midnight (date now + 30) →
  List.find (open_batch_alert EXPIRY_WARNING id) (alerts db) = None →
  ∃ medicine,
    medicines db !! Batch.medicine_id b = Some medicine ∧
    List.filter (λ a, bool_decide (Alert.batch_id a = Some id))
      (drop (length (alerts db)) (alerts db'))
    = replicate 3 (expiry_alert id b medicine (days_until_expiry now b) now).
Proof.
  rewrite check_expiry_alerts_run.
  destruct (expiry_sweep false now db) as [created|] eqn:Hsweep; [| done].
  intros [= <-] Hb Hflag Hquantity Hge Hexpiry Hfind. cbn [alerts].
  rewrite drop_app_length.
  assert (Hin : ∀ days, 30 ≤ days → (id, b) ∈ expiry_window now (batches db) days).
  { intros days Hdays. apply elem_of_expiry_window. repeat split; try done.
    cbn. unfold midnight, day in *. lia. }
  assert (Hwindow : ∀ days, 30 ≤ days →
            List.filter (λ a, bool_decide (Alert.batch_id a = Some id))
              (flat_map (expiry_warnings now db) (expiry_window now (batches db) days))
            = expiry_warnings now db (id, b)).
  { intros days Hdays.
    apply (filter_flat_map_key (expiry_warnings now db) _ (id, b)).
    - apply expiry_warnings_batch.
    - apply NoDup_expiry_window.
    - by apply Hin. }
  unfold expiry_sweep, EXPIRY_ALERT_DAYS in Hsweep. cbn [fold_step] in Hsweep.
  destruct (fold_step _ (expiry_window now (batches db) 30) [])
    as [c30|] eqn:H30; [| done]. cbn in Hsweep.
  destruct (fold_step _ (expiry_window now (batches db) 60) c30)
    as [c60|] eqn:H60; [| done]. cbn in Hsweep.
  destruct (fold_step _ (expiry_window now (batches db) 90) c60)
    as [c90|] eqn:H90; [| done]. cbn in Hsweep. simplify_eq.
  assert (Hstep : is_Some (expiry_batch_step false now db [] (id, b))).
  { pose proof (Hin 30 ltac:(lia)) as Hin30.
    apply list_elem_of_In, in_split in Hin30 as (l1 & l2 & Hsplit).
    rewrite Hsplit in H30. clear - H30.
    revert H30. generalize (@nil Alert.t) at 1 as c.
    induction l1 as [|y l1 IH]; intros c H30; cbn in H30.
    - unfold expiry_batch_step in *. cbn [visible_alerts] in *.
      destruct (List.find _ _); [by eexists |].
      destruct (_ >=? 0); [| by eexists].
      destruct (medicines db !! _); [by eexists | done].
    - destruct (expiry_batch_step false now db c y); [| done]. by eapply IH. }
  apply fold_step_no_flush in H30 as ->, H60 as ->, H90 as ->.
  rewrite !List.filter_app, !Hwindow by lia. cbn [List.filter app].
  unfold expiry_warnings. destruct Hstep as [c Hstep]. rewrite Hstep.
  unfold expiry_batch_step in Hstep. cbn [visible_alerts fst snd] in Hstep.
  rewrite Hfind in Hstep.
  destruct (Z.geb_spec (days_until_expiry now b) 0); [| lia].
  destruct (medicines db !! Batch.medicine_id b) as [medicine|]; [| done].
  exists medicine. split; [done |]. by simplify_eq.
Qed.

(** Twenty days into the scenario the batch expires in 25 days. *)
Lemma check_expiry_alerts_no_flush_triplicates_witness :
  let db' := (run_request (check_expiry_alerts false (20 * day)) amx500_db).2 in
  ∃ medicine,
    medicines amx500_db !! 1 = Some medicine ∧
    List.filter (λ a, bool_decide (Alert.batch_id a = Some 1))
      (drop (length (alerts amx500_db)) (alerts db'))
    = replicate 3 (expiry_alert 1 amx500_batch medicine
                     (days_until_expiry (20 * day) amx500_batch) (20 * day)).
Proof.
  apply (check_expiry_alerts_no_flush_triplicates (20 * day) amx500_db
           (run_request (check_expiry_alerts false (20 * day)) amx500_db).2
           1 amx500_batch); by vm_compute.
Defined.

(** ** Alert statistics *)

Lemma sum_counts_insert (counts : gmap string Z) (k : string) (n : Z) :
  sum_counts (<[k := n]> counts) = sum_counts counts - default 0 (counts !! k) + n.
Proof.
  assert (Hfresh : ∀ (m : gmap string Z) v, m !! k = None →
            sum_counts (<[k := v]> m) = v + sum_counts m).
  { intros m v Hm. unfold sum_counts.
    rewrite map_fold_insert_L; [done | intros; lia | done]. }
  destruct (counts !! k) as [n0|] eqn:Hk; cbn.
  - rewrite <- (insert_delete_id counts k n0) at 2 by done.
    rewrite <- (insert_delete_eq counts), !Hfresh by apply lookup_delete_eq. lia.
  - rewrite Hfresh by done. lia.
Qed.

(** The dict of a GROUP BY holds, for every key that occurs, the number of
    rows with that key, and no other key. *)
Lemma count_by_lookup {A} (key : A → string) (rows : list A) (k : string) :
  count_by key rows !! k
  = if count_key key k rows =? 0 then None else Some (count_key key k rows).
Proof.
  unfold count_key. induction rows as [|a rows IH]; [done |].
  cbn [count_by foldr List.filter]. fold (count_by key rows).
  destruct (decide (key a = k)) as [-> | Hne].
  - rewrite lookup_insert_eq, IH, bool_decide_eq_true_2 by done. cbn [length].
    destruct (length (List.filter _ rows)) as [|n]; [done |].
    rewrite (proj2 (Z.eqb_neq (Z.of_nat (S n)) 0)) by lia.
    rewrite (proj2 (Z.eqb_neq (Z.of_nat (S (S n))) 0)) by lia.
    cbn [default]. unfold id. f_equal. lia.
  - by rewrite lookup_insert_ne, IH, bool_decide_eq_false_2.
Qed.

Lemma sum_counts_count_by {A} (key : A → string) (rows : list A) :
  sum_counts (count_by key rows) = Z.of_nat (length rows).
Proof.
  induction rows as [|a rows IH]; [done |].
  cbn [count_by foldr]. fold (count_by key rows).
  rewrite sum_counts_insert, IH. cbn [length]. lia.
Qed.

Lemma count_by_insert {A} (key : A → string) (rows : list A) (i : nat) (a a' : A) :
  rows !! i = Some a → key a' = key a →
  count_by key (<[i := a']> rows) = count_by key rows.
Proof.
  intros Hi Hkey. revert i Hi.
  induction rows as [|x rows IH]; intros [|i] Hi; try done.
  - cbn in Hi. simplify_eq. cbn. by rewrite Hkey.
  - cbn in Hi. change (<[S i := a']> (x :: rows)) with (x :: <[i := a']> rows).
    unfold count_by in *. cbn [foldr]. by rewrite (IH i Hi).
Qed.

Lemma acknowledge_alert_run (autoflush : bool) (db : Store)
    (alert_id now current_user : Z) :
  run_request (acknowledge_alert autoflush alert_id now current_user) db
  = match row (alerts db) alert_id with
    | None => (Raise (mkHTTPException 404 "Alert not found"), db)
    | Some alert =>
      (Ok "Alert acknowledged",
       mkStore (medicines db) (batches db) (transactions db)
         (<[Z.to_nat (alert_id - 1) := Alert.acknowledge current_user now alert]>
            (alerts db)))
    end.
Proof.
  destruct db as [meds bats txs als]. unfold acknowledge_alert, run_request.
  rewrite (bind_run _ _ _ _ _ (query_alerts_run autoflush _)).
  assert (Hsess : (if autoflush
                   then flush_session (mkSession (mkStore meds bats txs als)
                                         (mkStore meds bats txs als) [] [])
                   else mkSession (mkStore meds bats txs als)
                          (mkStore meds bats txs als) [] [])
                  = mkSession (mkStore meds bats txs als)
                      (mkStore meds bats txs als) [] []).
  { destruct autoflush; [| done]. unfold flush_session. cbn.
    by rewrite ?app_nil_r. }
  rewrite Hsess. cbn [flushed alerts].
  destruct (row als alert_id) as [alert|]; [| done].
  unfold_session. cbn. by rewrite ?app_nil_r.
Qed.

(** X16.  The alert statistics are consistent: the counts by type and the
    counts by severity each add up to [total_alerts], every listed count is
    the number of alerts of that type and is positive, and the unacknowledged
    alerts are between none and all. *)
Theorem get_alert_stats_consistent (db : Store) :
  let stats := get_alert_stats db in
  sum_counts (AlertStats.by_type stats) = AlertStats.total_alerts stats ∧
  sum_counts (AlertStats.by_severity stats) = AlertStats.total_alerts stats ∧
  0 ≤ AlertStats.unacknowledged stats ≤ AlertStats.total_alerts stats ∧
  ∀ ty,
    let n := Z.of_nat (length (List.filter
                 (λ a, bool_decide (Alert.alert_type a = ty)) (alerts db))) in
    AlertStats.by_type stats !! str_AlertType ty
    = if n =? 0 then None else Some n.
Proof.
  cbn. rewrite !sum_counts_count_by. repeat split; try lia.
  - pose proof (List.filter_length_le (λ a, negb (Alert.is_acknowledged a))
                  (alerts db)). lia.
  - intros ty. rewrite count_by_lookup. unfold count_key.
    assert (Hfilter : List.filter
              (λ a, bool_decide (str_AlertType (Alert.alert_type a) = str_AlertType ty))
              (alerts db)
            = List.filter (λ a, bool_decide (Alert.alert_type a = ty)) (alerts db)).
    { apply List.filter_ext. intros a. apply bool_decide_ext.
      split; [| by intros ->]. by destruct (Alert.alert_type a), ty. }
    by rewrite Hfilter.
Qed.

Lemma filter_insert_length {A} (f : A → bool) (l : list A) (i : nat) (a a' : A) :
  l !! i = Some a →
  Z.of_nat (length (List.filter f (<[i := a']> l)))
  = Z.of_nat (length (List.filter f l))
    - (if f a then 1 else 0) + (if f a' then 1 else 0).
Proof.
  revert i. induction l as [|x l IH]; intros [|i] Hi; try done.
  - cbn in Hi. simplify_eq. cbn. destruct (f a), (f a'); cbn [length]; lia.
  - cbn in Hi. change (<[S i := a']> (x :: l)) with (x :: <[i := a']> l).
    cbn [List.filter]. destruct (f x); cbn [length]; rewrite ?Nat2Z.inj_succ;
      rewrite (IH i Hi); lia.
Qed.

(** X17.  Acknowledging an alert moves the statistics by exactly that
    alert: the number of unacknowledged alerts drops by one when the alert
    was open and stays when it was acknowledged before; the total and the
    counts by type and by severity do not change. *)
Theorem acknowledge_alert_stats (autoflush : bool) (db db' : Store)
    (alert_id now current_user : Z) (alert : Alert.t) (message : string) :
  row (alerts db) alert_id = Some alert →
  run_request (acknowledge_alert autoflush alert_id now current_user) db
  = (Ok message, db') →
  let stats := get_alert_stats db in
  let stats' := get_alert_stats db' in
  AlertStats.unacknowledged stats'
  = AlertStats.unacknowledged stats
    - (if Alert.is_acknowledged alert then 0 else 1) ∧
  AlertStats.total_alerts stats' = AlertStats.total_alerts stats ∧
  AlertStats.by_type stats' = AlertStats.by_type stats ∧
  AlertStats.by_severity stats' = AlertStats.by_severity stats.
Proof.
  intros Hrow. rewrite acknowledge_alert_run, Hrow. intros [= _ <-].
  unfold row in Hrow. destruct (1 <=? alert_id); [| done].
  cbv zeta. unfold get_alert_stats.
  cbn [AlertStats.unacknowledged AlertStats.total_alerts AlertStats.by_type
       AlertStats.by_severity alerts].
  rewrite length_insert, (filter_insert_length _ _ _ _ _ Hrow).
  rewrite !(count_by_insert _ _ _ _ _ Hrow) by done.
  repeat split. cbn. destruct (Alert.is_acknowledged alert); cbn; lia.
Qed.

(** Acknowledging the open alert of a ledger with one open and one
    acknowledged alert. *)
Lemma acknowledge_alert_stats_witness :
  let db' := (run_request (acknowledge_alert true 1 20 2) two_alerts_db).2 in
  AlertStats.unacknowledged (get_alert_stats two_alerts_db) = 1 ∧
  AlertStats.unacknowledged (get_alert_stats db') = 0 ∧
  AlertStats.total_alerts (get_alert_stats db') = 2.
Proof.
  destruct (acknowledge_alert_stats true two_alerts_db
              (run_request (acknowledge_alert true 1 20 2) two_alerts_db).2
              1 20 2
              (Alert.mk EXPIRY_WARNING (Some 1) (Some 1)
                 "Amoxicillin 500 (Batch: B-001) expires in 45 days" "medium"
                 false None None 0)
              "Alert acknowledged" eq_refl ltac:(by vm_compute))
    as (Hopen & Htotal & _).
  cbv zeta. rewrite Hopen, Htotal. by vm_compute.
Defined.

(** ** Forecasts for all medicines and reorder suggestions *)

Lemma insert_by_Permutation {A} (le : A → A → bool) (x : A) (l : list A) :
  insert_by le x l ≡ₚ x :: l.
Proof.
  induction l as [|y l IH]; cbn; [done |].
  destruct (le x y); [done |]. by rewrite IH, Permutation_swap.
Qed.

Lemma sort_by_Permutation {A} (le : A → A → bool) (l : list A) :
  sort_by le l ≡ₚ l.
Proof.
  induction l as [|x l IH]; cbn; [done |].
  by rewrite insert_by_Permutation, IH.
Qed.

Lemma sort_by_sorted {A} (le : A → A → bool) (l : list A) :
  (∀ x y, le x y = false → le y x = true) →
  (∀ x y z, le x y = true → le y z = true → le x z = true) →
  StronglySorted (λ x y, le x y = true) (sort_by le l).
Proof.
  intros Htotal Htrans.
  assert (Hinsert : ∀ x l, StronglySorted (λ x y, le x y = true) l →
            StronglySorted (λ x y, le x y = true) (insert_by le x l)).
  { intros x l' Hl'. induction Hl' as [|y l' Hl' IH Hy]; cbn.
    - repeat constructor.
    - destruct (le x y) eqn:Hxy.
      + constructor; [by constructor |]. constructor; [done |].
        eapply Forall_impl; [exact Hy |]. intros z Hz. by eapply Htrans.
      + constructor; [done |].
        rewrite insert_by_Permutation. constructor; [by apply Htotal | done]. }
  induction l as [|x l IH]; cbn; [constructor | by apply Hinsert].
Qed.

(** The forecast of a medicine that exists: the reorder point is at least
    one unit, the recommended quantity is not negative and the confidence
    is between 0.3 and 0.95. *)
Lemma calculate_demand_forecast_bounds (db : Store) (now medicine_id horizon_days : Z) :
  is_Some (medicines db !! medicine_id) →
  let forecast := calculate_demand_forecast db now medicine_id horizon_days in
  1 ≤ ForecastData.reorder_point forecast ∧
  0 ≤ ForecastData.recommended_quantity forecast ∧
  (0.3 <= ForecastData.confidence_score forecast <= 0.95)%Q.
Proof.
  intros [medicine Hmedicine]. cbv zeta.
  rewrite (forecast_confidence _ _ _ _ _ Hmedicine).
  split; [| split; [| split]].
  - unfold calculate_demand_forecast. rewrite Hmedicine.
    destruct (List.filter _ (transactions db));
      cbn [ForecastData.reorder_point]; lia.
  - unfold calculate_demand_forecast. rewrite Hmedicine.
    destruct (List.filter _ (transactions db));
      cbn [ForecastData.recommended_quantity]; lia.
  - apply (confidence_of_count_mono 0). lia.
  - apply confidence_of_count_bound.
Qed.

(** X18.  The batch job forecasts every active medicine exactly once and
    no other, and each forecast is a real one: a reorder point of at least
    one unit, a recommended quantity that is not negative and a confidence
    between 0.3 and 0.95. *)
Theorem batch_forecast_all_medicines_spec (db : Store) (now : Z) :
  let forecasts := batch_forecast_all_medicines db now in
  NoDup forecasts.*1 ∧
  (∀ medicine_id,
     medicine_id ∈ forecasts.*1 ↔
     ∃ medicine, medicines db !! medicine_id = Some medicine ∧
                 Medicine.is_active medicine = true) ∧
  ∀ medicine_id forecast,
    (medicine_id, forecast) ∈ forecasts →
    forecast = calculate_demand_forecast db now medicine_id 30 ∧
    1 ≤ ForecastData.reorder_point forecast ∧
    0 ≤ ForecastData.recommended_quantity forecast ∧
    (0.3 <= ForecastData.confidence_score forecast <= 0.95)%Q.
Proof.
  cbv zeta. unfold batch_forecast_all_medicines.
  rewrite <- list_fmap_compose.
  assert (Hids : ∀ l : list (Z * Medicine.t),
            ((λ medicine, (medicine.1, calculate_demand_forecast db now medicine.1 30))
               <$> l).*1 = l.*1).
  { intros l. rewrite <- list_fmap_compose. by apply list_fmap_ext. }
  rewrite list_fmap_compose, Hids.
  split; [apply NoDup_fmap_fst_filter |]. split.
  - intros id. rewrite list_elem_of_fmap. split.
    + intros ([id' m] & -> & [Hm Hactive]%list_elem_of_In%filter_In).
      exists m. split; [| done].
      by apply elem_of_map_to_list, list_elem_of_In.
    + intros (m & Hm & Hactive). exists (id, m). split; [done |].
      apply list_elem_of_In, filter_In. split; [| done].
      by apply list_elem_of_In, elem_of_map_to_list.
  - intros id forecast ([id' m] & [= -> ->] & [Hm _]%list_elem_of_In%filter_In)%list_elem_of_fmap.
    split; [done |]. apply calculate_demand_forecast_bounds.
    exists m. by apply elem_of_map_to_list, list_elem_of_In.
Qed.

Lemma StronglySorted_impl {A} (R R' : A → A → Prop) (l : list A) :
  (∀ x y, R x y → R' x y) → StronglySorted R l → StronglySorted R' l.
Proof.
  intros HR. induction 1 as [|x l Hl IH Hx]; constructor; [done |].
  eapply Forall_impl; [exact Hx | apply HR].
Qed.

Lemma no_history_no_demand (db : Store) (now medicine_id horizon_days : Z) :
  out_count db now medicine_id = O →
  total_stock (batches db) medicine_id = 0 →
  PrimFloat.ltb 0 (ForecastData.forecasted_demand
                     (calculate_demand_forecast db now medicine_id horizon_days))
  = false.
Proof.
  unfold out_count, calculate_demand_forecast. intros Hcount Hstock.
  destruct (medicines db !! medicine_id); [| by vm_compute].
  destruct (List.filter _ (transactions db)); [| done].
  cbn [ForecastData.forecasted_demand]. rewrite Hstock. by vm_compute.
Qed.

(** X19.  The priority of a reorder suggestion, read against the ledger.
    Every suggestion is for an active medicine and carries its stock and its
    30-day forecast.  "critical" is given only to a medicine without stock
    that was dispensed in the last 90 days; a medicine without stock is
    never "at_risk" or "healthy"; a "healthy" medicine holds at least one
    unit and at least its reorder point and its recommended quantity; with
    [critical_only] only "critical" and "low_stock" suggestions are
    listed. *)
Theorem get_reorder_suggestions_priority (db : Store) (now : Z)
    (category : option string) (critical_only : bool) :
  Forall (λ s,
    let stock := Suggestion.current_stock s in
    let forecast := Suggestion.forecast_data s in
    (∃ medicine,
       medicines db !! Suggestion.medicine_id s = Some medicine ∧
       Medicine.is_active medicine = true) ∧
    stock = total_stock (batches db) (Suggestion.medicine_id s) ∧
    forecast = calculate_demand_forecast db now (Suggestion.medicine_id s) 30 ∧
    (Suggestion.priority s = critical →
       stock = 0 ∧ (0 < out_count db now (Suggestion.medicine_id s))%nat) ∧
    (stock = 0 →
       Suggestion.priority s = critical ∨ Suggestion.priority s = low_stock) ∧
    (Suggestion.priority s = healthy →
       1 ≤ stock ∧ ForecastData.reorder_point forecast ≤ stock ∧
       ForecastData.recommended_quantity forecast ≤ stock) ∧
    (critical_only = true →
       Suggestion.priority s = critical ∨ Suggestion.priority s = low_stock))
    (get_reorder_suggestions db now category critical_only).
Proof.
  apply Forall_forall. intros s Hs. unfold get_reorder_suggestions in Hs.
  rewrite sort_by_Permutation in Hs.
  apply list_elem_of_In, in_flat_map in Hs as ([id m] & Hm & Hs).
  apply filter_In in Hm as [Hm [Hactive _]%andb_true_iff].
  apply list_elem_of_In, elem_of_map_to_list in Hm. cbn [fst snd] in *.
  set (stock := total_stock (batches db) id) in *.
  set (forecast := calculate_demand_forecast db now id 30) in *.
  pose proof (calculate_demand_forecast_bounds db now id 30 (mk_is_Some _ _ Hm))
    as (Hreorder & Hrecommended & _). fold forecast in Hreorder, Hrecommended.
  assert (Hpriority :
    let priority := suggestion_priority stock forecast in
    (priority = critical → stock = 0 ∧ (0 < out_count db now id)%nat) ∧
    (stock = 0 → priority = critical ∨ priority = low_stock) ∧
    (priority = healthy →
       1 ≤ stock ∧ ForecastData.reorder_point forecast ≤ stock ∧
       ForecastData.recommended_quantity forecast ≤ stock)).
  { cbv zeta. unfold suggestion_priority.
    destruct (Z.eqb_spec stock 0) as [Hzero | Hnonzero]; cbn [andb].
    - destruct (PrimFloat.ltb 0 (ForecastData.forecasted_demand forecast)) eqn:Hdemand.
      + split; [| split; [by left | done]]. intros _. split; [done |].
        destruct (out_count db now id) eqn:Hcount; [| lia].
        subst forecast.
        by rewrite (no_history_no_demand _ _ _ _ Hcount Hzero) in Hdemand.
      + rewrite (proj2 (Z.ltb_lt stock _)) by lia.
        split; [done |]. split; [by right | done].
    - split; [| split; [done |]].
      + by repeat case_match.
      + destruct (Z.ltb_spec stock (ForecastData.reorder_point forecast)); [done |].
        destruct (Z.ltb_spec stock (ForecastData.recommended_quantity forecast));
          [done |]. intros _. lia. }
  destruct (critical_only && _) eqn:Hfilter; [by destruct Hs |].
  destruct Hs as [<- | []]. cbn. destruct Hpriority as (Hcritical & Hzero & Hhealthy).
  split; [by exists m |]. repeat split; try done; try (by apply Hcritical);
    try (by apply Hhealthy).
  intros ->. cbn in Hfilter. apply negb_false_iff, orb_true_iff in Hfilter.
  destruct Hfilter as [H | H]; apply bool_decide_eq_true in H; auto.
Qed.

Lemma flat_map_option_NoDup {A B} (f : A → list B) (key : A → Z) (key' : B → Z)
    (l : list A) :
  (∀ x y, y ∈ f x → key' y = key x) →
  (∀ x, (length (f x) ≤ 1)%nat) →
  NoDup (key <$> l) → NoDup (key' <$> flat_map f l).
Proof.
  intros Hkey Hone. induction l as [|x l IH]; intros Hnodup; cbn; [constructor |].
  rewrite fmap_cons in Hnodup. apply NoDup_cons in Hnodup as [Hx Hnodup].
  rewrite fmap_app. apply NoDup_app. split; [| split; [| by apply IH]].
  - pose proof (Hone x). destruct (f x) as [|y [|z l']]; cbn in *;
      [constructor | apply NoDup_singleton | lia].
  - intros k (y & -> & Hy)%list_elem_of_fmap (z & Hz & Hin)%list_elem_of_fmap.
    apply list_elem_of_In, in_flat_map in Hin as (x' & Hx' & Hzx').
    apply Hx. apply list_elem_of_fmap. exists x'.
    split; [| by apply list_elem_of_In].
    rewrite <- (Hkey x y Hy), Hz. by apply Hkey, list_elem_of_In.
Qed.

(** X20.  The reorder suggestions come sorted by priority, "critical"
    first and "healthy" last, with at most one suggestion per medicine; when
    [critical_only] is off, every active medicine of the category asked for
    (every active medicine when no category is given) has its suggestion. *)
Theorem get_reorder_suggestions_sorted (db : Store) (now : Z)
    (category : option string) (critical_only : bool) :
  let suggestions := get_reorder_suggestions db now category critical_only in
  StronglySorted
    (λ x y, priority_order (Suggestion.priority x)
            ≤ priority_order (Suggestion.priority y)) suggestions ∧
  NoDup (Suggestion.medicine_id <$> suggestions) ∧
  (critical_only = false →
   ∀ id medicine,
     medicines db !! id = Some medicine →
     Medicine.is_active medicine = true →
     match truthy_str category with
     | Some c => Medicine.category medicine = Some c
     | None => True
     end →
     id ∈ Suggestion.medicine_id <$> suggestions).
Proof.
  cbv zeta. unfold get_reorder_suggestions.
  set (le := λ x y, priority_order (Suggestion.priority x)
                    <=? priority_order (Suggestion.priority y)).
  set (medicines_ := List.filter _ (map_to_list (medicines db))).
  set (suggestions := flat_map _ medicines_).
  split; [| split].
  - apply (StronglySorted_impl (λ x y, le x y = true)).
    + intros x y. apply Z.leb_le.
    + apply sort_by_sorted; unfold le.
      * intros x y Hxy%Z.leb_gt. apply Z.leb_le. lia.
      * intros x y z Hxy%Z.leb_le Hyz%Z.leb_le. apply Z.leb_le. lia.
  - rewrite sort_by_Permutation.
    apply (flat_map_option_NoDup _ fst).
    + intros x y Hy. destruct (critical_only && _); [by apply elem_of_nil in Hy |].
      by apply list_elem_of_singleton in Hy as ->.
    + intros x. destruct (critical_only && _); cbn; lia.
    + apply NoDup_fmap_fst_filter.
  - intros -> id m Hm Hactive Hcategory.
    rewrite sort_by_Permutation. apply list_elem_of_fmap.
    eexists. split; [| apply list_elem_of_In, in_flat_map; exists (id, m); split].
    2:{ apply filter_In. split; [by apply list_elem_of_In, elem_of_map_to_list |].
        cbn. rewrite Hactive. cbn. destruct (truthy_str category); [| done].
        by apply bool_decide_eq_true. }
    2:{ cbn. left. reflexivity. }
    done.
Qed.

(** ** Categorisation *)

Lemma lower_ascii_idemp (c : Ascii.ascii) : lower_ascii (lower_ascii c) = lower_ascii c.
Proof. by destruct c as [[] [] [] [] [] [] [] []]. Qed.

Lemma lower_idemp (s : string) : lower (lower s) = lower s.
Proof. induction s as [|c s IH]; cbn; [done |]. by rewrite lower_ascii_idemp, IH. Qed.

Lemma lower_empty (s : string) : String.eqb (lower s) "" = String.eqb s "".
Proof. by destruct s. Qed.

Lemma keyword_score_count (text : string) (keywords : list string) :
  keyword_score text keywords
  = Z.of_nat (length (List.filter (λ keyword, contains (lower keyword) text) keywords)).
Proof.
  unfold keyword_score.
  assert (Hacc : ∀ acc,
            fold_left (λ score keyword,
                         if contains (lower keyword) text then score + 1 else score)
              keywords acc
            = acc + Z.of_nat (length (List.filter
                       (λ keyword, contains (lower keyword) text) keywords))).
  { induction keywords as [|k keywords IH]; intros acc; cbn [fold_left List.filter].
    - cbn. lia.
    - rewrite IH. destruct (contains (lower k) text); cbn [length]; lia. }
  by rewrite Hacc.
Qed.

Lemma max_score_spec (first : string * Z) (rest : list (string * Z)) :
  max_score first rest ∈ first :: rest ∧
  ∀ item, item ∈ first :: rest → item.2 ≤ (max_score first rest).2.
Proof.
  unfold max_score. revert first.
  induction rest as [|x rest IH]; intros first; cbn [fold_left].
  - split; [by left |]. by intros item ->%list_elem_of_singleton.
  - destruct (IH (if x.2 >? first.2 then x else first)) as [Hin Hmax].
    split.
    + apply elem_of_cons in Hin as [-> | Hin]; [| by do 2 right].
      destruct (x.2 >? first.2); [right | ]; by left.
    + intros item Hitem.
      assert (Hbest : first.2 ≤ (if x.2 >? first.2 then x else first).2
                      ∧ x.2 ≤ (if x.2 >? first.2 then x else first).2).
      { destruct (Z.gtb_spec x.2 first.2); lia. }
      pose proof (Hmax _ (list_elem_of_here _ _)) as Hfirst.
      apply elem_of_cons in Hitem as [-> | [-> | Hitem]%elem_of_cons];
        [lia | lia |]. apply Hmax. by right.
Qed.

(** X21.  [categorize_medicine] always answers with a category of the
    table.  It answers with a category other than "General" only for a name
    that is not empty and a text in which a keyword of that category occurs,
    and then no category has more of its keywords in the text; it answers
    "General" exactly when the name is empty or no keyword of any category
    occurs. *)
Theorem categorize_medicine_best (name : string) (description : option string) :
  let text := categorize_text name description in
  let category := categorize_medicine name description in
  category ∈ MEDICINE_CATEGORIES.*1 ∧
  (category ≠ "General" →
   name ≠ "" ∧
   ∃ keywords,
     (category, keywords) ∈ MEDICINE_CATEGORIES ∧
     (∃ keyword, keyword ∈ keywords ∧ contains (lower keyword) text = true) ∧
     ∀ c kws, (c, kws) ∈ MEDICINE_CATEGORIES →
       keyword_score text kws ≤ keyword_score text keywords) ∧
  (category = "General" ↔
   name = "" ∨
   ∀ c kws keyword, (c, kws) ∈ MEDICINE_CATEGORIES → keyword ∈ kws →
     contains (lower keyword) text = false).
Proof.
  cbv zeta. set (text := categorize_text name description).
  assert (Hgeneral : "General" ∈ MEDICINE_CATEGORIES.*1).
  { apply list_elem_of_In. vm_compute. tauto. }
  assert (Hscore0 : ∀ kws, 0 ≤ keyword_score text kws).
  { intros kws. rewrite keyword_score_count. lia. }
  assert (Hpos : ∀ kws, 0 < keyword_score text kws ↔
            ∃ keyword, keyword ∈ kws ∧ contains (lower keyword) text = true).
  { intros kws. rewrite keyword_score_count. split.
    - destruct (List.filter _ kws) as [|k l] eqn:Hfilter; [cbn; lia |].
      intros _. exists k.
      assert (Hk : In k (List.filter (λ keyword, contains (lower keyword) text) kws))
        by (rewrite Hfilter; by left).
      apply filter_In in Hk as [Hk ?]. split; [by apply list_elem_of_In | done].
    - intros (k & Hk & Hcontains).
      assert (Hin : In k (List.filter (λ keyword, contains (lower keyword) text) kws))
        by (apply filter_In; split; [by apply list_elem_of_In | done]).
      destruct (List.filter _ kws); [done | cbn; lia]. }
  unfold categorize_medicine. fold text.
  destruct (String.eqb_spec name "") as [-> | Hname].
  { split; [done |]. split; [done |]. split; [by left | done]. }
  set (scores := omap _ MEDICINE_CATEGORIES).
  assert (Hscores : ∀ c s, (c, s) ∈ scores ↔
            ∃ kws, (c, kws) ∈ MEDICINE_CATEGORIES ∧ c ≠ "General" ∧
                   s = keyword_score text kws ∧ 0 < s).
  { intros c s. unfold scores. rewrite list_elem_of_omap. split.
    - intros ([c' kws] & Hin & Hsome). cbn [fst snd] in Hsome.
      destruct (String.eqb_spec c' "General"); [done |].
      destruct (Z.gtb_spec (keyword_score text kws) 0); [| done].
      simplify_eq. by exists kws.
    - intros (kws & Hin & Hc & -> & Hs). exists (c, kws). split; [done |]. cbn [fst snd].
      destruct (String.eqb_spec c "General"); [done |].
      destruct (Z.gtb_spec (keyword_score text kws) 0); [done | lia]. }
  destruct scores as [|first rest] eqn:Hlist.
  - split; [done |]. split; [done |]. split; [| done]. intros _. right.
    intros c kws keyword Hc Hkeyword.
    destruct (contains (lower keyword) text) eqn:Hcontains; [| done].
    destruct (String.eqb_spec c "General") as [-> | Hc'].
    + apply list_elem_of_In in Hc. vm_compute in Hc.
      repeat (destruct Hc as [Hc | Hc]; [simplify_eq |]); try done.
      by apply elem_of_nil in Hkeyword.
    + assert (Hin : (c, keyword_score text kws) ∈ @nil (string * Z)); [| by apply elem_of_nil in Hin].
      apply Hscores. exists kws. repeat split; try done.
      apply Hpos. by exists keyword.
  - destruct (max_score_spec first rest) as [Hin Hmax].
    destruct (max_score first rest) as [c s] eqn:Hbest. cbn [fst snd] in *.
    apply Hscores in Hin as (kws & Hc & Hne & -> & Hs).
    split; [| split; [| split]].
    + apply list_elem_of_fmap. by exists (c, kws).
    + intros _. split; [done |]. exists kws. split; [done |].
      split; [by apply Hpos |]. intros c' kws' Hc'.
      destruct (Z.ltb_spec 0 (keyword_score text kws')) as [Hpos' | Hzero];
        [| lia].
      destruct (String.eqb_spec c' "General") as [-> | Hc''].
      * apply list_elem_of_In in Hc'. vm_compute in Hc'.
        repeat (destruct Hc' as [Hc' | Hc']; [simplify_eq |]); try done.
      * apply (Hmax (c', keyword_score text kws')), Hscores. by exists kws'.
    + done.
    + intros [Hempty | Hnone]; [done |].
      apply Hpos in Hs as (keyword & Hkeyword & Hcontains).
      by rewrite (Hnone c kws keyword Hc Hkeyword) in Hcontains.
Qed.

(** X22.  The category does not depend on the case of the letters: two
    requests whose names and descriptions are equal up to case get the same
    category. *)
Theorem categorize_medicine_ignores_case (name1 name2 : string)
    (description1 description2 : option string) :
  lower name1 = lower name2 →
  lower <$> description1 = lower <$> description2 →
  categorize_medicine name1 description1 = categorize_medicine name2 description2.
Proof.
  intros Hname Hdescription.
  assert (Hempty : String.eqb name1 "" = String.eqb name2 "")
    by (by rewrite <- (lower_empty name1), <- (lower_empty name2), Hname).
  assert (Htext : categorize_text name1 description1
                  = categorize_text name2 description2).
  { assert (Htruthy : lower <$> truthy_str description1
                      = lower <$> truthy_str description2).
    { unfold truthy_str.
      destruct description1 as [d1|], description2 as [d2|]; try done.
      injection Hdescription as Hd.
      rewrite <- (lower_empty d1), <- (lower_empty d2), Hd.
      destruct (String.eqb (lower d2) ""); [done |].
      cbn [fmap option_fmap option_map]. by rewrite Hd. }
    unfold categorize_text. rewrite Hname.
    destruct (truthy_str description1), (truthy_str description2); try done.
    injection Htruthy as Hd. by rewrite Hd. }
  unfold categorize_medicine. by rewrite Hempty, Htext.
Qed.

Lemma categorize_medicine_ignores_case_witness :
  categorize_medicine "AMOXICILLIN 500" (Some "Antibiotic")
  = categorize_medicine "amoxicillin 500" (Some "antibiotic").
Proof.
  apply categorize_medicine_ignores_case; by vm_compute.
Defined.

(** ** Medicines and stock levels *)

Lemma flush_fresh_session (autoflush : bool) (db : Store) :
  (if autoflush then flush_session (mkSession db db [] [])
   else mkSession db db [] [])
  = mkSession db db [] [].
Proof.
  destruct db, autoflush; [| done]. unfold flush_session. cbn.
  by rewrite !app_nil_r.
Qed.

Lemma create_medicine_run (autoflush : bool) (db : Store)
    (medicine : MedicineCreate.t) (id : Z) :
  run_request (create_medicine autoflush medicine id) db
  = match List.find (λ m, String.eqb (Medicine.sku m.2) (MedicineCreate.sku medicine))
            (map_to_list (medicines db)) with
    | Some _ => (Raise (mkHTTPException 400 "SKU already exists"), db)
    | None =>
      match truthy_str (MedicineCreate.category medicine) with
      | None => (Raise (mkHTTPException 500 "Internal Server Error"), db)
      | Some _ =>
        let db_medicine :=
          Medicine.mk (MedicineCreate.sku medicine) (MedicineCreate.name medicine)
            (MedicineCreate.category medicine) (MedicineCreate.mrp medicine)
            (MedicineCreate.cost medicine) true in
        (Ok (id, db_medicine),
         mkStore (<[id := db_medicine]> (medicines db)) (batches db)
           (transactions db) (alerts db))
      end
    end.
Proof.
  unfold create_medicine, run_request.
  rewrite (bind_run _ _ _ _ _ (query_medicines_run autoflush _)).
  rewrite flush_fresh_session. cbn [flushed].
  destruct (List.find _ _); [done |].
  destruct (truthy_str _); [| done].
  unfold_session. cbn. by rewrite !app_nil_r.
Qed.

Lemma get_medicine_run (autoflush : bool) (db : Store) (medicine_id : Z) :
  run_request (get_medicine autoflush medicine_id) db
  = match medicines db !! medicine_id with
    | Some medicine => (Ok medicine, db)
    | None => (Raise (mkHTTPException 404 "Medicine not found"), db)
    end.
Proof.
  unfold get_medicine, run_request.
  rewrite (bind_run _ _ _ _ _ (query_medicine_run autoflush _ _)).
  rewrite flush_fresh_session. cbn [flushed].
  by destruct (medicines db !! medicine_id).
Qed.

Lemma find_sku (table : gmap Z Medicine.t) (sku : string) :
  is_Some (List.find (λ m : Z * Medicine.t, String.eqb (Medicine.sku m.2) sku)
             (map_to_list table))
  ↔ ∃ id m, table !! id = Some m ∧ Medicine.sku m = sku.
Proof.
  split.
  - intros [[id m] Hfind]. apply find_some in Hfind as [Hin Hsku].
    exists id, m. split; [by apply elem_of_map_to_list, list_elem_of_In |].
    by apply String.eqb_eq.
  - intros (id & m & Hm & Hsku). apply (find_is_Some _ _ (id, m)).
    + by apply elem_of_map_to_list.
    + by apply String.eqb_eq.
Qed.

(** X23.  [create_medicine] stores nothing for a SKU that some medicine,
    active or not, already has (400 "SKU already exists"), and nothing for a
    request without a category: the automatic categorisation is called with
    one argument too many, so a new SKU without a category, or with an empty
    one, ends as an internal server error. *)
Theorem create_medicine_rejected (autoflush : bool) (db : Store)
    (medicine : MedicineCreate.t) (id : Z) :
  let result := run_request (create_medicine autoflush medicine id) db in
  ((∃ id' m, medicines db !! id' = Some m ∧
             Medicine.sku m = MedicineCreate.sku medicine) →
   result = (Raise (mkHTTPException 400 "SKU already exists"), db)) ∧
  ((∀ id' m, medicines db !! id' = Some m →
             Medicine.sku m ≠ MedicineCreate.sku medicine) →
   (MedicineCreate.category medicine = None
    ∨ MedicineCreate.category medicine = Some "") →
   result = (Raise (mkHTTPException 500 "Internal Server Error"), db)).
Proof.
  cbv zeta. rewrite create_medicine_run. split.
  - intros [? ->]%find_sku. done.
  - intros Hfresh Hcategory.
    destruct (List.find _ _) as [x|] eqn:Hfind.
    + destruct (proj1 (find_sku (medicines db) (MedicineCreate.sku medicine)))
        as (id' & m & Hm & Hsku); [by rewrite Hfind |].
      by destruct (Hfresh id' m Hm).
    + by destruct Hcategory as [-> | ->].
Qed.

(** A second medicine with the SKU of the scenario, and a new SKU without a
    category. *)
Lemma create_medicine_rejected_witness :
  run_request (create_medicine true
                 (MedicineCreate.mk "AMX500" "Amoxil" (Some "Antibiotics") None None) 2)
    amx500_db
  = (Raise (mkHTTPException 400 "SKU already exists"), amx500_db) ∧
  run_request (create_medicine true
                 (MedicineCreate.mk "PCM650" "Paracetamol 650" None None None) 2)
    amx500_db
  = (Raise (mkHTTPException 500 "Internal Server Error"), amx500_db).
Proof.
  split.
  - apply (create_medicine_rejected true amx500_db
             (MedicineCreate.mk "AMX500" "Amoxil" (Some "Antibiotics") None None) 2).
    exists 1, amx500. by vm_compute.
  - apply (create_medicine_rejected true amx500_db
             (MedicineCreate.mk "PCM650" "Paracetamol 650" None None None) 2).
    + unfold amx500_db. cbn [medicines].
      intros id' m [<- <-]%lookup_singleton_Some. by vm_compute.
    + by left.
Defined.

(** X24.  [create_medicine] keeps the SKUs unique: on a ledger in which no
    two medicines share a SKU, and with a primary key that is not in use,
    no two medicines share a SKU after the request, whatever its outcome. *)
Theorem create_medicine_sku_unique (autoflush : bool) (db : Store)
    (medicine : MedicineCreate.t) (id : Z) :
  sku_unique db → medicines db !! id = None →
  sku_unique (run_request (create_medicine autoflush medicine id) db).2.
Proof.
  intros Hunique Hid. rewrite create_medicine_run.
  destruct (List.find _ _) as [x|] eqn:Hfind; [done |].
  destruct (truthy_str _); [| done]. cbn [snd].
  assert (Hfresh : ∀ id' m, medicines db !! id' = Some m →
            Medicine.sku m ≠ MedicineCreate.sku medicine).
  { intros id' m Hm Hsku.
    destruct (proj2 (find_sku (medicines db) (MedicineCreate.sku medicine)))
      as [? Hsome]; [by exists id', m |]. by rewrite Hfind in Hsome. }
  intros id1 id2 m1 m2. cbn [medicines].
  intros [[<- <-] | [Hne1 Hm1]]%lookup_insert_Some
         [[<- <-] | [Hne2 Hm2]]%lookup_insert_Some Hsku; cbn in Hsku.
  - done.
  - by destruct (Hfresh _ _ Hm2).
  - by destruct (Hfresh _ _ Hm1).
  - by eapply Hunique.
Qed.

Lemma create_medicine_sku_unique_witness :
  sku_unique (run_request (create_medicine true
                 (MedicineCreate.mk "PCM650" "Paracetamol 650" (Some "Pain Relief")
                    (Some 2%Q) None) 2) amx500_db).2.
Proof.
  apply create_medicine_sku_unique; [| by vm_compute].
  unfold sku_unique, amx500_db. cbn [medicines].
  by intros id1 id2 m1 m2 [<- <-]%lookup_singleton_Some [<- <-]%lookup_singleton_Some.
Defined.

(** X25.  A medicine that [create_medicine] has stored is what
    [get_medicine] returns for its key: the fields of the request, the
    category as given and [is_active] set; the answer of [get_medicine] for
    every other key is what it was. *)
Theorem create_medicine_get_medicine (autoflush autoflush' : bool)
    (db db' : Store) (medicine : MedicineCreate.t) (id id' : Z) (m : Medicine.t) :
  run_request (create_medicine autoflush medicine id) db = (Ok (id', m), db') →
  run_request (get_medicine autoflush' id') db' = (Ok m, db') ∧
  id' = id ∧
  Medicine.sku m = MedicineCreate.sku medicine ∧
  Medicine.name m = MedicineCreate.name medicine ∧
  Medicine.category m = MedicineCreate.category medicine ∧
  is_Some (truthy_str (Medicine.category m)) ∧
  Medicine.is_active m = true ∧
  ∀ other, other ≠ id' →
    (run_request (get_medicine autoflush' other) db').1
    = (run_request (get_medicine autoflush' other) db).1.
Proof.
  rewrite create_medicine_run.
  destruct (List.find _ _); [done |].
  destruct (truthy_str _) eqn:Hcategory; [| done].
  cbv zeta. intros [= <- <- <-]. cbn [Medicine.sku Medicine.name
    Medicine.category Medicine.is_active].
  rewrite get_medicine_run. cbn [medicines]. rewrite lookup_insert_eq.
  do 5 (split; [done |]).
  split; [rewrite Hcategory; by eexists |]. split; [done |].
  intros other Hother. rewrite !get_medicine_run. cbn [medicines].
  rewrite lookup_insert_ne by done. by destruct (medicines db !! other).
Qed.

Lemma create_medicine_get_medicine_witness :
  let medicine :=
    MedicineCreate.mk "PCM650" "Paracetamol 650" (Some "Pain Relief") (Some 2%Q) None in
  let db' := (run_request (create_medicine true medicine 2) amx500_db).2 in
  run_request (get_medicine true 2) db'
  = (Ok (Medicine.mk "PCM650" "Paracetamol 650" (Some "Pain Relief") (Some 2%Q)
           None true), db').
Proof.
  intros medicine db'.
  refine (proj1 (create_medicine_get_medicine true true amx500_db db' medicine
                   2 2 _ _)).
  by vm_compute.
Defined.

Lemma min_list_spec (first : Z) (rest : list Z) :
  min_list first rest ∈ first :: rest ∧
  ∀ x, x ∈ first :: rest → min_list first rest ≤ x.
Proof.
  unfold min_list. revert first.
  induction rest as [|y rest IH]; intros first; cbn [fold_left].
  - split; [by left |]. intros x ->%list_elem_of_singleton. lia.
  - destruct (IH (Z.min first y)) as [Hin Hmin]. split.
    + apply elem_of_cons in Hin as [-> | Hin]; [| by do 2 right].
      destruct (Z.min_spec first y) as [[_ ->] | [_ ->]]; [by left | right; by left].
    + intros x Hx. pose proof (Hmin _ (list_elem_of_here _ _)) as Hfirst.
      apply elem_of_cons in Hx as [-> | [-> | Hx]%elem_of_cons]; [lia | lia |].
      apply Hmin. by right.
Qed.

Lemma sum_positive (l : list Z) :
  (∀ x, x ∈ l → 0 < x) → l ≠ [] → 0 < sum l.
Proof.
  induction l as [|x l IH]; intros Hpos Hne; [done |]. rewrite sum_cons.
  pose proof (Hpos x (list_elem_of_here _ _)).
  destruct l as [|y l]; [cbn; lia |].
  assert (0 < sum (y :: l)); [| lia].
  apply IH; [| done]. intros z Hz. apply Hpos. by right.
Qed.

Lemma filter_filter_andb {A} (f g : A → bool) (l : list A) :
  List.filter f (List.filter g l) = List.filter (λ x, g x && f x) l.
Proof.
  induction l as [|x l IH]; [done |]. cbn [List.filter].
  destruct (g x); cbn [andb List.filter]; [| done]. by rewrite IH.
Qed.

(** X26.  What [get_stock_levels] lists.  Every entry is for an active
    medicine; its quantity is the available stock of the medicine, the sum
    over the batches with a positive quantity that are not flagged expired;
    its nearest expiry is the earliest expiry date among those batches, and
    is missing exactly when there is none, in which case the quantity is 0.
    With [low_stock_only] the listing is the full one without the entries
    of 50 units or more. *)
Theorem get_stock_levels_spec (db : Store) (low_stock_only : bool) :
  Forall (λ level,
    let id := StockLevel.medicine_id level in
    let active := λ b : Batch.t,
      Batch.medicine_id b = id ∧ 0 < Batch.quantity b ∧ Batch.is_expired b = false in
    (∃ m, medicines db !! id = Some m ∧ Medicine.is_active m = true) ∧
    StockLevel.total_quantity level = available_stock (batches db) id ∧
    match StockLevel.nearest_expiry level with
    | Some d =>
      0 < StockLevel.total_quantity level ∧
      (∃ batch_id b, batches db !! batch_id = Some b ∧ active b ∧
                     Batch.expiry_date b = d) ∧
      ∀ batch_id b, batches db !! batch_id = Some b → active b →
                    d ≤ Batch.expiry_date b
    | None =>
      StockLevel.total_quantity level = 0 ∧
      ∀ batch_id b, batches db !! batch_id = Some b → ¬ active b
    end)
    (get_stock_levels db low_stock_only) ∧
  get_stock_levels db true
  = List.filter (λ level, StockLevel.total_quantity level <? 50)
      (get_stock_levels db false).
Proof.
  split.
  - apply Forall_forall. intros level Hlevel. unfold get_stock_levels in Hlevel.
    apply list_elem_of_In, in_flat_map in Hlevel as ([id m] & Hm & Hlevel).
    apply filter_In in Hm as [Hm Hactive].
    apply list_elem_of_In, elem_of_map_to_list in Hm. cbn [fst snd] in *.
    set (rows := List.filter _ (map_to_list (batches db)).*2) in Hlevel.
    assert (Hrows : ∀ b, b ∈ rows ↔
              (∃ batch_id, batches db !! batch_id = Some b) ∧
              Batch.medicine_id b = id ∧ 0 < Batch.quantity b ∧
              Batch.is_expired b = false).
    { intros b. unfold rows.
      rewrite list_elem_of_In, filter_In, <- list_elem_of_In, list_elem_of_fmap.
      rewrite !andb_true_iff, negb_true_iff, Z.eqb_eq, Z.gtb_gt.
      split.
      - intros [([batch_id b'] & -> & Hin) Hb]. split; [| intuition lia].
        exists batch_id. by apply elem_of_map_to_list.
      - intros [[batch_id Hb] Hactive']. split; [| intuition lia].
        exists (batch_id, b). split; [done |]. by apply elem_of_map_to_list. }
    assert (Hstock : sum (Batch.quantity <$> rows) = available_stock (batches db) id).
    { unfold available_stock, batches_of, rows. rewrite filter_filter_andb.
      do 2 f_equal. apply List.filter_ext. intros b.
      by rewrite andb_assoc. }
    destruct (low_stock_only && _); [by destruct Hlevel |].
    destruct Hlevel as [<- | []]. cbn.
    split; [by exists m |]. split; [done |].
    destruct rows as [|b rows'] eqn:Hlist; cbn [fmap list_fmap].
    + split; [done |]. intros batch_id b Hb (Hid & Hquantity & Hflag).
      assert (Hin : b ∈ @nil Batch.t); [| by apply elem_of_nil in Hin].
      apply Hrows. split; [by exists batch_id | done].
    + destruct (min_list_spec (Batch.expiry_date b) (Batch.expiry_date <$> rows'))
        as [Hin Hmin].
      change (Batch.expiry_date b :: (Batch.expiry_date <$> rows'))
        with (Batch.expiry_date <$> b :: rows') in Hin, Hmin.
      split; [| split].
      * change (Batch.quantity b :: (Batch.quantity <$> rows'))
          with (Batch.quantity <$> b :: rows').
        apply sum_positive; [| done].
        intros q (b' & -> & Hb')%list_elem_of_fmap.
        by apply Hrows in Hb' as (_ & _ & Hpositive & _).
      * apply list_elem_of_fmap in Hin as (b' & Hd & Hb').
        apply Hrows in Hb' as [[batch_id Hb'] Hactive'].
        by exists batch_id, b'.
      * intros batch_id b' Hb' Hactive'. apply Hmin, list_elem_of_fmap.
        exists b'. split; [done |]. apply Hrows. split; [by exists batch_id | done].
  - unfold get_stock_levels.
    induction (List.filter _ (map_to_list (medicines db))) as [|medicine l IH];
      [done |].
    cbn [flat_map]. rewrite List.filter_app, <- IH. f_equal.
    cbn [andb]. set (total := sum _).
    destruct (Z.geb_spec total 50) as [Hge | Hlt];
      cbn [List.filter StockLevel.total_quantity].
    + by rewrite (proj2 (Z.ltb_ge total 50)) by lia.
    + by rewrite (proj2 (Z.ltb_lt total 50)) by lia.
Qed.

(** ** Waste by medicine and by category *)

Lemma sum_app (l1 l2 : list Z) : sum (l1 ++ l2) = sum l1 + sum l2.
Proof.
  induction l1 as [|x l1 IH]; [change (sum []) with 0; cbn [app]; lia |].
  rewrite <- app_comm_cons, !sum_cons, IH. lia.
Qed.

Lemma upsert_fst {K V} `{EqDecision K} (k : K) (init : V) (f : V → V)
    (d : list (K * V)) :
  (upsert k init f d).*1 = if decide (k ∈ d.*1) then d.*1 else d.*1 ++ [k].
Proof.
  induction d as [|[k' v] d IH]; cbn [upsert fst snd].
  - by rewrite decide_False by apply not_elem_of_nil.
  - destruct (decide (k' = k)) as [-> | Hne].
    + rewrite decide_True by (rewrite fmap_cons; by left). done.
    + rewrite !fmap_cons, IH. cbn [fst].
      destruct (decide (k ∈ d.*1)) as [Hin | Hnotin].
      * rewrite decide_True by (by right). done.
      * rewrite decide_False; [done |].
        intros [? | ?]%elem_of_cons; [by apply Hne | done].
Qed.

Lemma elem_of_upsert {K V} `{EqDecision K} (k : K) (init : V) (f : V → V)
    (d : list (K * V)) (k' : K) (v' : V) :
  NoDup d.*1 →
  (k', v') ∈ upsert k init f d →
  (k' ≠ k ∧ (k', v') ∈ d)
  ∨ (k' = k ∧ ∃ v, v' = f v ∧ ((k, v) ∈ d ∨ (v = init ∧ k ∉ d.*1))).
Proof.
  induction d as [|[k0 v0] d IH]; intros Hnodup Hin; cbn [upsert fst snd] in Hin.
  - apply list_elem_of_singleton in Hin as [= -> ->]. right. split; [done |].
    exists init. split; [done |]. right. split; [done | apply not_elem_of_nil].
  - rewrite fmap_cons in Hnodup. apply NoDup_cons in Hnodup as [Hk0 Hnodup].
    cbn [fst] in Hk0.
    destruct (decide (k0 = k)) as [-> | Hne].
    + apply elem_of_cons in Hin as [[= -> ->] | Hin].
      * right. split; [done |]. exists v0. split; [done |]. left. by left.
      * left. split; [| by right]. intros ->. apply Hk0.
        apply list_elem_of_fmap. by exists (k, v').
    + apply elem_of_cons in Hin as [[= -> ->] | Hin].
      * left. split; [done | by left].
      * destruct (IH Hnodup Hin) as [[Hne' Hd] | (-> & v & -> & Hv)].
        -- left. split; [done | by right].
        -- right. split; [done |]. exists v. split; [done |].
           destruct Hv as [Hv | [-> Hnotin]]; [left; by right |].
           right. split; [done |]. rewrite fmap_cons.
           intros [? | ?]%elem_of_cons; [by apply Hne | done].
Qed.

(** A loop that accumulates rows into a dict, one entry per key. *)
Section Aggregate.

Context {K V A : Type} `{EqDecision K}.
Variables (key : A → K) (init : A → V) (add : A → V → V).
Variable tag : K → V → Prop.
Variables (measure : V → Z) (weight : A → Z).

Hypothesis tag_init : ∀ a, tag (key a) (init a).
Hypothesis tag_add : ∀ a k v, tag k v → tag k (add a v).
Hypothesis measure_init : ∀ a, measure (init a) = 0.
Hypothesis measure_add : ∀ a v, measure (add a v) = measure v + weight a.

Lemma fold_upsert_spec (rows : list A) :
  let d := fold_left (λ d a, upsert (key a) (init a) (add a) d) rows [] in
  NoDup d.*1 ∧
  (length d ≤ length rows)%nat ∧
  (∀ a, a ∈ rows → key a ∈ d.*1) ∧
  ∀ k v, (k, v) ∈ d →
    tag k v ∧
    (∃ a, a ∈ rows ∧ key a = k) ∧
    measure v = sum (weight <$> List.filter (λ a, bool_decide (key a = k)) rows).
Proof.
  induction rows as [|a rows IH] using rev_ind.
  - cbn. split; [constructor |]. split; [done |].
    split; [by intros a Ha%elem_of_nil | by intros k v Hin%elem_of_nil].
  - rewrite fold_left_app. cbn [fold_left].
    set (d := fold_left _ rows []) in *. cbv zeta in IH.
    destruct IH as (Hnodup & Hlength & Hkeys & Hentries).
    assert (Hfst := upsert_fst (key a) (init a) (add a) d).
    cbv zeta. split; [| split; [| split]].
    + rewrite Hfst. destruct (decide (key a ∈ d.*1)); [done |].
      apply NoDup_app. split; [done |]. split; [| apply NoDup_singleton].
      by intros k Hk ->%list_elem_of_singleton.
    + apply (f_equal length) in Hfst. rewrite !length_fmap in Hfst.
      rewrite Hfst, length_app. cbn.
      destruct (decide (key a ∈ d.*1)); rewrite ?length_app, ?length_fmap; cbn; lia.
    + intros a' [Ha' | ->%list_elem_of_singleton]%elem_of_app; rewrite Hfst.
      * destruct (decide (key a ∈ d.*1)); [by apply Hkeys |].
        apply elem_of_app. left. by apply Hkeys.
      * destruct (decide (key a ∈ d.*1)); [done |].
        apply elem_of_app. right. by left.
    + intros k v Hin. rewrite List.filter_app, fmap_app, sum_app. cbn [List.filter].
      destruct (elem_of_upsert _ _ _ _ _ _ Hnodup Hin)
        as [[Hne Hd] | (-> & v0 & -> & Hv0)].
      * destruct (Hentries k v Hd) as (Htag & (a' & Ha' & Hkey) & Hmeasure).
        split; [done |]. split.
        -- exists a'. split; [apply elem_of_app; by left | done].
        -- rewrite bool_decide_eq_false_2 by done. cbn. lia.
      * rewrite bool_decide_eq_true_2 by done.
        rewrite fmap_cons, sum_cons. cbn [fmap list_fmap].
        change (sum []) with 0. rewrite measure_add.
        split; [| split].
        -- apply tag_add. destruct Hv0 as [Hd | [-> _]]; [| apply tag_init].
           by apply Hentries.
        -- exists a. split; [apply elem_of_app; right; by left | done].
        -- destruct Hv0 as [Hd | [-> Hnotin]].
           ++ destruct (Hentries _ _ Hd) as (_ & _ & ->). lia.
           ++ rewrite measure_init, filter_none; [cbn; lia |].
              intros a' Ha'. apply bool_decide_eq_false. intros Hkey.
              apply Hnotin. rewrite <- Hkey. by apply Hkeys.
Qed.

End Aggregate.

(** X27.  The waste by category has one entry per category, none of them
    with an empty name: a medicine without category, or with an empty one,
    is booked under "uncategorized".  Every batch of the listing that has a
    medicine row is booked under the category of its medicine, and every
    entry counts the batches booked under it, at least one, and adds up
    their quantities. *)
Theorem get_waste_by_category_spec (db : Store) (now : Z)
    (start_date end_date : option Z) :
  let end_ := default now end_date in
  let start := default (end_ - 90 * day) start_date in
  let rows :=
    join_medicine (medicines db)
      (List.filter (wasted start end_) (map_to_list (batches db)).*2) in
  let category_of := λ row : Batch.t * Medicine.t,
    default "uncategorized" (truthy_str (Medicine.category row.2)) in
  let result := get_waste_by_category db now start_date end_date in
  NoDup (CategoryWaste.category <$> result) ∧
  (∀ row, row ∈ rows → category_of row ∈ CategoryWaste.category <$> result) ∧
  Forall (λ entry,
    let booked :=
      List.filter (λ row, bool_decide (category_of row = CategoryWaste.category entry))
        rows in
    CategoryWaste.category entry ≠ "" ∧
    1 ≤ CategoryWaste.count entry ∧
    CategoryWaste.count entry = Z.of_nat (length booked) ∧
    CategoryWaste.quantity entry = sum (Batch.quantity <$> booked.*1)) result.
Proof.
  cbv zeta. unfold get_waste_by_category.
  set (rows := join_medicine _ _).
  set (category_of := λ row : Batch.t * Medicine.t,
         default "uncategorized" (truthy_str (Medicine.category row.2))).
  set (init := λ row : Batch.t * Medicine.t,
         CategoryWaste.mk (category_of row) 0 0 0).
  set (add := λ (row : Batch.t * Medicine.t) entry,
         CategoryWaste.mk (CategoryWaste.category entry)
           (CategoryWaste.quantity entry + Batch.quantity row.1)
           (CategoryWaste.value entry
            + inject_Z (Batch.quantity row.1) * default 0 (Medicine.mrp row.2))%Q
           (CategoryWaste.count entry + 1)).
  assert (Hfold : fold_left add_category_waste rows []
                  = fold_left (λ d row, upsert (category_of row) (init row) (add row) d)
                      rows []).
  { generalize (@nil (string * CategoryWaste.t)).
    induction rows as [|[b m] l IH]; intros d; [done |]. cbn [fold_left].
    by rewrite IH. }
  rewrite Hfold. clear Hfold.
  set (tag := λ (k : string) entry, CategoryWaste.category entry = k ∧ k ≠ "").
  assert (Htag_init : ∀ row, tag (category_of row) (init row)).
  { intros row. split; [done |]. unfold category_of, truthy_str.
    destruct (Medicine.category row.2) as [c|]; [| done].
    destruct (String.eqb_spec c ""); [done |]. done. }
  assert (Htag_add : ∀ row k entry, tag k entry → tag k (add row entry)) by done.
  pose proof (fold_upsert_spec category_of init add tag CategoryWaste.quantity
                (λ row, Batch.quantity row.1) Htag_init Htag_add
                ltac:(done) ltac:(done) rows)
    as (Hnodup & _ & Hkeys & Hquantity).
  pose proof (fold_upsert_spec category_of init add tag CategoryWaste.count
                (λ _, 1) Htag_init Htag_add ltac:(done) ltac:(done) rows)
    as (_ & _ & _ & Hcount).
  cbv zeta in *. set (d := fold_left _ rows []) in *.
  assert (Hcategories : CategoryWaste.category <$> d.*2 = d.*1).
  { rewrite <- list_fmap_compose. apply Forall_fmap_ext_1, Forall_forall.
    intros [k entry] Hin. by apply Hquantity in Hin as ([? _] & _). }
  rewrite Hcategories. split; [done |]. split; [done |].
  apply Forall_forall. intros entry ([k entry'] & -> & Hin)%list_elem_of_fmap.
  cbn [snd].
  destruct (Hquantity _ _ Hin) as ([Hk Hne] & (row & Hrow & Hkey) & Hsum).
  destruct (Hcount _ _ Hin) as (_ & _ & Hlength).
  rewrite Hk.
  assert (Hones : ∀ l : list (Batch.t * Medicine.t),
            sum ((λ _, 1) <$> l) = Z.of_nat (length l)).
  { induction l as [|x l IH]; [done |]. rewrite fmap_cons, sum_cons, IH.
    cbn [length]. lia. }
  rewrite Hones in Hlength.
  split; [exact Hne |]. split; [| split].
  - rewrite Hlength.
    assert (Hbooked : row ∈ List.filter (λ row, bool_decide (category_of row = k)) rows).
    { apply list_elem_of_In, filter_In. split; [by apply list_elem_of_In |].
      by apply bool_decide_eq_true. }
    destruct (List.filter _ rows); [by apply elem_of_nil in Hbooked | cbn; lia].
  - done.
  - by rewrite Hsum, <- list_fmap_compose.
Qed.

Lemma slice_to_take {A} (limit : Z) (l : list A) :
  ∃ n, slice_to limit l = take n l ∧ (0 ≤ limit → Z.of_nat n = limit).
Proof.
  unfold slice_to. destruct (Z.leb_spec 0 limit).
  - exists (Z.to_nat limit). split; [done | lia].
  - eexists. split; [done | lia].
Qed.

Lemma StronglySorted_take {A} (R : A → A → Prop) (n : nat) (l : list A) :
  StronglySorted R l → StronglySorted R (take n l).
Proof.
  intros Hl. revert n. induction Hl as [|x l Hl IH Hx]; intros [|n]; cbn;
    try constructor; [apply IH | by apply Forall_take].
Qed.

Lemma join_medicine_fst (table : gmap Z Medicine.t) (l : list Batch.t) :
  (∀ b, b ∈ l → is_Some (table !! Batch.medicine_id b)) →
  (join_medicine table l).*1 = l.
Proof.
  induction l as [|b l IH]; intros Hfk; [done |]. unfold join_medicine in *.
  cbn [omap list_omap]. destruct (Hfk b) as [m Hm]; [by left |].
  rewrite Hm. cbn. f_equal. apply IH. intros b' Hb'. apply Hfk. by right.
Qed.

Lemma fold_add_waste_item (table : gmap Z Medicine.t) (l : list Batch.t)
    (d : list (Z * WasteItem.t)) :
  (∀ b, b ∈ l → is_Some (table !! Batch.medicine_id b)) →
  fold_left (add_waste_item table) l (Some d)
  = Some (fold_left
            (λ d (row : Batch.t * Medicine.t),
               upsert (Batch.medicine_id row.1)
                 (WasteItem.mk (Batch.medicine_id row.1) (Medicine.name row.2)
                    (Medicine.sku row.2) (Medicine.category row.2) 0 0)
                 (λ item,
                    WasteItem.mk (WasteItem.medicine_id item)
                      (WasteItem.medicine_name item) (WasteItem.sku item)
                      (WasteItem.category item)
                      (WasteItem.quantity item + Batch.quantity row.1)
                      (WasteItem.value item
                       + inject_Z (Batch.quantity row.1)
                         * default 0 (Medicine.mrp row.2))%Q)
                 d)
            (join_medicine table l) d).
Proof.
  revert d. induction l as [|b l IH]; intros d Hfk; [done |].
  unfold join_medicine in *. cbn [fold_left omap list_omap].
  destruct (Hfk b) as [m Hm]; [by left |].
  unfold add_waste_item at 2. cbn. rewrite Hm. cbn.
  rewrite IH by (intros b' Hb'; apply Hfk; by right). done.
Qed.

(** X28.  On a ledger whose batches all reference a medicine row,
    [get_top_waste_items] answers with at most [limit] items (for a limit
    that is not negative), sorted by value, largest first, no two for the
    same medicine; the quantity of an item is the sum of the quantities of
    the wasted batches of its medicine, of which there is at least one.
    When the limit is not below the number of wasted batches, every
    medicine with a wasted batch is listed. *)
Theorem get_top_waste_items_spec (db : Store) (now limit : Z)
    (start_date end_date : option Z) :
  batches_have_medicine db →
  let end_ := default now end_date in
  let start := default (end_ - 90 * day) start_date in
  let wasted_batches :=
    List.filter (wasted start end_) (map_to_list (batches db)).*2 in
  ∃ items,
    get_top_waste_items db now limit start_date end_date = Ok items ∧
    (0 ≤ limit → Z.of_nat (length items) ≤ limit) ∧
    StronglySorted (λ x y, (WasteItem.value y <= WasteItem.value x)%Q) items ∧
    NoDup (WasteItem.medicine_id <$> items) ∧
    Forall (λ item,
      let batches_ :=
        List.filter (λ b, bool_decide (Batch.medicine_id b = WasteItem.medicine_id item))
          wasted_batches in
      batches_ ≠ [] ∧
      WasteItem.quantity item = sum (Batch.quantity <$> batches_)) items ∧
    (Z.of_nat (length wasted_batches) ≤ limit →
     ∀ b, b ∈ wasted_batches →
          Batch.medicine_id b ∈ WasteItem.medicine_id <$> items).
Proof.
  intros Hfk. cbv zeta. unfold get_top_waste_items.
  set (l := List.filter _ (map_to_list (batches db)).*2).
  assert (Hl : ∀ b, b ∈ l → is_Some (medicines db !! Batch.medicine_id b)).
  { intros b [Hb _]%list_elem_of_In%filter_In.
    apply list_elem_of_In, list_elem_of_fmap in Hb as ([id b'] & -> & Hb).
    apply elem_of_map_to_list in Hb. by eapply Hfk. }
  rewrite (fold_add_waste_item _ _ _ Hl).
  set (rows := join_medicine (medicines db) l).
  pose proof (join_medicine_fst _ _ Hl) as Hrows. fold rows in Hrows.
  pose proof (fold_upsert_spec
                (λ row : Batch.t * Medicine.t, Batch.medicine_id row.1)
                (λ row, WasteItem.mk (Batch.medicine_id row.1) (Medicine.name row.2)
                          (Medicine.sku row.2) (Medicine.category row.2) 0 0)
                (λ row item,
                   WasteItem.mk (WasteItem.medicine_id item)
                     (WasteItem.medicine_name item) (WasteItem.sku item)
                     (WasteItem.category item)
                     (WasteItem.quantity item + Batch.quantity row.1)
                     (WasteItem.value item
                      + inject_Z (Batch.quantity row.1)
                        * default 0 (Medicine.mrp row.2))%Q)
                (λ k item, WasteItem.medicine_id item = k)
                WasteItem.quantity (λ row, Batch.quantity row.1)
                ltac:(done) ltac:(done) ltac:(done) ltac:(done) rows)
    as (Hnodup & Hlength & Hkeys & Hentries).
  cbv zeta in *. set (d := fold_left _ rows []) in *.
  set (le := λ x y, Qle_bool (WasteItem.value y) (WasteItem.value x)).
  assert (Hids : WasteItem.medicine_id <$> d.*2 = d.*1).
  { rewrite <- list_fmap_compose. apply Forall_fmap_ext_1, Forall_forall.
    intros [k item] Hin. by apply Hentries in Hin as (? & _). }
  assert (Hfilter : ∀ k,
            (List.filter (λ row : Batch.t * Medicine.t,
                            bool_decide (Batch.medicine_id row.1 = k)) rows).*1
            = List.filter (λ b, bool_decide (Batch.medicine_id b = k)) l).
  { intros k. rewrite <- Hrows. clear.
    induction rows as [|row rows IH]; [done |]. cbn [List.filter fmap list_fmap].
    destruct (bool_decide _); cbn; by rewrite IH. }
  destruct (slice_to_take limit (sort_by le d.*2)) as (n & Hslice & Hn).
  eexists. split; [done |]. rewrite Hslice.
  split; [| split; [| split; [| split]]].
  - intros Hlimit. rewrite length_take. specialize (Hn Hlimit). lia.
  - apply StronglySorted_take.
    apply (StronglySorted_impl (λ x y, le x y = true)).
    + intros x y. apply Qle_bool_iff.
    + apply sort_by_sorted; unfold le.
      * intros x y Hxy. apply Qle_bool_iff.
        destruct (Qlt_le_dec (WasteItem.value x) (WasteItem.value y)) as [Hlt | Hle].
        -- by apply Qlt_le_weak.
        -- apply Qle_bool_iff in Hle. congruence.
      * intros x y z Hxy%Qle_bool_iff Hyz%Qle_bool_iff. apply Qle_bool_iff.
        by eapply Qle_trans.
  - rewrite fmap_take.
    apply (sublist_NoDup _ (WasteItem.medicine_id <$> sort_by le d.*2));
      [| apply sublist_take].
    by rewrite sort_by_Permutation, Hids.
  - apply Forall_forall. intros item Hitem.
    apply elem_of_take in Hitem as (i & Hitem & _).
    apply list_elem_of_lookup_2 in Hitem. rewrite sort_by_Permutation in Hitem.
    apply list_elem_of_fmap in Hitem as ([k item'] & -> & Hin). cbn [snd].
    destruct (Hentries _ _ Hin) as (Hk & (row & Hrow & Hkey) & Hsum).
    rewrite Hk, <- Hfilter. split.
    + assert (Hbooked : row ∈ List.filter
                (λ row : Batch.t * Medicine.t,
                   bool_decide (Batch.medicine_id row.1 = k)) rows).
      { apply list_elem_of_In, filter_In. split; [by apply list_elem_of_In |].
        by apply bool_decide_eq_true. }
      by destruct (List.filter _ rows); [apply elem_of_nil in Hbooked |].
    + by rewrite Hsum, <- list_fmap_compose.
  - intros Hlimit b Hb.
    assert (Hall : take n (sort_by le d.*2) = sort_by le d.*2).
    { apply take_ge.
      assert (Hlen : length (sort_by le d.*2) = length d)
        by (by rewrite sort_by_Permutation, length_fmap).
      assert (length rows = length l) by (by rewrite <- Hrows, length_fmap).
      specialize (Hn ltac:(lia)). lia. }
    rewrite Hall, sort_by_Permutation, Hids.
    rewrite <- Hrows in Hb. apply list_elem_of_fmap in Hb as (row & -> & Hrow).
    by apply (Hkeys row).
Qed.

Lemma get_top_waste_items_spec_witness :
  ∃ items,
    get_top_waste_items waste_db (4 * day) 10 None None = Ok items ∧
    NoDup (WasteItem.medicine_id <$> items).
Proof.
  assert (Hfk : batches_have_medicine waste_db).
  { apply (bool_decide_unpack
             (map_Forall (λ _ b, is_Some (medicines waste_db !! Batch.medicine_id b))
                (batches waste_db))).
    by vm_compute. }
  destruct (get_top_waste_items_spec waste_db (4 * day) 10 None None Hfk)
    as (items & Hrun & _ & _ & Hnodup & _).
  by exists items.
Defined.

(** ** Disposal and the waste analytics *)

Lemma waste_batches_shares (db : Store) (flag : Batch.t → bool)
    (stamp : Batch.t → option Z) (start_date end_date : Z)
    (category : option string) :
  sum (Batch.quantity <$> waste_batches db flag stamp start_date end_date category)
  = sum (waste_share (medicines db) flag stamp start_date end_date category
           <$> (map_to_list (batches db)).*2).
Proof.
  unfold waste_batches, waste_share.
  induction ((map_to_list (batches db)).*2) as [|b l IH].
  { by destruct (truthy_str category). }
  rewrite fmap_cons, sum_cons, <- IH. clear IH. cbn [List.filter].
  destruct (flag b && in_window start_date end_date (stamp b)); cbn [andb].
  - destruct (truthy_str category) as [c|]; cbn [List.filter].
    + destruct (in_category (medicines db) c b); [by rewrite fmap_cons, sum_cons |].
      lia.
    + by rewrite fmap_cons, sum_cons.
  - destruct (truthy_str category); lia.
Qed.

Lemma sum_shares_insert (share : Batch.t → Z) (table : gmap Z Batch.t)
    (id : Z) (b : Batch.t) :
  sum (share <$> (map_to_list (<[id := b]> table)).*2)
  = share b + sum (share <$> (map_to_list (delete id table)).*2).
Proof.
  rewrite <- (insert_delete_eq table).
  rewrite (sum_Permutation _ (share <$> ((id, b) :: map_to_list (delete id table)).*2)).
  2: { by rewrite map_to_list_insert by apply lookup_delete_eq. }
  by rewrite !fmap_cons, sum_cons.
Qed.

(** The quantities of the analytics as sums of shares over all batches. *)
Lemma get_waste_analytics_quantities (db : Store) (now : Z)
    (start_date end_date : option Z) (category : option string) :
  batches_have_medicine db →
  let e := default now end_date in
  let s := default (e - 90 * day) start_date in
  let quantity := λ flag stamp,
    sum (waste_share (medicines db) flag stamp s e category
           <$> (map_to_list (batches db)).*2) in
  ∃ r,
    get_waste_analytics db now start_date end_date category = Ok r ∧
    Bucket.quantity (WasteAnalytics.expired r)
    = quantity Batch.is_expired (λ b, Some (Batch.expiry_date b)) ∧
    Bucket.quantity (WasteAnalytics.damaged r)
    = quantity Batch.is_damaged Batch.updated_at ∧
    Bucket.quantity (WasteAnalytics.recalled r)
    = quantity Batch.is_recalled Batch.updated_at ∧
    Bucket.quantity (WasteAnalytics.returned r)
    = quantity Batch.is_returned Batch.updated_at ∧
    WasteAnalytics.total_quantity r
    = Bucket.quantity (WasteAnalytics.expired r)
      + Bucket.quantity (WasteAnalytics.damaged r)
      + Bucket.quantity (WasteAnalytics.recalled r)
      + Bucket.quantity (WasteAnalytics.returned r).
Proof.
  intros Hfk e s quantity. subst quantity. unfold get_waste_analytics.
  fold e. fold s.
  assert (Hbucket : ∀ flag stamp,
    ∃ bk, bucket (medicines db) (waste_batches db flag stamp s e category) = Some bk ∧
          Bucket.quantity bk
          = sum (waste_share (medicines db) flag stamp s e category
                   <$> (map_to_list (batches db)).*2)).
  { intros flag stamp.
    destruct (bucket_is_Some (medicines db)
                (waste_batches db flag stamp s e category)) as [bk Hbk].
    { intros b Hb. apply elem_of_waste_batches in Hb as [id Hid]. by eapply Hfk. }
    exists bk. split; [done |]. rewrite <- waste_batches_shares.
    unfold bucket in Hbk. destruct (mapM _ _); [| done].
    cbn [mbind option_bind] in Hbk. by injection Hbk as <-. }
  destruct (Hbucket Batch.is_expired (λ b, Some (Batch.expiry_date b)))
    as (ex & -> & Hex).
  destruct (Hbucket Batch.is_damaged Batch.updated_at) as (da & -> & Hda).
  destruct (Hbucket Batch.is_recalled Batch.updated_at) as (rc & -> & Hrc).
  destruct (Hbucket Batch.is_returned Batch.updated_at) as (rt & -> & Hrt).
  eexists. split; [reflexivity |]. by cbn.
Qed.

Lemma batches_have_medicine_insert (db : Store) (id : Z) (b b' : Batch.t)
    (txs : list InventoryTransaction.t) :
  batches_have_medicine db → batches db !! id = Some b →
  Batch.medicine_id b' = Batch.medicine_id b →
  batches_have_medicine
    (mkStore (medicines db) (<[id := b']> (batches db)) txs (alerts db))
  ∧ batches_have_medicine
      (without_batch
         (mkStore (medicines db) (<[id := b']> (batches db)) txs (alerts db)) id).
Proof.
  intros Hfk Hb Hmedicine. split; intros id' b''; cbn.
  - intros [[<- <-] | [_ Hb']]%lookup_insert_Some; [| by eapply Hfk].
    rewrite Hmedicine. by eapply Hfk.
  - rewrite delete_insert_eq. intros [_ Hb']%lookup_delete_Some. by eapply Hfk.
Qed.

(** X29.  The units of a batch that was written off with
    [mark_batch_expired] are in no figure of the waste analytics: the
    request sets the quantity of the batch to 0, and the analytics add up
    the current quantities.  For every period and category, the quantity of
    each bucket and the total quantity are what they are on the ledger
    without the batch. *)
Theorem mark_batch_expired_waste_quantity (autoflush : bool) (db : Store)
    (batch_id now current_user : Z) (batch : Batch.t)
    (asked : Z) (start_date end_date : option Z) (category : option string) :
  batches_have_medicine db →
  batches db !! batch_id = Some batch →
  let db' :=
    (run_request (mark_batch_expired autoflush batch_id now current_user) db).2 in
  ∃ r r0,
    get_waste_analytics db' asked start_date end_date category = Ok r ∧
    get_waste_analytics (without_batch db' batch_id) asked start_date end_date
      category = Ok r0 ∧
    Bucket.quantity (WasteAnalytics.expired r)
    = Bucket.quantity (WasteAnalytics.expired r0) ∧
    Bucket.quantity (WasteAnalytics.damaged r)
    = Bucket.quantity (WasteAnalytics.damaged r0) ∧
    Bucket.quantity (WasteAnalytics.recalled r)
    = Bucket.quantity (WasteAnalytics.recalled r0) ∧
    Bucket.quantity (WasteAnalytics.returned r)
    = Bucket.quantity (WasteAnalytics.returned r0) ∧
    WasteAnalytics.total_quantity r = WasteAnalytics.total_quantity r0.
Proof.
  intros Hfk Hbatch. cbv zeta.
  rewrite (mark_batch_expired_run _ _ _ _ _ _ Hbatch). cbn [snd].
  set (batch' := Batch.set_quantity 0 now (Batch.set_is_expired true now batch)).
  destruct (batches_have_medicine_insert db batch_id batch batch'
              (transactions db
               ++ [InventoryTransaction.mk (Batch.medicine_id batch) (Some batch_id)
                     EXPIRED 0 None (Some "Marked as expired")
                     (Some current_user) now]) Hfk Hbatch eq_refl)
    as [Hfk' Hfk0].
  destruct (get_waste_analytics_quantities _ asked start_date end_date category Hfk')
    as (r & Hr & Hex & Hda & Hrc & Hrt & Htotal).
  destruct (get_waste_analytics_quantities _ asked start_date end_date category Hfk0)
    as (r0 & Hr0 & Hex0 & Hda0 & Hrc0 & Hrt0 & Htotal0).
  exists r, r0. split; [done |]. split; [done |].
  cbn [without_batch batches medicines] in *.
  rewrite delete_insert_eq in *.
  assert (Hshare : ∀ flag stamp s e,
            waste_share (medicines db) flag stamp s e category batch' = 0).
  { intros flag stamp s e. unfold waste_share. by destruct (_ && _). }
  rewrite sum_shares_insert, Hshare in Hex, Hda, Hrc, Hrt.
  rewrite Htotal, Htotal0. lia.
Qed.

(** The 10 expired units of the second batch of the waste scenario are in
    the analytics before the batch is marked expired and not after. *)
Lemma mark_batch_expired_waste_quantity_witness :
  let db' := (run_request (mark_batch_expired true 2 (3 * day) 7) waste_db).2 in
  (∃ r, get_waste_analytics waste_db (4 * day) None None None = Ok r ∧
        Bucket.quantity (WasteAnalytics.expired r) = 10) ∧
  ∃ r, get_waste_analytics db' (4 * day) None None None = Ok r ∧
       Bucket.quantity (WasteAnalytics.expired r) = 0.
Proof.
  assert (Hfk : batches_have_medicine waste_db).
  { apply (bool_decide_unpack
             (map_Forall (λ _ b, is_Some (medicines waste_db !! Batch.medicine_id b))
                (batches waste_db))).
    by vm_compute. }
  split; [eexists; split; [by vm_compute | by vm_compute] |].
  destruct (mark_batch_expired_waste_quantity true waste_db 2 (3 * day) 7
              (Batch.mk 1 "B-002" 10 (2 * day) true false false false (Some (3 * day)))
              (4 * day) None None None Hfk eq_refl)
    as (r & r0 & Hr & Hr0 & Hexpired & _).
  exists r. split; [exact Hr |]. rewrite Hexpired.
  assert (Hwithout : get_waste_analytics
            (without_batch
               (run_request (mark_batch_expired true 2 (3 * day) 7) waste_db).2 2)
            (4 * day) None None None = Ok r0) by exact Hr0.
  vm_compute in Hwithout. by injection Hwithout as <-.
Defined.

(** X30.  The waste analytics report as damaged what is left in a batch,
    not what was written off: after [mark_batch_damaged] has taken
    [quantity] units, at least one, out of a batch, the damaged bucket of a
    period that covers the time of the request holds the remaining
    [batch.quantity - quantity] units of that batch on top of the other
    batches, and the batch adds nothing to a period that does not cover
    it. *)
Theorem mark_batch_damaged_waste_quantity (autoflush : bool) (db : Store)
    (batch_id quantity now current_user : Z) (batch : Batch.t)
    (asked : Z) (start_date end_date : option Z) :
  batches_have_medicine db →
  batches db !! batch_id = Some batch →
  0 < quantity ≤ Batch.quantity batch →
  let db' :=
    (run_request (mark_batch_damaged autoflush batch_id quantity now current_user)
       db).2 in
  let e := default asked end_date in
  let s := default (e - 90 * day) start_date in
  ∃ r r0,
    get_waste_analytics db' asked start_date end_date None = Ok r ∧
    get_waste_analytics (without_batch db' batch_id) asked start_date end_date None
    = Ok r0 ∧
    Bucket.quantity (WasteAnalytics.damaged r)
    = Bucket.quantity (WasteAnalytics.damaged r0)
      + (if (s <=? now) && (now <=? e) then Batch.quantity batch - quantity else 0).
Proof.
  intros Hfk Hbatch [_ Hquantity]. cbv zeta.
  rewrite (mark_batch_damaged_run _ _ _ _ _ _ _ Hbatch Hquantity). cbn [snd].
  set (batch' := Batch.set_quantity (Batch.quantity batch - quantity) now
                   (Batch.set_is_damaged true now batch)).
  destruct (batches_have_medicine_insert db batch_id batch batch'
              (transactions db
               ++ [InventoryTransaction.mk (Batch.medicine_id batch) (Some batch_id)
                     DAMAGED quantity None (Some "Marked as damaged")
                     (Some current_user) now]) Hfk Hbatch eq_refl)
    as [Hfk' Hfk0].
  destruct (get_waste_analytics_quantities _ asked start_date end_date None Hfk')
    as (r & Hr & _ & Hda & _).
  destruct (get_waste_analytics_quantities _ asked start_date end_date None Hfk0)
    as (r0 & Hr0 & _ & Hda0 & _).
  exists r, r0. split; [done |]. split; [done |].
  cbn [without_batch batches medicines] in *.
  rewrite delete_insert_eq in *.
  rewrite sum_shares_insert in Hda. rewrite Hda, Hda0.
  unfold waste_share at 1. cbn. rewrite Z.geb_leb, andb_true_r.
  destruct (_ && _); lia.
Qed.

(** Ten of the 100 units of the scenario batch are marked damaged on day 3:
    the analytics of day 4 report 90 damaged units. *)
Lemma mark_batch_damaged_waste_quantity_witness :
  let db' := (run_request (mark_batch_damaged true 1 10 (3 * day) 7) waste_db).2 in
  ∃ r, get_waste_analytics db' (4 * day) None None None = Ok r ∧
       Bucket.quantity (WasteAnalytics.damaged r) = 90.
Proof.
  assert (Hfk : batches_have_medicine waste_db).
  { apply (bool_decide_unpack
             (map_Forall (λ _ b, is_Some (medicines waste_db !! Batch.medicine_id b))
                (batches waste_db))).
    by vm_compute. }
  destruct (mark_batch_damaged_waste_quantity true waste_db 1 10 (3 * day) 7
              amx500_batch (4 * day) None None Hfk eq_refl ltac:(by vm_compute))
    as (r & r0 & Hr & Hr0 & Hdamaged).
  exists r. split; [exact Hr |]. rewrite Hdamaged.
  assert (Hwithout : get_waste_analytics
            (without_batch
               (run_request (mark_batch_damaged true 1 10 (3 * day) 7) waste_db).2 1)
            (4 * day) None None None = Ok r0) by exact Hr0.
  vm_compute in Hwithout. injection Hwithout as <-. by vm_compute.
Defined.
